(** * ES-CLI: query compilation, result normalisation and session control

    A shallow embedding of the Python sources [time_range.py],
    [config.py], [es_client.py], [ui.py] and [main.py], followed by the
    properties of the embedding.

    Conventions of the embedding.
    - A Python [str] is a [string]; every character is a code point of the
      ASCII range.  [Py.upper] and [Py.isspace] are the restrictions of
      [str.upper] and [str.isspace] to that range.  Outside that range
      [str.upper] can change the length of a text (it turns one sharp s
      into two letters), so a property that cuts a text at a position
      found in its upper-cased form is stated for texts on which
      [Py.isascii] holds.
    - Python integers are [Z]; list indices and lengths are [nat].
    - A dictionary whose key order is observable (the [_source] of a hit
      gives the column order) is an association list; the set of empty
      column indices is a [gset nat].
    - Widgets are records of the attributes the code reads and writes.
    - The search backend and the clock are inputs ([Env]); a call to the
      backend is logged where it is made ([ESClient.invoke]). *)

From Stdlib Require Import ZArith Ascii DecimalString.
From stdpp Require Import base decidable option list gmap strings.

Set Warnings "-register-all".
Local Open Scope Z_scope.

(** ** Python string primitives *)

Module Py.

(** [str.isspace] on one ASCII character: TAB..CR, FS..US and SPACE. *)
Definition isspace (c : ascii) : bool :=
  let n := N_of_ascii c in
  ((9 <=? n)%N && (n <=? 13)%N) || ((28 <=? n)%N && (n <=? 32)%N).

Fixpoint lstrip (s : string) : string :=
  match s with
  | EmptyString => EmptyString
  | String c s' => if isspace c then lstrip s' else s
  end.

Fixpoint rstrip (s : string) : string :=
  match s with
  | EmptyString => EmptyString
  | String c s' =>
      match rstrip s' with
      | EmptyString => if isspace c then EmptyString else String c EmptyString
      | r => String c r
      end
  end.

(** [s.strip()] *)
Definition strip (s : string) : string := rstrip (lstrip s).

(** The truth value of a string: [if s:] *)
Definition truthy (s : string) : bool :=
  match s with EmptyString => false | _ => true end.

Definition upper_char (c : ascii) : ascii :=
  let n := N_of_ascii c in
  if (97 <=? n)%N && (n <=? 122)%N then ascii_of_N (n - 32) else c.

(** [s.upper()], on ASCII text (see [isascii]) *)
Fixpoint upper (s : string) : string :=
  match s with
  | EmptyString => EmptyString
  | String c s' => String (upper_char c) (upper s')
  end.

(** [s.isascii()] *)
Fixpoint isascii (s : string) : bool :=
  match s with
  | EmptyString => true
  | String c s' => (N_of_ascii c <? 128)%N && isascii s'
  end.

(** [len(s)] *)
Definition len (s : string) : Z := Z.of_nat (String.length s).

Fixpoint take (n : nat) (s : string) : string :=
  match n, s with
  | S n', String c s' => String c (take n' s')
  | _, _ => EmptyString
  end.

Fixpoint drop (n : nat) (s : string) : string :=
  match n, s with
  | S n', String _ s' => drop n' s'
  | _, _ => s
  end.

(** A slice bound [k] of a string of length [n], as Python resolves it:
    negative bounds count from the end, and the result is clipped to
    [0..n]. *)
Definition bound (n k : Z) : nat :=
  Z.to_nat (Z.min n (Z.max 0 (if k <? 0 then n + k else k))).

(** [s[:k]] *)
Definition slice_to (s : string) (k : Z) : string :=
  take (bound (len s) k) s.

(** [s[k:]] *)
Definition slice_from (s : string) (k : Z) : string :=
  drop (bound (len s) k) s.

(** Index of the first occurrence of [sub] in [s]. *)
Fixpoint index_of (sub s : string) : option nat :=
  if String.prefix sub s then Some 0%nat
  else match s with
       | EmptyString => None
       | String _ s' => S <$> index_of sub s'
       end.

(** [sub in s] *)
Definition contains (sub s : string) : bool :=
  match index_of sub s with Some _ => true | None => false end.

(** [s.find(sub, start)]; [-1] when there is no occurrence. *)
Definition find_from (s sub : string) (start : Z) : Z :=
  let b := if start <? 0 then Z.max 0 (len s + start) else start in
  if len s <? b then -1
  else match index_of sub (drop (Z.to_nat b) s) with
       | Some i => b + Z.of_nat i
       | None => -1
       end.

(** [s.find(sub)] *)
Definition find (s sub : string) : Z := find_from s sub 0.

(** [s.split(sep)[0]]: the text before the first [sep]. *)
Definition split_head (s sep : string) : string :=
  match index_of sep s with
  | Some i => take i s
  | None => s
  end.

Fixpoint spaces (n : nat) : string :=
  match n with
  | O => EmptyString
  | S n' => String " "%char (spaces n')
  end.

(** [f"{s:<{w}}"]: left-aligned in a field of width [w]; a longer text is
    not cut.  The widths that occur are at least 13. *)
Definition ljust (s : string) (w : Z) : string :=
  s +:+ spaces (Z.to_nat (w - len s)).

(** [str(n)] for an integer. *)
Definition str_int (n : Z) : string :=
  NilEmpty.string_of_int (Z.to_int n).

(** Values of a decoded JSON document as far as [str()] tells them apart.
    A float, a list or a dictionary is carried as the text that [str()]
    gives for it. *)
Inductive value : Type :=
| VNone
| VBool (b : bool)
| VInt (n : Z)
| VStr (s : string)
| VText (rendering : string).

(** [str(v)] *)
Definition str (v : value) : string :=
  match v with
  | VNone => "None"
  | VBool true => "True"
  | VBool false => "False"
  | VInt n => str_int n
  | VStr s => s
  | VText t => t
  end.

(** [d.get(k, default)] on a dictionary kept in key order. *)
Fixpoint get {A : Type} (d : list (string * A)) (k : string) (default : A) : A :=
  match d with
  | [] => default
  | (k', v) :: d' => if String.eqb k' k then v else get d' k default
  end.

(** [list(d.keys())] *)
Definition keys {A : Type} (d : list (string * A)) : list string := d.*1.

(** [l.insert(i, x)]: an index beyond the end appends. *)
Definition list_insert_at {A : Type} (i : nat) (x : A) (l : list A) : list A :=
  firstn i l ++ x :: skipn i l.

(** [range(a, b)] and [l[a:b]] for bounds that are not negative. *)
Definition range (a b : Z) : list nat :=
  seq (Z.to_nat a) (Z.to_nat b - Z.to_nat a).

Definition lslice {A : Type} (l : list A) (a b : Z) : list A :=
  firstn (Z.to_nat b - Z.to_nat a) (skipn (Z.to_nat a) l).

(** [len(l)] *)
Definition llen {A : Type} (l : list A) : Z := Z.of_nat (length l).

(** [x in l] for a list of strings. *)
Definition mem (x : string) (l : list string) : bool :=
  existsb (String.eqb x) l.

End Py.

(** ** time_range.py *)

Module TimeRange.

(** [datetime]: the fields that [strftime] prints. *)
Record datetime : Type := mk_datetime {
  year : N; month : N; day : N;
  hour : N; minute : N; second : N;
  microsecond : N
}.

(** The ranges that the [datetime] type enforces. *)
Definition valid_datetime (dt : datetime) : Prop :=
  (1 <= year dt <= 9999 /\ 1 <= month dt <= 12 /\ 1 <= day dt <= 31 /\
   hour dt < 24 /\ minute dt < 60 /\ second dt < 60 /\
   microsecond dt < 1000000)%N.

Definition digit (n : N) : ascii := ascii_of_N (48 + n mod 10).

(** The [w] low decimal digits of [n], most significant first: the
    zero-padded rendering of a field that fits its width. *)
Fixpoint pad_dec (w : nat) (n : N) : string :=
  match w with
  | O => EmptyString
  | S w' => pad_dec w' (n / 10) +:+ String (digit n) EmptyString
  end.

(** [dt.strftime('%Y-%m-%dT%H:%M:%S')].  The instants of a session are
    clock readings; their years have four digits. *)
Definition strftime_seconds (dt : datetime) : string :=
  pad_dec 4 (year dt) +:+ "-" +:+ pad_dec 2 (month dt) +:+ "-" +:+
  pad_dec 2 (day dt) +:+ "T" +:+ pad_dec 2 (hour dt) +:+ ":" +:+
  pad_dec 2 (minute dt) +:+ ":" +:+ pad_dec 2 (second dt).

(** [dt.strftime('%Y-%m-%dT%H:%M:%S.%f')] *)
Definition strftime (dt : datetime) : string :=
  strftime_seconds dt +:+ "." +:+ pad_dec 6 (microsecond dt).

(** [dt.strftime('%Y-%m-%dT%H:%M:%S.%f')[:-3] + 'Z'] *)
Definition es_timestamp (dt : datetime) : string :=
  Py.slice_to (strftime dt) (-3) +:+ "Z".

(** [to_elasticsearch_format]: the dictionary with keys [gte] and [lte]. *)
Definition to_elasticsearch_format (start_time end_time : datetime)
  : list (string * string) :=
  [("gte", es_timestamp start_time); ("lte", es_timestamp end_time)].

(** [timedelta], in seconds. *)
Definition timedelta : Type := Z.

Definition PRESETS : list (string * timedelta) :=
  [("Last 15 minutes", 15 * 60); ("Last 30 minutes", 30 * 60);
   ("Last 1 hour", 3600); ("Last 3 hours", 3 * 3600);
   ("Last 6 hours", 6 * 3600); ("Last 12 hours", 12 * 3600);
   ("Last 24 hours", 24 * 3600); ("Last 7 days", 7 * 86400);
   ("Last 30 days", 30 * 86400)].

Definition DEFAULT_PRESET : string := "Last 15 minutes".

(** [get_time_range].  The clock read and the subtraction belong to the
    runtime: [clock delta] is the pair [(utcnow() - delta, utcnow())]. *)
Definition get_time_range (clock : timedelta -> datetime * datetime)
    (preset : string) : datetime * datetime :=
  let preset :=
    if Py.mem preset (Py.keys PRESETS) then preset else DEFAULT_PRESET in
  let delta := Py.get PRESETS preset 0 in
  clock delta.

End TimeRange.

(** ** Configuration objects *)

Module PyObj.

(** A key of a mapping: a string, or anything else by its text. *)
Inductive key : Type :=
| KStr (s : string)
| KOther (repr : string).

(** The objects of a loaded configuration.  A float is carried by its text
    and by whether it is zero. *)
Inductive obj : Type :=
| ONone
| OBool (b : bool)
| OInt (n : Z)
| OFloat (nonzero : bool) (repr : string)
| OStr (s : string)
| OList (l : list obj)
| OTuple (a b : obj)
| ODict (d : list (key * obj)).

(** A dictionary, as the list of its items in insertion order. *)
Definition dict : Type := list (key * obj).

Definition key_eqb (k k' : key) : bool :=
  match k, k' with
  | KStr s, KStr s' => String.eqb s s'
  | KOther r, KOther r' => String.eqb r r'
  | _, _ => false
  end.

(** [d.get(k)]; [None] when the key is absent. *)
Fixpoint get (d : dict) (k : key) : option obj :=
  match d with
  | [] => None
  | (k', v) :: d' => if key_eqb k' k then Some v else get d' k
  end.

(** [k in d] *)
Definition mem (d : dict) (k : key) : bool :=
  match get d k with Some _ => true | None => false end.

(** [d[k] = v]: the value of a present key is replaced where it is, a new
    key goes to the end. *)
Fixpoint set (d : dict) (k : key) (v : obj) : dict :=
  match d with
  | [] => [(k, v)]
  | (k', v') :: d' =>
      if key_eqb k' k then (k', v) :: d' else (k', v') :: set d' k v
  end.

(** [{**a, **b}] *)
Definition merge (a b : dict) : dict :=
  foldl (fun acc kv => set acc kv.1 kv.2) a b.

(** The truth value of an object. *)
Definition truthy (o : obj) : bool :=
  match o with
  | ONone => false
  | OBool b => b
  | OInt n => negb (n =? 0)
  | OFloat nonzero _ => nonzero
  | OStr s => Py.truthy s
  | OList l => match l with [] => false | _ => true end
  | OTuple _ _ => true
  | ODict d => match d with [] => false | _ => true end
  end.

(** [s.rstrip('/')] for a one-character set [c]. *)
Fixpoint rstrip_char (c : ascii) (s : string) : string :=
  match s with
  | EmptyString => EmptyString
  | String a s' =>
      match rstrip_char c s' with
      | EmptyString =>
          if Ascii.eqb a c then EmptyString else String a EmptyString
      | r => String a r
      end
  end.

(** [type(o).__name__] *)
Definition type_name (o : obj) : string :=
  match o with
  | ONone => "NoneType"
  | OBool _ => "bool"
  | OInt _ => "int"
  | OFloat _ _ => "float"
  | OStr _ => "str"
  | OList _ => "list"
  | OTuple _ _ => "tuple"
  | ODict _ => "dict"
  end.

(** The text of the [AttributeError] for [o.name] when [o] has no such
    attribute. *)
Definition no_attribute (o : obj) (name : string) : string :=
  "'" +:+ type_name o +:+ "' object has no attribute '" +:+ name +:+ "'".

(** What a call gives: a value, or an exception by its class name. *)
Inductive outcome (A : Type) : Type :=
| Return (a : A)
| Raise (exception : string).
Arguments Return {A} a.
Arguments Raise {A} exception.

End PyObj.

(** ** config.py *)

Module Config.
Import PyObj.

(** The dictionary [defaults['query']]. *)
Definition default_query : dict :=
  [(KStr "default_size", OInt 100); (KStr "max_size", OInt 10000)].

(** The loop of [_load_config] over the two defaults. *)
Definition merge_defaults (config : dict) : dict :=
  let config :=
    if negb (mem config (KStr "default_index"))
    then set config (KStr "default_index") (OStr "*")
    else config in
  if negb (mem config (KStr "query"))
  then set config (KStr "query") (ODict default_query)
  else
    match get config (KStr "query") with
    | Some (ODict existing_value) =>
        set config (KStr "query") (ODict (merge default_query existing_value))
    | _ => config
    end.

(** [_load_config], given what [yaml.safe_load] read from the file. *)
Definition _load_config (loaded : obj) : outcome dict :=
  match loaded with
  | ONone => Return (merge_defaults [])
  | ODict config => Return (merge_defaults config)
  | _ => Raise "ValueError"
  end.

(** A [Config] object: its [_config]. *)
Record t : Type := mk { _config : dict }.

(** The filter of [elasticsearch_config] on one item. *)
Definition keeps (kv : key * obj) : bool :=
  match kv with
  | (KStr key, value) =>
      match value with
      | ONone => false
      | _ =>
          negb (Py.mem key ["Optional"; "optional"])
          && negb (String.prefix "#" (Py.strip key))
      end
  | (KOther _, _) => false
  end.

(** [elasticsearch_config] *)
Definition elasticsearch_config (self : t) : outcome dict :=
  match default (ODict []) (get (_config self) (KStr "elasticsearch")) with
  | ODict es_config =>
      Return (foldl (fun clean_config kv =>
                       if keeps kv then set clean_config kv.1 kv.2
                       else clean_config) [] es_config)
  | _ => Raise "ValueError"
  end.

(** [default_index] *)
Definition default_index (self : t) : obj :=
  default (OStr "*") (get (_config self) (KStr "default_index")).

(** [self._config.get('query', {}).get(name, fallback)]: an object that is
    not a dictionary has no [get]. *)
Definition query_setting (self : t) (name : string) (fallback : obj)
  : outcome obj :=
  match default (ODict []) (get (_config self) (KStr "query")) with
  | ODict query => Return (default fallback (get query (KStr name)))
  | _ => Raise "AttributeError"
  end.

(** [default_size] *)
Definition default_size (self : t) : outcome obj :=
  query_setting self "default_size" (OInt 100).

(** [max_size] *)
Definition max_size (self : t) : outcome obj :=
  query_setting self "max_size" (OInt 10000).

End Config.

(** ** es_client.py: the connection settings *)

Module ESClientConfig.
Import PyObj.

Definition ignored_keys : list string := ["use_ssl"; "Optional"; "optional"].

Definition valid_keys : list string :=
  ["hosts"; "host"; "cloud_id"; "api_key"; "basic_auth"; "bearer_auth";
   "opaque_id"; "headers"; "connections_per_node"; "http_compress";
   "verify_certs"; "ca_certs"; "client_cert"; "client_key";
   "ssl_assert_hostname"; "ssl_assert_fingerprint"; "ssl_version";
   "ssl_show_warn"; "max_retries"; "retry_on_status"; "retry_on_timeout";
   "sniff_on_start"; "sniff_on_connection_fail"; "sniffer_timeout";
   "sniff_timeout"; "min_delay_between_sniffing"; "timeout"; "max_timeout"].

(** Whether a key passes the two tests of the cleaning loop. *)
Definition accepted (k : string) : bool :=
  negb (Py.mem k ignored_keys)
  && (Py.mem k valid_keys || String.prefix "http_" k
      || String.prefix "request_" k).

(** The value stored for a key: [basic_auth] given as a dictionary becomes
    the pair of its [username] and [password]. *)
Definition stored (k : string) (v : obj) : obj :=
  match v with
  | ODict d =>
      if String.eqb k "basic_auth"
      then OTuple (default (OStr "") (get d (KStr "username")))
                  (default (OStr "") (get d (KStr "password")))
      else v
  | _ => v
  end.

(** The cleaning loop of [__init__]. *)
Definition clean_loop (config : dict) : dict :=
  foldl (fun clean_config kv =>
           match kv with
           | (KStr k, ONone) => clean_config
           | (KStr k, v) =>
               if accepted k then set clean_config (KStr k) (stored k v)
               else clean_config
           | (KOther _, _) => clean_config
           end) [] config.

(** [host.startswith(('http://', 'https://'))] *)
Definition has_scheme (host : string) : bool :=
  String.prefix "http://" host || String.prefix "https://" host.

(** The list comprehension over [hosts]: an entry that is not a string
    has no [startswith]. *)
Fixpoint with_scheme (hosts : list obj) : outcome (list obj) :=
  match hosts with
  | [] => Return []
  | OStr host :: rest =>
      match with_scheme rest with
      | Return rest' =>
          Return (OStr (if has_scheme host then host
                        else "https://" +:+ host) :: rest')
      | Raise e => Raise e
      end
  | _ :: _ => Raise "AttributeError"
  end.

(** The [use_ssl] step of [__init__]. *)
Definition apply_use_ssl (config clean_config : dict) : outcome dict :=
  if truthy (default (OBool false) (get config (KStr "use_ssl")))
     && mem clean_config (KStr "hosts")
  then
    match get clean_config (KStr "hosts") with
    | Some (OList hosts) =>
        match with_scheme hosts with
        | Return hosts' => Return (set clean_config (KStr "hosts") (OList hosts'))
        | Raise e => Raise e
        end
    | Some (OStr hosts) =>
        if negb (has_scheme hosts)
        then Return (set clean_config (KStr "hosts")
                       (OStr ("https://" +:+ hosts)))
        else Return clean_config
    | _ => Return clean_config
    end
  else Return clean_config.

(** The default host of [__init__]. *)
Definition default_hosts (clean_config : dict) : dict :=
  if negb (mem clean_config (KStr "hosts"))
     && negb (mem clean_config (KStr "host"))
  then set clean_config (KStr "hosts") (OList [OStr "http://localhost:9200"])
  else clean_config.

(** The keyword arguments that [__init__] passes to the SDK client. *)
Definition clean_config (config : dict) : outcome dict :=
  match apply_use_ssl config (clean_loop config) with
  | Return clean_config => Return (default_hosts clean_config)
  | Raise e => Raise e
  end.

(** [_get_base_url], on the configuration as it was given. *)
Definition _get_base_url (original_config : dict) : outcome string :=
  match default (OList [OStr "http://localhost:9200"])
          (get original_config (KStr "hosts")) with
  | OList (first :: _) =>
      match first with
      | OStr host => Return (rstrip_char "/" host)
      | _ => Raise "AttributeError"
      end
  | OStr hosts => Return (rstrip_char "/" hosts)
  | _ => Return "http://localhost:9200"
  end.

(** The text of the exception with which [_get_base_url] fails: the
    first host, which is not a string, has no [rstrip]. *)
Definition _get_base_url_error (original_config : dict) : string :=
  match default (OList [OStr "http://localhost:9200"])
          (get original_config (KStr "hosts")) with
  | OList (first :: _) => no_attribute first "rstrip"
  | _ => ""
  end.

(** [_get_auth]: the user name and password for HTTP basic
    authentication, if any. *)
Definition _get_auth (original_config : dict) : option (obj * obj) :=
  match get original_config (KStr "basic_auth") with
  | Some (ODict basic_auth) =>
      let username := default (OStr "") (get basic_auth (KStr "username")) in
      let password := default (OStr "") (get basic_auth (KStr "password")) in
      if truthy username && truthy password then Some (username, password)
      else None
  | _ => None
  end.

(** [_get_verify]: [False], the path of a certificate, or [True]. *)
Inductive verify : Type :=
| VerifyOff
| VerifyPath (ca : string)
| VerifyOn.

Definition _get_verify (original_config : dict) : verify :=
  match default (OBool true) (get original_config (KStr "verify_certs")) with
  | OBool false => VerifyOff
  | OStr path => VerifyPath path
  | _ => VerifyOn
  end.

End ESClientConfig.

(** ** es_client.py *)

Module ESClient.
Import TimeRange.

(** The double quote character, as a one-character string. *)
Definition dq : string := String "034"%char EmptyString.

(** The query objects that [search_kql] builds. *)
Inductive query_dsl : Type :=
| Range (field gte lte : string)
| QueryString (query : string)
| BoolMust (clauses : list query_dsl)
| MatchAll.

(** One entry [{field: {"order": order}}] of a sort list. *)
Definition sort_entry : Type := (string * string)%type.

Record search_body : Type := mk_search_body {
  sb_query : query_dsl;
  sb_size : Z;
  sb_from : Z;
  sb_sort : list sort_entry
}.

(** The arguments of [self.client.search(...)]. *)
Record search_call : Type := mk_search_call {
  sc_index : string;
  sc_body : search_body;
  sc_timeout : string;
  sc_request_timeout : Z
}.

(** The arguments of [requests.post(...)] that depend on the query. *)
Record esql_call : Type := mk_esql_call {
  ec_query : string;
  ec_format : string;
  ec_timeout : Z
}.

(** What a method of the client gives back: a response or one of the two
    exceptions it raises. *)
Inductive result (R : Type) : Type :=
| Ok (r : R)
| ValueError (msg : string)
| RuntimeError (msg : string).
Arguments Ok {R} r.
Arguments ValueError {R} msg.
Arguments RuntimeError {R} msg.

(** What the SDK call does: it returns, raises [RequestError] (carrying
    the reason text that the handler extracts) or raises anything else. *)
Inductive sdk_outcome (R : Type) : Type :=
| SdkReturn (r : R)
| SdkRequestError (error_msg : string)
| SdkException (text : string).
Arguments SdkReturn {R} r.
Arguments SdkRequestError {R} error_msg.
Arguments SdkException {R} text.

(** What the HTTP call does. *)
Inductive http_outcome (R : Type) : Type :=
| HttpReturn (json : R)
| HttpError504
| HttpError (error_msg : string)
| HttpTimeout
| HttpException (text : string).
Arguments HttpReturn {R} json.
Arguments HttpError504 {R}.
Arguments HttpError {R} error_msg.
Arguments HttpTimeout {R}.
Arguments HttpException {R} text.

(** The clause list and the final query of [search_kql]. *)
Definition kql_clauses (query : string)
    (time_range : option (datetime * datetime)) (time_field : string)
  : list query_dsl :=
  let query_clauses := [] in
  let query_clauses :=
    match time_range with
    | Some (start_time, end_time) =>
        query_clauses ++
          [Range time_field (es_timestamp start_time) (es_timestamp end_time)]
    | None => query_clauses
    end in
  if Py.truthy (Py.strip query)
  then query_clauses ++ [QueryString query]
  else query_clauses.

Definition kql_final_query (query_clauses : list query_dsl) : query_dsl :=
  match query_clauses with
  | [c] => c
  | [] => MatchAll
  | _ => BoolMust query_clauses
  end.

(** The [search_body] of [search_kql]; [sort] is [None] or a list. *)
Definition kql_search_body (query : string) (size from_ : Z)
    (sort : option (list sort_entry))
    (time_range : option (datetime * datetime)) (time_field : string)
  : search_body :=
  let final_query := kql_final_query (kql_clauses query time_range time_field) in
  let sort' :=
    match sort with
    | Some (e :: l) => e :: l
    | _ => [(time_field, "desc")]
    end in
  mk_search_body final_query size from_ sort'.

Definition kql_call (query index : string) (size from_ : Z)
    (sort : option (list sort_entry))
    (time_range : option (datetime * datetime)) (time_field : string)
  : search_call :=
  mk_search_call index
    (kql_search_body query size from_ sort time_range time_field) "300s" 300.

(** A call to a collaborator [f] with the arguments [c]: its answer, and
    the log of the call.  The log of a method is the log of the calls it
    makes, in order. *)
Definition invoke {C A : Type} (f : C -> A) (c : C) : A * list C :=
  (f c, [c]).

(** [search_kql]: what it gives back, and the calls it made to the SDK. *)
Definition search_kql {R : Type} (client_search : search_call -> sdk_outcome R)
    (query index : string) (size from_ : Z)
    (sort : option (list sort_entry))
    (time_range : option (datetime * datetime)) (time_field : string)
  : result R * list search_call :=
  let '(outcome, calls) :=
    invoke client_search
      (kql_call query index size from_ sort time_range time_field) in
  (match outcome with
   | SdkReturn response => Ok response
   | SdkRequestError error_msg =>
       ValueError ("Invalid KQL query: " +:+ error_msg)
   | SdkException e => RuntimeError ("Search failed: " +:+ e)
   end, calls).

(** [f"{time_field} >= \"{start_str}\" AND {time_field} <= \"{end_str}\""] *)
Definition time_condition (time_field start_str end_str : string) : string :=
  time_field +:+ " >= " +:+ dq +:+ start_str +:+ dq +:+ " AND " +:+
  time_field +:+ " <= " +:+ dq +:+ end_str +:+ dq.

(** The query text that [query_esql] sends: the rewriting under
    [if time_range:]. *)
Definition esql_query_text (query : string)
    (time_range : option (datetime * datetime)) (time_field : string)
  : string :=
  match time_range with
  | None => query
  | Some (start_time, end_time) =>
      let start_str := es_timestamp start_time in
      let end_str := es_timestamp end_time in
      let query_upper := Py.upper query in
      if Py.contains "WHERE" query_upper then
        let where_pos := Py.find query_upper "WHERE" in
        let after_where := Py.strip (Py.slice_from query (where_pos + 5)) in
        let time_filter :=
          time_condition time_field start_str end_str +:+ " AND " in
        Py.slice_to query (where_pos + 5) +:+ " " +:+ time_filter +:+ after_where
      else
        let from_pos := Py.find query_upper "FROM" in
        if negb (from_pos =? -1) then
          let pipe_pos := Py.find_from query "|" from_pos in
          if negb (pipe_pos =? -1) then
            Py.strip (Py.slice_to query pipe_pos) +:+ " | WHERE " +:+
            time_condition time_field start_str end_str +:+ " | " +:+
            Py.strip (Py.slice_from query (pipe_pos + 1))
          else
            Py.strip query +:+ " | WHERE " +:+
            time_condition time_field start_str end_str
        else query
  end.

Definition esql_timeout_504 : string :=
  "ESQL query timed out (504 Gateway Timeout). " +:+
  "The query is taking too long to execute. " +:+
  "Try: 1) Reducing the time range, 2) Adding a LIMIT clause, " +:+
  "3) Making the query more specific, or 4) Using KQL instead.".

Definition esql_timeout_client : string :=
  "ESQL query timed out. The query took longer than 10 minutes to execute. " +:+
  "Try: 1) Reducing the time range, 2) Adding a LIMIT clause, " +:+
  "3) Making the query more specific, or 4) Using KQL instead.".

Definition esql_call_of (query format : string)
    (time_range : option (datetime * datetime)) (time_field : string)
  : esql_call :=
  mk_esql_call (esql_query_text query time_range time_field) format 600.

(** [query_esql], for a client built from [original_config]: what it
    gives back, and the HTTP calls it made.  The base URL is read before
    the request is sent; when that fails, no request goes out. *)
Definition query_esql {R : Type} (original_config : PyObj.dict)
    (post : esql_call -> http_outcome R)
    (query format : string)
    (time_range : option (datetime * datetime)) (time_field : string)
  : result R * list esql_call :=
  let call := esql_call_of query format time_range time_field in
  match ESClientConfig._get_base_url original_config with
  | PyObj.Raise _ =>
      (RuntimeError
         ("ESQL query failed: " +:+
          ESClientConfig._get_base_url_error original_config), [])
  | PyObj.Return base_url =>
      let '(outcome, calls) := invoke post call in
      (match outcome with
       | HttpReturn json => Ok json
       | HttpError504 => RuntimeError esql_timeout_504
       | HttpError error_msg =>
           ValueError ("Invalid ESQL query: " +:+ error_msg)
       | HttpTimeout => RuntimeError esql_timeout_client
       | HttpException e => RuntimeError ("ESQL query failed: " +:+ e)
       end, calls)
  end.

End ESClient.

(** ** ui.py: ResultsTable *)

Module ResultsTable.

(** *** Responses of the search backend *)

(** A hit of a search response; an absent key is [None]. *)
Record hit : Type := mk_hit {
  hit_id : option Py.value;
  hit_index : option Py.value;
  hit_source : option (list (string * Py.value))
}.

(** [hits.total]: a dictionary with an optional [value], or a scalar. *)
Inductive total : Type :=
| TotalDict (value : option Z)
| TotalScalar (n : Z).

Record hits_object : Type := mk_hits_object {
  hits_hits : option (list hit);
  hits_total : option total
}.

Record kql_response : Type := mk_kql_response {
  resp_hits : option hits_object
}.

(** An ESQL response: each column is a dictionary with an optional
    [name]. *)
Record esql_response : Type := mk_esql_response {
  resp_columns : option (list (option string));
  resp_values : option (list (list Py.value))
}.

(** *** Empty-column elision *)

(** The inner loop of [_filter_empty_columns]: no row has a non-blank
    cell at [col_idx]. *)
Definition all_empty (rows : list (list string)) (col_idx : nat) : bool :=
  forallb (fun row =>
             match row !! col_idx with
             | Some v => negb (Py.truthy (Py.strip v))
             | None => true
             end) rows.

Definition empty_col_indices (headers : list string)
    (rows : list (list string)) : gset nat :=
  foldl (fun acc col_idx =>
           if all_empty rows col_idx then {[col_idx]} ∪ acc else acc)
        ∅ (seq 0 (length headers)).

(** [[x for i, x in enumerate(l) if i not in empty]] *)
Definition without {A : Type} (empty : gset nat) (l : list A) : list A :=
  (filter (fun p : nat * A => p.1 ∉ empty) (imap pair l)).*2.

(** [_filter_empty_columns] on the pair [(headers, _rows)]. *)
Definition filter_empty_columns (headers : list string)
    (rows : list (list string)) : list string * list (list string) :=
  if bool_decide (headers = []) || bool_decide (rows = []) then (headers, rows)
  else
    let empty := empty_col_indices headers rows in
    if bool_decide (empty ≠ ∅) && bool_decide (size empty < length headers)%nat
    then (without empty headers, map (without empty) rows)
    else (headers, rows).

(** *** Rendering *)

(** [('fixed', width, urwid.Text(text))] *)
Definition cell : Type := (Z * string)%type.

Definition max_cols_per_screen : Z := 6.

Definition _calculate_column_widths (headers : list string)
    (rows : list (list string)) (visible_start visible_end : Z) : list Z :=
  let min_width := 15 in
  let max_width := 100 in
  flat_map
    (fun col_idx =>
       match headers !! col_idx with
       | None => []
       | Some h =>
           let max_content_width :=
             foldl (fun m row =>
                      match row !! col_idx with
                      | Some c => Z.max m (Py.len c)
                      | None => m
                      end) (Py.len h) rows in
           let width := max_content_width + 3 in
           [Z.max min_width (Z.min width max_width)]
       end)
    (Py.range visible_start visible_end).

(** [col_widths[i] if i < len(col_widths) else 30] *)
Definition width_at (col_widths : list Z) (i : nat) : Z :=
  default 30 (col_widths !! i).

(** [f" {text:<{col_width-2}} "] in a fixed cell. *)
Definition text_cell (col_width : Z) (text : string) : cell :=
  (col_width, " " +:+ Py.ljust text (col_width - 2) +:+ " ").

Definition clip (col_width : Z) (cell_str : string) : string :=
  if col_width - 3 <? Py.len cell_str
  then Py.slice_to cell_str (col_width - 6) +:+ "..."
  else cell_str.

(** The rows that [_update_display] puts in the list walker: the header
    row, then one row per data row. *)
Definition render (headers : list string) (rows : list (list string))
    (hscroll_pos : Z) : list (list cell) :=
  if bool_decide (headers = []) || bool_decide (rows = []) then []
  else
    let visible_start := hscroll_pos in
    let visible_end :=
      Z.min (visible_start + max_cols_per_screen) (Py.llen headers) in
    let visible_headers := Py.lslice headers visible_start visible_end in
    let col_widths :=
      _calculate_column_widths headers rows visible_start visible_end in
    let left (glyph : string) : list cell :=
      if 0 <? visible_start then [(3, glyph)] else [] in
    let right (glyph : string) : list cell :=
      if visible_end <? Py.llen headers then [(3, glyph)] else [] in
    let header_cells :=
      left "◄" ++
      imap (fun i h => text_cell (width_at col_widths i) h) visible_headers ++
      right "►" in
    let data_row (row : list string) : list cell :=
      left " " ++
      flat_map
        (fun j =>
           let col_idx := (j - Z.to_nat visible_start)%nat in
           let col_width := width_at col_widths col_idx in
           match row !! j with
           | Some cell_str => [text_cell col_width (clip col_width cell_str)]
           | None => []
           end)
        (Py.range visible_start (Z.min visible_end (Py.llen row))) ++
      right " " in
    header_cells :: map data_row rows.

(** *** The widget *)

Record t : Type := mk {
  headers : list string;
  _rows : list (list string);
  total_hits : Z;
  from_ : Z;
  size : Z;
  _hscroll_pos : Z;
  info_text : string;
  list_walker : list (list cell)
}.

(** [__init__] *)
Definition init : t := mk [] [] 0 0 100 0 "No results" [].

(** [_update_display] *)
Definition _update_display (self : t) : t :=
  mk (headers self) (_rows self) (total_hits self) (from_ self) (size self)
     (_hscroll_pos self) (info_text self)
     (render (headers self) (_rows self) (_hscroll_pos self)).

Definition set_info_text (self : t) (text : string) : t :=
  mk (headers self) (_rows self) (total_hits self) (from_ self) (size self)
     (_hscroll_pos self) text (list_walker self).

Definition set_hscroll_pos (self : t) (pos : Z) : t :=
  mk (headers self) (_rows self) (total_hits self) (from_ self) (size self)
     pos (info_text self) (list_walker self).

Definition set_total_hits (self : t) (n : Z) : t :=
  mk (headers self) (_rows self) n (from_ self) (size self)
     (_hscroll_pos self) (info_text self) (list_walker self).

Definition set_table (self : t) (hs : list string) (rs : list (list string)) : t :=
  mk hs rs (total_hits self) (from_ self) (size self)
     (_hscroll_pos self) (info_text self) (list_walker self).

(** [self.list_walker.clear()] *)
Definition clear_list_walker (self : t) : t :=
  mk (headers self) (_rows self) (total_hits self) (from_ self) (size self)
     (_hscroll_pos self) (info_text self) [].

(** [_filter_empty_columns] *)
Definition _filter_empty_columns (self : t) : t :=
  let '(hs, rs) := filter_empty_columns (headers self) (_rows self) in
  set_table self hs rs.

(** The column part of the caption; empty for up to six columns. *)
Definition scroll_info (headers : list string) (hscroll_pos : Z) : string :=
  if max_cols_per_screen <? Py.llen headers then
    " | Columns " +:+ Py.str_int (hscroll_pos + 1) +:+ "-" +:+
    Py.str_int (Z.min (hscroll_pos + max_cols_per_screen) (Py.llen headers)) +:+
    " of " +:+ Py.str_int (Py.llen headers) +:+ " (←/→ to scroll)"
  else "".

Definition kql_hint : string :=
  " | Press 'n' for next page, 'p' for previous, 'q' to quit".

Definition esql_hint : string := " | Press 'q' to quit".

(** The header list of the KQL path: the keys of the first hit's
    [_source], with [_id] and [_index] inserted when absent. *)
Definition kql_headers (first_hit : list (string * Py.value)) : list string :=
  let headers_list := Py.keys first_hit in
  let headers_list :=
    if negb (Py.mem "_id" headers_list)
    then Py.list_insert_at 0 "_id" headers_list else headers_list in
  if negb (Py.mem "_index" headers_list)
  then Py.list_insert_at 1 "_index" headers_list else headers_list.

(** The row of one hit, given the installed headers. *)
Definition kql_row (headers : list string) (h : hit) : list string :=
  let source := default [] (hit_source h) in
  let row := [] in
  let row := row ++ [Py.str (default (Py.VStr "") (hit_id h))] in
  let row := row ++ [Py.str (default (Py.VStr "") (hit_index h))] in
  row ++ map (fun header => Py.str (Py.get source header (Py.VStr "")))
             (skipn 2 headers).

(** The row-building loop of [_display_kql_results]: [_rows] is emptied,
    then the row of each hit is appended. *)
Definition kql_build_rows (self : t) (hits : list hit) : t :=
  let self := set_table self (headers self) [] in
  foldl (fun self h =>
           let row := kql_row (headers self) h in
           set_table self (headers self) (_rows self ++ [row]))
        self hits.

(** [_display_kql_results] *)
Definition _display_kql_results (self : t) (response : kql_response) : t :=
  let hits_o := default (mk_hits_object None None) (resp_hits response) in
  let hits := default [] (hits_hits hits_o) in
  let total := default (TotalDict None) (hits_total hits_o) in
  let self :=
    match total with
    | TotalDict value => set_total_hits self (default 0 value)
    | TotalScalar n => set_total_hits self n
    end in
  match hits with
  | [] => clear_list_walker (set_info_text self "No results found")
  | hit0 :: _ =>
      let first_hit := default [] (hit_source hit0) in
      let headers_list := kql_headers first_hit in
      let self := set_table self headers_list (_rows self) in
      let self := kql_build_rows self hits in
      let self := _filter_empty_columns self in
      let self := set_hscroll_pos self 0 in
      let self := _update_display self in
      let start := from_ self + 1 in
      let end_ := Z.min (from_ self + Py.llen hits) (total_hits self) in
      set_info_text self
        ("Showing " +:+ Py.str_int start +:+ "-" +:+ Py.str_int end_ +:+
         " of " +:+ Py.str_int (total_hits self) +:+ " results" +:+
         scroll_info (headers self) (_hscroll_pos self) +:+ kql_hint)
  end.

(** The cell text of the ESQL path: [None] becomes the empty string. *)
Definition esql_cell (val : Py.value) : string :=
  match val with
  | Py.VNone => ""
  | _ => Py.str val
  end.

(** [_display_esql_results] *)
Definition _display_esql_results (self : t) (response : esql_response) : t :=
  let columns := default [] (resp_columns response) in
  let values := default [] (resp_values response) in
  if bool_decide (columns = []) || bool_decide (values = []) then
    clear_list_walker (set_info_text self "No results found")
  else
    let self := set_table self (map (default "") columns) (_rows self) in
    let self := set_table self (headers self) [] in
    let rows_list := map (map esql_cell) values in
    let self := set_table self (headers self) rows_list in
    let self := set_total_hits self (Py.llen rows_list) in
    let self := _filter_empty_columns self in
    let self := set_hscroll_pos self 0 in
    let self := _update_display self in
    set_info_text self
      ("Showing " +:+ Py.str_int (Py.llen rows_list) +:+ " results" +:+
       scroll_info (headers self) (_hscroll_pos self) +:+ esql_hint).

(** A response of either kind. *)
Inductive response : Type :=
| KqlResponse (r : kql_response)
| EsqlResponse (r : esql_response).

(** [display_results].  A response is decoded according to the query
    type that produced it. *)
Definition display_results (self : t) (resp : response) : t :=
  match resp with
  | EsqlResponse r => _display_esql_results self r
  | KqlResponse r => _display_kql_results self r
  end.

(** [_update_info_text] *)
Definition _update_info_text (self : t) : t :=
  let scroll := scroll_info (headers self) (_hscroll_pos self) in
  let current_text := info_text self in
  if Py.contains "Showing" current_text then
    if Py.contains "of" current_text && Py.contains "results" current_text then
      let base_msg := Py.split_head current_text " | " in
      set_info_text self (base_msg +:+ scroll +:+ kql_hint)
    else
      set_info_text self (Py.split_head current_text " | " +:+ scroll +:+ esql_hint)
  else self.

(** What [keypress] returns: the key (not handled here), [None]
    (handled), or whatever the widget toolkit's own handler returns. *)
Inductive key_result : Type :=
| Unhandled (key : string)
| Handled
| Toolkit.

(** [keypress] *)
Definition keypress (self : t) (key : string) : t * key_result :=
  if String.eqb key "q" then (self, Unhandled key)
  else if String.eqb key "n" then (self, Unhandled key)
  else if String.eqb key "p" then (self, Unhandled key)
  else if String.eqb key "right" || String.eqb key "l" then
    let max_scroll := Z.max 0 (Py.llen (headers self) - max_cols_per_screen) in
    if _hscroll_pos self <? max_scroll then
      let self := set_hscroll_pos self (_hscroll_pos self + 1) in
      let self := _update_display self in
      (_update_info_text self, Handled)
    else (self, Handled)
  else if String.eqb key "left" || String.eqb key "h" then
    if 0 <? _hscroll_pos self then
      let self := set_hscroll_pos self (_hscroll_pos self - 1) in
      let self := _update_display self in
      (_update_info_text self, Handled)
    else (self, Handled)
  else (self, Toolkit).

End ResultsTable.

(** ** ui.py: TimeRangeSelector and QueryInput *)

Module TimeRangeSelector.

Record t : Type := mk { current_preset : string }.

Definition init : t := mk TimeRange.DEFAULT_PRESET.

(** [set_preset] *)
Definition set_preset (self : t) (preset : string) : t :=
  if negb (Py.mem preset (Py.keys TimeRange.PRESETS)) then self
  else mk preset.

(** [get_time_range] *)
Definition get_time_range
    (clock : TimeRange.timedelta -> TimeRange.datetime * TimeRange.datetime)
    (self : t) : TimeRange.datetime * TimeRange.datetime :=
  TimeRange.get_time_range clock (current_preset self).

End TimeRangeSelector.

Module QueryInput.

(** The edit buffer and the state of the ESQL radio button (the KQL
    button of the same group is its complement). *)
Record t : Type := mk {
  query_edit : string;
  esql_radio : bool
}.

Definition init : t := mk "" true.

Definition selected_type (self : t) : string :=
  if esql_radio self then "ESQL" else "KQL".

(** [get_query] *)
Definition get_query (self : t) : string * string :=
  (query_edit self, selected_type self).

(** What [keypress] does besides changing the widget: it calls
    [on_submit], nothing, or the widget toolkit's handler. *)
Inductive key_result : Type :=
| Submit (query query_type : string)
| Nothing
| Toolkit.

(** [keypress] *)
Definition keypress (self : t) (key : string) : t * key_result :=
  if String.eqb key "enter" then
    let query := query_edit self in
    if Py.truthy (Py.strip query)
    then (self, Submit (Py.strip query) (selected_type self))
    else (self, Nothing)
  else if String.eqb key "esc" then (mk "" (esql_radio self), Nothing)
  else (self, Toolkit).

End QueryInput.

(** ** ui.py: MainWindow *)

Module MainWindow.

(** The collaborators of a session, as they answer during one event: the
    clock (read as one instant for the whole event), the SDK search call,
    the HTTP call of the ESQL endpoint, and the configuration that the
    client was built from. *)
Record Env : Type := mk_env {
  clock : TimeRange.timedelta -> TimeRange.datetime * TimeRange.datetime;
  client_search :
    ESClient.search_call -> ESClient.sdk_outcome ResultsTable.kql_response;
  http_post :
    ESClient.esql_call -> ESClient.http_outcome ResultsTable.esql_response;
  _original_config : PyObj.dict
}.

(** A call that reached the search backend. *)
Inductive backend_call : Type :=
| SearchCall (c : ESClient.search_call)
| EsqlCall (c : ESClient.esql_call).

Record t : Type := mk {
  current_index : string;
  current_from : Z;
  current_size : Z;
  query_input : QueryInput.t;
  results_table : ResultsTable.t;
  time_range_selector : TimeRangeSelector.t;
  status_bar_text : string;
  status_bar_attr : string
}.

(** [__init__], given [config.default_index] and [config.default_size]. *)
Definition init (default_index : string) (default_size : Z) : t :=
  mk default_index 0 default_size QueryInput.init ResultsTable.init
     TimeRangeSelector.init
     ("Index: " +:+ default_index +:+ " | Time Range: " +:+
      TimeRange.DEFAULT_PRESET +:+ " | Connected to Elasticsearch")
     "status".

Definition set_current_from (self : t) (n : Z) : t :=
  mk (current_index self) n (current_size self) (query_input self)
     (results_table self) (time_range_selector self)
     (status_bar_text self) (status_bar_attr self).

Definition set_status (self : t) (text attr : string) : t :=
  mk (current_index self) (current_from self) (current_size self)
     (query_input self) (results_table self) (time_range_selector self)
     text attr.

Definition set_results_table (self : t) (table : ResultsTable.t) : t :=
  mk (current_index self) (current_from self) (current_size self)
     (query_input self) table (time_range_selector self)
     (status_bar_text self) (status_bar_attr self).

Definition set_query_input (self : t) (qi : QueryInput.t) : t :=
  mk (current_index self) (current_from self) (current_size self)
     qi (results_table self) (time_range_selector self)
     (status_bar_text self) (status_bar_attr self).

(** The truncation of an error message for the status bar. *)
Definition truncate_error (error_msg : string) : string :=
  if 120 <? Py.len error_msg
  then Py.slice_to error_msg 117 +:+ "..."
  else error_msg.

(** The [except] clauses of [_on_query_submit]. *)
Definition report {R : Type} (self : t) (r : ESClient.result R)
    (on_ok : R -> t) : t :=
  match r with
  | ESClient.Ok response => on_ok response
  | ESClient.ValueError e =>
      set_status self ("✗ Query error: " +:+ truncate_error e) "error"
  | ESClient.RuntimeError e =>
      set_status self ("✗ Error: " +:+ truncate_error e) "error"
  end.

(** [_on_query_submit]: the window afterwards and the calls that the
    client made to the search backend. *)
Definition _on_query_submit (env : Env) (self : t)
    (query query_type : string) : t * list backend_call :=
  let self := set_current_from self 0 in
  let self :=
    set_status self
      ("⏳ Executing " +:+ query_type +:+
       " query... Please wait (this may take a while)") "status" in
  let '(start_time, end_time) :=
    TimeRangeSelector.get_time_range (clock env) (time_range_selector self) in
  if String.eqb query_type "ESQL" then
    let time_range := Some (start_time, end_time) in
    let '(r, calls) :=
      ESClient.query_esql (_original_config env) (http_post env) query "json"
        time_range "@timestamp" in
    (report self r
       (fun response =>
          let table :=
            ResultsTable.display_results (results_table self)
              (ResultsTable.EsqlResponse response) in
          let self := set_results_table self table in
          let hits_count := ResultsTable.total_hits (results_table self) in
          let time_range_str :=
            TimeRangeSelector.current_preset (time_range_selector self) in
          set_status self
            ("✓ ESQL query executed successfully | Time Range: " +:+
             time_range_str +:+ " | Results: " +:+ Py.str_int hits_count)
            "status"),
     map EsqlCall calls)
  else
    let '(start_time, end_time) :=
      TimeRangeSelector.get_time_range (clock env) (time_range_selector self) in
    let time_range := Some (start_time, end_time) in
    let '(r, calls) :=
      ESClient.search_kql (client_search env) query (current_index self)
        (current_size self) (current_from self) None time_range
        "@timestamp" in
    (report self r
       (fun response =>
          let table :=
            ResultsTable.display_results (results_table self)
              (ResultsTable.KqlResponse response) in
          let self := set_results_table self table in
          let time_range_str :=
            TimeRangeSelector.current_preset (time_range_selector self) in
          let hits_count := ResultsTable.total_hits (results_table self) in
          set_status self
            ("✓ KQL query executed successfully | Index: " +:+
             current_index self +:+ " | Time Range: " +:+ time_range_str +:+
             " | Results: " +:+ Py.str_int hits_count)
            "status"),
     map SearchCall calls).

(** A key that reaches the query input, whose [on_submit] is
    [_on_query_submit]. *)
Definition query_input_keypress (env : Env) (self : t) (key : string)
  : t * list backend_call :=
  match QueryInput.keypress (query_input self) key with
  | (qi, QueryInput.Submit query query_type) =>
      _on_query_submit env (set_query_input self qi) query query_type
  | (qi, _) => (set_query_input self qi, [])
  end.

End MainWindow.

(** ** main.py *)

Module Main.
Import MainWindow.

(** [handle_unhandled_input]; [None] stands for [urwid.ExitMainLoop]. *)
Definition handle_unhandled_input (env : Env) (main_window : t)
    (key : string) : option (t * list backend_call) :=
  if String.eqb key "q" then None
  else if String.eqb key "n" then
    if current_from main_window + current_size main_window
       <? ResultsTable.total_hits (results_table main_window)
    then
      let main_window :=
        set_current_from main_window
          (current_from main_window + current_size main_window) in
      let '(query, query_type) :=
        QueryInput.get_query (query_input main_window) in
      if Py.truthy query
      then Some (_on_query_submit env main_window query query_type)
      else Some (main_window, [])
    else Some (main_window, [])
  else if String.eqb key "p" then
    if 0 <? current_from main_window then
      let main_window :=
        set_current_from main_window
          (Z.max 0 (current_from main_window - current_size main_window)) in
      let '(query, query_type) :=
        QueryInput.get_query (query_input main_window) in
      if Py.truthy query
      then Some (_on_query_submit env main_window query query_type)
      else Some (main_window, [])
    else Some (main_window, [])
  else Some (main_window, []).

End Main.

(** * Vocabulary of the properties *)

(** The hour from 2024-01-01T00:00:00 on, and the text expected for the
    query [FROM logs | LIMIT 10] over it. *)
Definition example_range : TimeRange.datetime * TimeRange.datetime :=
  (TimeRange.mk_datetime 2024 1 1 0 0 0 0,
   TimeRange.mk_datetime 2024 1 1 1 0 0 0).

Definition example_expected : string :=
  "FROM logs | WHERE @timestamp >= " +:+ ESClient.dq +:+
  "2024-01-01T00:00:00.000Z" +:+ ESClient.dq +:+ " AND @timestamp <= " +:+
  ESClient.dq +:+ "2024-01-01T01:00:00.000Z" +:+ ESClient.dq +:+ " | LIMIT 10".

(** Every cell that the rows have in column [i] is empty after trimming. *)
Definition blank_column (rows : list (list string)) (i : nat) : Prop :=
  ∀ row v, row ∈ rows → row !! i = Some v → Py.strip v = "".

(** The indices below [n] that are not in [dropped], in ascending order. *)
Definition kept (dropped : gset nat) (n : nat) : list nat :=
  filter (λ i, i ∉ dropped) (seq 0 n).

(** [picked] holds the entries of [l] at the indices [idxs], in that
    order. *)
Definition picks {A : Type} (l : list A) (idxs : list nat) (picked : list A)
  : Prop :=
  Forall2 (λ i x, l !! i = Some x) idxs picked.

(** The tables that a session can show: the initial one, and the ones
    that follow by displaying a response or by a key. *)
Inductive reachable : ResultsTable.t → Prop :=
| reachable_init : reachable ResultsTable.init
| reachable_display t resp :
    reachable t → reachable (ResultsTable.display_results t resp)
| reachable_keypress t key :
    reachable t → reachable (ResultsTable.keypress t key).1.

(** The largest horizontal offset of a table. *)
Definition max_scroll (t : ResultsTable.t) : Z :=
  Z.max 0 (Py.llen (ResultsTable.headers t) - 6).

(** A response that installs a result: it has hits (KQL), or columns and
    values (ESQL). *)
Definition has_result (resp : ResultsTable.response) : bool :=
  match resp with
  | ResultsTable.KqlResponse r =>
      match r with
      | ResultsTable.mk_kql_response
          (Some (ResultsTable.mk_hits_object (Some (_ :: _)) _)) => true
      | _ => false
      end
  | ResultsTable.EsqlResponse r =>
      match r with
      | ResultsTable.mk_esql_response (Some (_ :: _)) (Some (_ :: _)) => true
      | _ => false
      end
  end.

(** A search response with one hit of six fields (eight columns) and a
    reported total of 250 hits, and responses without any result. *)
Definition wide_hit : ResultsTable.hit :=
  ResultsTable.mk_hit (Some (Py.VStr "1")) (Some (Py.VStr "logs"))
    (Some [("f1", Py.VStr "a"); ("f2", Py.VStr "b"); ("f3", Py.VStr "c");
           ("f4", Py.VStr "d"); ("f5", Py.VStr "e"); ("f6", Py.VStr "f")]).

Definition wide_response : ResultsTable.response :=
  ResultsTable.KqlResponse
    (ResultsTable.mk_kql_response
       (Some (ResultsTable.mk_hits_object (Some [wide_hit])
                (Some (ResultsTable.TotalDict (Some 250)))))).

Definition empty_kql_response : ResultsTable.response :=
  ResultsTable.KqlResponse
    (ResultsTable.mk_kql_response
       (Some (ResultsTable.mk_hits_object (Some [])
                (Some (ResultsTable.TotalDict (Some 0)))))).

Definition empty_esql_response : ResultsTable.response :=
  ResultsTable.EsqlResponse (ResultsTable.mk_esql_response (Some []) (Some [])).

(** A window after a KQL search that reported 250 hits, at page offset 0
    with page size 100, KQL selected, and [text] in the query input. *)
Definition paging_window (text : string) : MainWindow.t :=
  MainWindow.mk "logs-*" 0 100 (QueryInput.mk text false)
    (ResultsTable.display_results ResultsTable.init wide_response)
    TimeRangeSelector.init
    "✓ KQL query executed successfully | Index: logs-* | Time Range: Last 15 minutes | Results: 250"
    "status".

(** The source of a hit, [hit.get('_source', {})]. *)
Definition source_of (h : ResultsTable.hit) : list (string * Py.value) :=
  default [] (ResultsTable.hit_source h).

(** The table after the row-building loop of the KQL path, before the
    elision, for the hits [hit0 :: rest]. *)
Definition kql_built (self : ResultsTable.t) (hit0 : ResultsTable.hit)
    (rest : list ResultsTable.hit) : ResultsTable.t :=
  ResultsTable.kql_build_rows
    (ResultsTable.set_table self (ResultsTable.kql_headers (source_of hit0))
       (ResultsTable._rows self))
    (hit0 :: rest).

(** The cells of missing fields, as the specification has them: whenever a
    later hit lacks a field of the first hit's source, the cell under that
    field's column is the empty string. *)
Definition missing_field_cell_empty : Prop :=
  ∀ self hit0 rest (k j : nat) h row field,
    (0 < k)%nat →
    (hit0 :: rest) !! k = Some h →
    ResultsTable._rows (kql_built self hit0 rest) !! k = Some row →
    field ∈ Py.keys (source_of hit0) →
    field ∉ Py.keys (source_of h) →
    ResultsTable.headers (kql_built self hit0 rest) !! j = Some field →
    row !! j = Some "".

(** Collaborators whose search fails: the clock gives the example hour,
    the SDK call raises, the HTTP call times out; the client was built
    from an empty configuration. *)
Definition failing_env : MainWindow.Env :=
  MainWindow.mk_env (λ _, example_range)
    (λ _, ESClient.SdkException "connection refused")
    (λ _, ESClient.HttpTimeout) [].

(** The same collaborators for a client whose configuration lists a
    port number where a host is expected. *)
Definition unreadable_url_env : MainWindow.Env :=
  MainWindow.mk_env (λ _, example_range)
    (λ _, ESClient.SdkException "connection refused")
    (λ _, ESClient.HttpTimeout)
    [(PyObj.KStr "hosts", PyObj.OList [PyObj.OInt 9200])].

(** The response to the submission of [query] from the window [self], when
    the client returns one. *)
Definition backend_answer (env : MainWindow.Env) (self : MainWindow.t)
    (query query_type : string) : option ResultsTable.response :=
  let time_range :=
    Some (TimeRangeSelector.get_time_range (MainWindow.clock env)
            (MainWindow.time_range_selector self)) in
  if String.eqb query_type "ESQL" then
    match (ESClient.query_esql (MainWindow._original_config env)
             (MainWindow.http_post env) query "json" time_range
             "@timestamp").1 with
    | ESClient.Ok r => Some (ResultsTable.EsqlResponse r)
    | _ => None
    end
  else
    match (ESClient.search_kql (MainWindow.client_search env) query
             (MainWindow.current_index self) (MainWindow.current_size self)
             0 None time_range "@timestamp").1 with
    | ESClient.Ok r => Some (ResultsTable.KqlResponse r)
    | _ => None
    end.

(** The windows of a session started with the given defaults: the initial
    one, and those that follow by editing the query input (typing, the
    radio buttons), by a key in the query input, by a key in the result
    table, by choosing a preset, or by a key that no widget handles. *)
Inductive reachable_window (default_index : string) (default_size : Z)
  : MainWindow.t → Prop :=
| window_init :
    reachable_window default_index default_size
      (MainWindow.init default_index default_size)
| window_edit w qi :
    reachable_window default_index default_size w →
    reachable_window default_index default_size
      (MainWindow.set_query_input w qi)
| window_query_key env w key :
    reachable_window default_index default_size w →
    reachable_window default_index default_size
      (MainWindow.query_input_keypress env w key).1
| window_table_key w key :
    reachable_window default_index default_size w →
    reachable_window default_index default_size
      (MainWindow.set_results_table w
         (ResultsTable.keypress (MainWindow.results_table w) key).1)
| window_preset w preset :
    reachable_window default_index default_size w →
    reachable_window default_index default_size
      (MainWindow.mk (MainWindow.current_index w) (MainWindow.current_from w)
         (MainWindow.current_size w) (MainWindow.query_input w)
         (MainWindow.results_table w)
         (TimeRangeSelector.set_preset (MainWindow.time_range_selector w)
            preset)
         (MainWindow.status_bar_text w) (MainWindow.status_bar_attr w))
| window_unhandled_key env w key r :
    reachable_window default_index default_size w →
    Main.handle_unhandled_input env w key = Some r →
    reachable_window default_index default_size r.1.

(** The properties that every window of a session has. *)
Definition window_ok (default_index : string) (default_size : Z)
    (w : MainWindow.t) : Prop :=
  0 <= MainWindow.current_from w
  ∧ (default_size | MainWindow.current_from w)
  ∧ MainWindow.current_index w = default_index
  ∧ MainWindow.current_size w = default_size
  ∧ reachable (MainWindow.results_table w)
  ∧ Py.mem
      (TimeRangeSelector.current_preset (MainWindow.time_range_selector w))
      (Py.keys TimeRange.PRESETS) = true.

(** The width that [_calculate_column_widths] gives to column [col_idx]
    with header [h]. *)
Definition column_width (rows : list (list string)) (col_idx : nat)
    (h : string) : Z :=
  Z.max 15
    (Z.min
       (foldl (λ m row,
                 match row !! col_idx with
                 | Some c => Z.max m (Py.len c)
                 | None => m
                 end) (Py.len h) rows + 3)
       100).

(** An item that the cleaning of [__init__] may produce: a string key that
    passes its tests, with a value that is not [None]. *)
Definition clean_item (kv : PyObj.key * PyObj.obj) : Prop :=
  ∃ s, kv.1 = PyObj.KStr s ∧ ESClientConfig.accepted s = true
       ∧ kv.2 ≠ PyObj.ONone.

(** A host entry that is a string with a scheme. *)
Definition host_with_scheme (h : PyObj.obj) : Prop :=
  ∃ s, h = PyObj.OStr s ∧ ESClientConfig.has_scheme s = true.

(** One round of the cleaning loop. *)
Definition clean_step (clean_config : PyObj.dict)
    (kv : PyObj.key * PyObj.obj) : PyObj.dict :=
  match kv with
  | (PyObj.KStr k, PyObj.ONone) => clean_config
  | (PyObj.KStr k, v) =>
      if ESClientConfig.accepted k
      then PyObj.set clean_config (PyObj.KStr k) (ESClientConfig.stored k v)
      else clean_config
  | (PyObj.KOther _, _) => clean_config
  end.

(** A configuration with a host without scheme, [use_ssl] and a key the
    client does not know. *)
Definition example_es_config : PyObj.dict :=
  [(PyObj.KStr "hosts", PyObj.OList [PyObj.OStr "es1:9200"]);
   (PyObj.KStr "use_ssl", PyObj.OBool true);
   (PyObj.KStr "Optional", PyObj.OStr "x")].

(** A text made of the character [c] only. *)
Fixpoint only_char (c : ascii) (t : string) : bool :=
  match t with
  | EmptyString => true
  | String a t' => Ascii.eqb a c && only_char c t'
  end.

(** The host that [_get_base_url] reads: the [hosts] string, or the first
    entry of the [hosts] list. *)
Definition configured_host (config : PyObj.dict) : option PyObj.obj :=
  match PyObj.get config (PyObj.KStr "hosts") with
  | Some (PyObj.OList (first :: _)) => Some first
  | Some (PyObj.OStr hosts) => Some (PyObj.OStr hosts)
  | _ => None
  end.

(** A configuration with a host without scheme, [use_ssl] and HTTP basic
    authentication. *)
Definition example_ssl_config : PyObj.dict :=
  [(PyObj.KStr "hosts", PyObj.OStr "es1:9200/");
   (PyObj.KStr "use_ssl", PyObj.OBool true);
   (PyObj.KStr "basic_auth",
    PyObj.ODict [(PyObj.KStr "username", PyObj.OStr "elastic");
                 (PyObj.KStr "password", PyObj.OStr "secret")])].

(** A [Config] whose [elasticsearch] section has a [None] value, a
    commented key and the key [Optional]. *)
Definition example_config : Config.t :=
  Config.mk
    [(PyObj.KStr "elasticsearch",
      PyObj.ODict [(PyObj.KStr "hosts", PyObj.OStr "http://es1:9200");
                   (PyObj.KStr "api_key", PyObj.ONone);
                   (PyObj.KStr " # comment", PyObj.OStr "x");
                   (PyObj.KStr "Optional", PyObj.OStr "y");
                   (PyObj.KStr "timeout", PyObj.OInt 30)])].

(** Distinct keys of a dictionary written out. *)
Ltac distinct_keys :=
  repeat (apply NoDup_cons; split;
          [rewrite ?not_elem_of_cons; repeat split;
           solve [discriminate | apply not_elem_of_nil]|]);
  apply NoDup_nil_2.

(** * Properties *)

(** ** Strings *)

#[local] Arguments String.append : simpl nomatch.

Section StringFacts.
Implicit Types s t u : string.

Lemma string_app_assoc s t u : (s +:+ t) +:+ u = s +:+ t +:+ u.
Proof. induction s as [|c s IH]; simpl; [done | by rewrite IH]. Qed.

Lemma string_length_app s t :
  String.length (s +:+ t) = (String.length s + String.length t)%nat.
Proof. induction s as [|c s IH]; simpl; [done | by rewrite IH]. Qed.

Lemma len_app s t : Py.len (s +:+ t) = Py.len s + Py.len t.
Proof. unfold Py.len. rewrite string_length_app. lia. Qed.

Lemma len_nonneg s : 0 <= Py.len s.
Proof. unfold Py.len. lia. Qed.

Lemma take_app_length s t : Py.take (String.length s) (s +:+ t) = s.
Proof. induction s as [|c s IH]; simpl; [by destruct t | by rewrite IH]. Qed.

Lemma drop_app_length s t : Py.drop (String.length s) (s +:+ t) = t.
Proof. induction s as [|c s IH]; simpl; [by destruct t | done]. Qed.

Lemma drop_app_le n s t :
  (n <= String.length s)%nat → Py.drop n (s +:+ t) = Py.drop n s +:+ t.
Proof.
  revert s. induction n as [|n IH]; intros [|c s] Hn; simpl in *;
    try done; try lia.
  apply IH. lia.
Qed.

Lemma length_drop n s :
  String.length (Py.drop n s) = (String.length s - n)%nat.
Proof.
  revert s. induction n as [|n IH]; intros [|c s]; simpl; try done.
Qed.

(** A non-negative bound within the string is taken as it is. *)
Lemma bound_inside n k : 0 <= k <= n → Py.bound n k = Z.to_nat k.
Proof.
  intros Hk. unfold Py.bound.
  destruct (Z.ltb_spec k 0); [lia|]. f_equal. lia.
Qed.

Lemma slice_to_app s t : Py.slice_to (s +:+ t) (Py.len s) = s.
Proof.
  unfold Py.slice_to. rewrite bound_inside.
  - unfold Py.len at 1. rewrite Nat2Z.id. apply take_app_length.
  - rewrite len_app. pose proof (len_nonneg s). pose proof (len_nonneg t). lia.
Qed.

Lemma slice_from_app s t : Py.slice_from (s +:+ t) (Py.len s) = t.
Proof.
  unfold Py.slice_from. rewrite bound_inside.
  - unfold Py.len at 1. rewrite Nat2Z.id. apply drop_app_length.
  - rewrite len_app. pose proof (len_nonneg s). pose proof (len_nonneg t). lia.
Qed.

(** [(s + t)[:-len(t)]] is [s], for a non-empty [t]. *)
Lemma slice_to_neg_app s t :
  0 < Py.len t → Py.slice_to (s +:+ t) (- Py.len t) = s.
Proof.
  intros Ht. unfold Py.slice_to, Py.bound. rewrite len_app.
  destruct (Z.ltb_spec (- Py.len t) 0); [|lia].
  pose proof (len_nonneg s).
  replace (Z.min _ _) with (Py.len s) by lia.
  unfold Py.len at 1. rewrite Nat2Z.id. apply take_app_length.
Qed.

Lemma contains_false sub s :
  Py.contains sub s = false ↔ Py.index_of sub s = None.
Proof. unfold Py.contains. by destruct (Py.index_of sub s). Qed.

(** [find] gives [-1] exactly when the text does not occur. *)
Lemma find_minus_one s sub :
  Py.find s sub = -1 ↔ Py.contains sub s = false.
Proof.
  rewrite contains_false. unfold Py.find, Py.find_from. simpl.
  pose proof (len_nonneg s).
  destruct (Z.ltb_spec (Py.len s) 0); [lia|].
  destruct (Py.index_of sub s); split; intros; try done; lia.
Qed.

(** The first occurrence of a character that a prefix does not hold. *)
Lemma index_of_char_app c s t :
  Py.index_of (String c "") s = None →
  Py.index_of (String c "") (s +:+ String c t) = Some (String.length s).
Proof.
  induction s as [|d s IH]; simpl.
  - intros _. destruct (ascii_dec c c); [|done]. by destruct t.
  - destruct (ascii_dec c d) as [->|Hne].
    + by destruct s.
    + destruct (Py.index_of (String c "") s) eqn:E; [done|].
      intros _. by rewrite (IH eq_refl).
Qed.

(** [find] with a start position, when the first occurrence after it is
    known. *)
Lemma find_from_char c s t p :
  0 <= p <= Py.len s →
  Py.contains (String c "") (Py.drop (Z.to_nat p) s) = false →
  Py.find_from (s +:+ String c t) (String c "") p = Py.len s.
Proof.
  intros Hp Hnone. apply contains_false in Hnone.
  unfold Py.find_from. destruct (Z.ltb_spec p 0); [lia|].
  rewrite len_app. pose proof (len_nonneg (String c t)).
  destruct (Z.ltb_spec (Py.len s + Py.len (String c t)) p); [lia|].
  rewrite drop_app_le by (unfold Py.len in Hp; lia).
  rewrite (index_of_char_app _ _ _ Hnone), length_drop.
  unfold Py.len in *. lia.
Qed.

End StringFacts.

(** ** Timestamps *)

Section Timestamps.
Import TimeRange.

Lemma pad_dec_length w n : String.length (pad_dec w n) = w.
Proof.
  revert n. induction w as [|w IH]; intros n; simpl; [done|].
  rewrite string_length_app, IH. simpl. lia.
Qed.

(** The last three digits split off. *)
Lemma pad_dec_split w n :
  pad_dec (3 + w) n = pad_dec w (n / 1000) +:+ pad_dec 3 n.
Proof.
  simpl. rewrite !N.Div0.div_div. rewrite !string_app_assoc. done.
Qed.

Lemma strftime_seconds_length dt : String.length (strftime_seconds dt) = 19%nat.
Proof.
  unfold strftime_seconds.
  rewrite !string_length_app, !pad_dec_length. done.
Qed.

End Timestamps.

(** C9. For every instant, the timestamp sent to the backend is the
    microsecond rendering without the last three digits of its fraction,
    followed by [Z]: the text up to the seconds, a dot, the three digits of
    the whole milliseconds [microsecond / 1000] (truncated, not rounded)
    and [Z]; it is 24 characters long.  The three digits dropped are the
    low digits of the microseconds.  [to_elasticsearch_format] and the range
    clause of [search_kql] both carry this text. *)
Theorem C9_timestamp_truncates_to_milliseconds (dt : TimeRange.datetime) :
  let ms := (TimeRange.microsecond dt / 1000)%N in
  TimeRange.es_timestamp dt
    = Py.slice_to (TimeRange.strftime dt) (-3) +:+ "Z"
  ∧ TimeRange.strftime dt
    = (TimeRange.strftime_seconds dt +:+ "." +:+ TimeRange.pad_dec 3 ms)
      +:+ TimeRange.pad_dec 3 (TimeRange.microsecond dt)
  ∧ TimeRange.es_timestamp dt
    = (TimeRange.strftime_seconds dt +:+ "." +:+ TimeRange.pad_dec 3 ms) +:+ "Z"
  ∧ String.length (TimeRange.es_timestamp dt) = 24%nat
  ∧ (∀ end_time,
       TimeRange.to_elasticsearch_format dt end_time
       = [("gte", TimeRange.es_timestamp dt);
          ("lte", TimeRange.es_timestamp end_time)])
  ∧ (∀ end_time time_field,
       ESClient.kql_clauses "" (Some (dt, end_time)) time_field
       = [ESClient.Range time_field (TimeRange.es_timestamp dt)
            (TimeRange.es_timestamp end_time)]).
Proof.
  intros ms.
  assert (Hsplit : TimeRange.strftime dt
    = (TimeRange.strftime_seconds dt +:+ "." +:+ TimeRange.pad_dec 3 ms)
      +:+ TimeRange.pad_dec 3 (TimeRange.microsecond dt)).
  { unfold TimeRange.strftime.
    change 6%nat with (3 + 3)%nat. rewrite pad_dec_split.
    by rewrite !string_app_assoc. }
  assert (Hts : TimeRange.es_timestamp dt
    = (TimeRange.strftime_seconds dt +:+ "." +:+ TimeRange.pad_dec 3 ms) +:+ "Z").
  { unfold TimeRange.es_timestamp. rewrite Hsplit.
    replace (-3) with (- Py.len (TimeRange.pad_dec 3 (TimeRange.microsecond dt))).
    - rewrite slice_to_neg_app; [done|].
      unfold Py.len. rewrite pad_dec_length. lia.
    - unfold Py.len. by rewrite pad_dec_length. }
  repeat split; done.
Qed.

(** Truncation at work: 123999 microseconds are sent as 123 milliseconds. *)
Example es_timestamp_does_not_round :
  TimeRange.es_timestamp (TimeRange.mk_datetime 2024 1 1 0 0 0 123999)
  = "2024-01-01T00:00:00.123Z".
Proof. vm_compute. reflexivity. Qed.

(** ** The KQL request *)

(** C5. The query of a KQL request, by cases on the time range and on the
    trimmed text: the range clause alone; a [bool]/[must] of the range
    clause and the free-text clause; [match_all]; (and, without a range,
    the free-text clause alone).  Without an explicit sort, and with an
    empty one, the request sorts on the time field, descending; an explicit
    sort is passed on. *)
Theorem C5_kql_request_shape (query index : string) (size from_ : Z)
    (sort : option (list ESClient.sort_entry))
    (time_range : option (TimeRange.datetime * TimeRange.datetime))
    (time_field : string) :
  let body :=
    ESClient.kql_search_body query size from_ sort time_range time_field in
  ESClient.sb_query body =
    match time_range, Py.strip query with
    | Some (s, e), "" =>
        ESClient.Range time_field (TimeRange.es_timestamp s)
          (TimeRange.es_timestamp e)
    | Some (s, e), _ =>
        ESClient.BoolMust
          [ESClient.Range time_field (TimeRange.es_timestamp s)
             (TimeRange.es_timestamp e);
           ESClient.QueryString query]
    | None, "" => ESClient.MatchAll
    | None, _ => ESClient.QueryString query
    end
  ∧ ESClient.sb_sort body =
    match sort with
    | None | Some [] => [(time_field, "desc")]
    | Some explicit => explicit
    end
  ∧ ESClient.sb_size body = size
  ∧ ESClient.sb_from body = from_
  ∧ ESClient.sc_body
      (ESClient.kql_call query index size from_ sort time_range time_field)
    = body.
Proof.
  intros body. subst body.
  unfold ESClient.kql_search_body, ESClient.kql_clauses. simpl.
  repeat split.
  - destruct time_range as [[s e]|]; destruct (Py.strip query); done.
  - by destruct sort as [[|x l]|].
Qed.

(** ** The ESQL rewriting *)

(** C6. The query of the example is compiled to the expected text.  The
    code, however, takes the letters [WHERE] for the keyword wherever they
    stand: in [FROM logs | KEEP somewhere | LIMIT 10], which has no [WHERE]
    stage, it finds them inside [somewhere] and puts the time condition and
    [AND] behind that word, and not, as a stage of its own, before the
    first pipe that follows [FROM]. *)
Theorem C6_where_inside_a_name_is_taken_for_the_keyword :
  ESClient.esql_query_text "FROM logs | LIMIT 10" (Some example_range)
    "@timestamp" = example_expected
  ∧ ∀ start_time end_time time_field,
      let condition :=
        ESClient.time_condition time_field
          (TimeRange.es_timestamp start_time)
          (TimeRange.es_timestamp end_time) in
      let sent :=
        ESClient.esql_query_text "FROM logs | KEEP somewhere | LIMIT 10"
          (Some (start_time, end_time)) time_field in
      sent = "FROM logs | KEEP somewhere " +:+ condition +:+ " AND | LIMIT 10"
      ∧ sent ≠ "FROM logs | WHERE " +:+ condition +:+
               " | KEEP somewhere | LIMIT 10".
Proof.
  split; [vm_compute; reflexivity|].
  intros start_time end_time time_field condition sent.
  assert (sent
          = "FROM logs | KEEP somewhere " +:+ condition +:+ " AND | LIMIT 10")
    as Hsent.
  { subst sent. unfold ESClient.esql_query_text.
    set (query := "FROM logs | KEEP somewhere | LIMIT 10").
    change (Py.contains "WHERE" (Py.upper query)) with true. cbv iota zeta.
    change (Py.find (Py.upper query) "WHERE") with 21.
    change (Py.slice_to query (21 + 5)) with "FROM logs | KEEP somewhere".
    change (Py.strip (Py.slice_from query (21 + 5))) with "| LIMIT 10".
    fold condition. by rewrite (string_app_assoc condition). }
  split; [exact Hsent|]. rewrite Hsent. intros H.
  apply (f_equal (Py.take 13)) in H. discriminate H.
Qed.

(** C2, as stated, fails: a query without [FROM] but with [WHERE] is
    rewritten. *)
Lemma C2_counterexample :
  ¬ (∀ query time_range time_field,
       Py.contains "FROM" (Py.upper query) = false →
       ESClient.esql_query_text query (Some time_range) time_field = query).
Proof.
  intros H.
  specialize (H "ROW a = 1 | WHERE a > 0" example_range "@timestamp" eq_refl).
  vm_compute in H. discriminate H.
Qed.

(** C2, amended. A query whose upper-cased text contains neither the
    letters [WHERE] nor the letters [FROM] anywhere, be it as a keyword or
    inside a longer word, is sent as it is, with or without a time range,
    and the call goes out with that text. *)
Theorem C2_esql_without_from_untouched (query format time_field : string)
    (time_range : option (TimeRange.datetime * TimeRange.datetime)) :
  Py.contains "WHERE" (Py.upper query) = false →
  Py.contains "FROM" (Py.upper query) = false →
  ESClient.esql_query_text query time_range time_field = query
  ∧ ESClient.ec_query
      (ESClient.esql_call_of query format time_range time_field) = query.
Proof.
  intros Hwhere Hfrom.
  assert (ESClient.esql_query_text query time_range time_field = query) as H.
  { unfold ESClient.esql_query_text.
    destruct time_range as [[start_time end_time]|]; [|done].
    rewrite Hwhere. apply find_minus_one in Hfrom. by rewrite Hfrom. }
  by split.
Qed.

Lemma C2_esql_without_from_untouched_witness :
  ESClient.esql_query_text "SHOW INFO | LIMIT 1" (Some example_range) "@timestamp"
  = "SHOW INFO | LIMIT 1".
Proof.
  apply (C2_esql_without_from_untouched "SHOW INFO | LIMIT 1" "json"
           "@timestamp" (Some example_range)); vm_compute; reflexivity.
Defined.

(** The letters [FROM] inside a name count as the keyword: the stage is
    appended to a query that has no [FROM] stage. *)
Example esql_from_inside_a_name :
  ESClient.esql_query_text "ROW fromage = 1" (Some example_range) "@timestamp"
  = "ROW fromage = 1 | WHERE " +:+
    ESClient.time_condition "@timestamp" "2024-01-01T00:00:00.000Z"
      "2024-01-01T01:00:00.000Z".
Proof. vm_compute. reflexivity. Qed.

(** ** Empty-column elision *)

Section Elision.
Implicit Types (headers : list string) (rows : list (list string)).
Implicit Types (E : gset nat).

Lemma truthy_false s : Py.truthy s = false ↔ s = "".
Proof. by destruct s. Qed.

Lemma all_empty_blank rows i : ResultsTable.all_empty rows i = true ↔ blank_column rows i.
Proof.
  unfold ResultsTable.all_empty, blank_column. induction rows as [|row rows IH]; simpl.
  - split; [|done]. intros _ row v Hin. by apply elem_of_nil in Hin.
  - rewrite andb_true_iff, IH. split.
    + intros [Hrow Hrest] r v [->|Hin]%elem_of_cons Hv.
      * rewrite Hv in Hrow. apply negb_true_iff in Hrow.
        by apply truthy_false.
      * by eapply Hrest.
    + intros H. split.
      * destruct (row !! i) as [v|] eqn:Hv; [|done].
        apply negb_true_iff, truthy_false. eapply H; [left|done].
      * intros r v Hin. apply H. by right.
Qed.

Lemma elem_of_fold_indices rows (l : list nat) (acc : gset nat) i :
  i ∈ foldl (λ acc col_idx,
               if ResultsTable.all_empty rows col_idx then {[col_idx]} ∪ acc else acc)
            acc l
  ↔ i ∈ acc ∨ (i ∈ l ∧ ResultsTable.all_empty rows i = true).
Proof.
  revert acc. induction l as [|j l IH]; intros acc; simpl.
  - split; [by left|]. intros [?|[Hin _]]; [done|].
    by apply elem_of_nil in Hin.
  - rewrite IH, elem_of_cons. destruct (ResultsTable.all_empty rows j) eqn:Hj.
    + rewrite elem_of_union, elem_of_singleton. split.
      * intros [[->|?]|[? ?]];
          [right; split; [by left|done] | by left
          | right; split; [by right|done]].
      * intros [?|[[->|?] ?]];
          [left; by right | left; by left | right; by split].
    + split.
      * intros [?|[? ?]]; [by left | right; split; [by right|done]].
      * intros [?|[[->|?] ?]]; [by left | congruence | right; by split].
Qed.

Lemma elem_of_empty_col_indices headers rows i :
  i ∈ ResultsTable.empty_col_indices headers rows
  ↔ (i < length headers)%nat ∧ blank_column rows i.
Proof.
  unfold ResultsTable.empty_col_indices.
  rewrite elem_of_fold_indices, elem_of_seq, all_empty_blank.
  split; [intros [H|[? ?]]|intros [? ?]].
  - by apply not_elem_of_empty in H.
  - split; [lia|done].
  - right. split; [lia|done].
Qed.

(** A set of indices below [n] with fewer than [n] members misses one. *)
Lemma missing_index E (n : nat) :
  (size E < n)%nat → ∃ j, (j < n)%nat ∧ j ∉ E.
Proof.
  intros Hsize.
  destruct (decide (Forall (λ j, j ∈ E) (seq 0 n))) as [Hall|Hnot].
  - assert ((set_seq 0 n : gset nat) ⊆ E) as Hsub.
    { intros j Hj%elem_of_set_seq. rewrite Forall_forall in Hall.
      apply Hall, elem_of_seq. lia. }
    apply subseteq_size in Hsub. rewrite size_set_seq in Hsub. lia.
  - apply not_Forall_Exists in Hnot; [|apply _].
    apply Exists_exists in Hnot as (j & Hj%elem_of_seq & Hout).
    exists j. split; [lia|done].
Qed.

(** A set of indices below [n] with at least [n] members has them all. *)
Lemma full_index_set E (n : nat) :
  (∀ i, i ∈ E → (i < n)%nat) → (n <= size E)%nat →
  ∀ j, (j < n)%nat → j ∈ E.
Proof.
  intros Hbelow Hsize j Hj.
  assert (E ⊆ (set_seq 0 n : gset nat)) as Hsub.
  { intros i Hi. apply elem_of_set_seq. specialize (Hbelow i Hi). lia. }
  apply set_subseteq_size_eq in Hsub; [|by rewrite size_set_seq].
  rewrite Hsub. apply elem_of_set_seq. lia.
Qed.

(** What the comprehension over [enumerate] keeps. *)
Lemma without_picks_from {A} E (l : list A) (k : nat) :
  Forall2 (λ i x, l !! (i - k)%nat = Some x ∧ (k <= i)%nat)
    (filter (λ i, i ∉ E) (seq k (length l)))
    (filter (λ p : nat * A, p.1 ∉ E) (imap (λ i x, ((k + i)%nat, x)) l)).*2.
Proof.
  revert k. induction l as [|x l IH]; intros k; [constructor|].
  rewrite imap_cons. simpl length. simpl seq.
  rewrite (imap_ext _ (λ i y, ((S k + i)%nat, y)))
    by (intros; simpl; f_equal; lia).
  replace (k + 0)%nat with k by lia.
  assert (Hrest :
    Forall2 (λ i y, (x :: l) !! (i - k)%nat = Some y ∧ (k <= i)%nat)
      (filter (λ i, i ∉ E) (seq (S k) (length l)))
      (filter (λ p : nat * A, p.1 ∉ E)
         (imap (λ i y, ((S k + i)%nat, y)) l)).*2).
  { eapply Forall2_impl; [apply IH|]. intros i y [Hy Hle]. split; [|lia].
    replace (i - k)%nat with (S (i - S k)) by lia. done. }
  destruct (decide (k ∉ E)) as [Hk|Hk].
  - rewrite !filter_cons_True by done. simpl. constructor; [|done].
    split; [|done]. by replace (k - k)%nat with 0%nat by lia.
  - rewrite !filter_cons_False by done. done.
Qed.

Lemma without_picks {A} E (l : list A) :
  picks l (kept E (length l)) (ResultsTable.without E l).
Proof.
  unfold picks, kept, ResultsTable.without.
  eapply Forall2_impl; [apply (without_picks_from E l 0)|].
  intros i x [Hx _]. by replace (i - 0)%nat with i in Hx by lia.
Qed.

Lemma without_length {A} E (l : list A) :
  length (ResultsTable.without E l) = length (kept E (length l)).
Proof. symmetry. eapply Forall2_length, without_picks. Qed.

(** Nothing is dropped from a list when the set is empty. *)
Lemma filter_imap_nothing {A} E (f : nat → A → nat * A) (l : list A) :
  (∀ i, i ∉ E) →
  (∀ i x, (f i x).2 = x) →
  (filter (λ p : nat * A, p.1 ∉ E) (imap f l)).*2 = l.
Proof.
  intros HE. revert f. induction l as [|x l IH]; intros f Hsnd; [done|].
  rewrite imap_cons, filter_cons_True by apply HE.
  simpl. rewrite Hsnd. f_equal. apply IH. intros i y. apply Hsnd.
Qed.

Lemma picks_all {A} (l : list A) : picks l (kept ∅ (length l)) l.
Proof.
  assert (ResultsTable.without ∅ l = l) as Hid
    by (apply filter_imap_nothing; [apply not_elem_of_empty|done]).
  rewrite <- Hid at 3. apply without_picks.
Qed.

End Elision.

(** The table is left as it is: nothing is dropped. *)
Lemma elision_skipped (headers : list string) (rows : list (list string)) :
  picks headers (kept ∅ (length headers)) headers
  ∧ Forall2 (λ row row', picks row (kept ∅ (length row)) row') rows rows
  ∧ (Forall (λ row, length row = length headers) rows →
     Forall (λ row', length row' = length headers) rows)
  ∧ (headers ≠ [] → headers ≠ []).
Proof.
  split; [apply picks_all|]. split; [|done].
  apply Forall_Forall2_diag, Forall_forall. intros row _. apply picks_all.
Qed.

(** C7. [_filter_empty_columns] drops the columns in [dropped], where a
    column index is in [dropped] exactly when every cell of that column is
    empty after trimming and some column of the table is not like that (so
    nothing is dropped when this would drop every column).  The headers
    afterwards are the headers at the kept indices in ascending order, each
    row afterwards is that row's cells at the kept indices in ascending
    order; a table whose rows are as long as the header list stays so, and
    a table with columns keeps at least one. *)
Theorem C7_empty_column_elision (self : ResultsTable.t) :
  let headers := ResultsTable.headers self in
  let rows := ResultsTable._rows self in
  let headers' := ResultsTable.headers (ResultsTable._filter_empty_columns self) in
  let rows' := ResultsTable._rows (ResultsTable._filter_empty_columns self) in
  ∃ dropped : gset nat,
    (∀ i, i ∈ dropped ↔
          (i < length headers)%nat ∧ blank_column rows i ∧
          ∃ j, (j < length headers)%nat ∧ ¬ blank_column rows j)
    ∧ picks headers (kept dropped (length headers)) headers'
    ∧ Forall2 (λ row row', picks row (kept dropped (length row)) row') rows rows'
    ∧ (Forall (λ row, length row = length headers) rows →
       Forall (λ row', length row' = length headers') rows')
    ∧ (headers ≠ [] → headers' ≠ []).
Proof.
  intros headers rows headers' rows'.
  subst headers' rows'. unfold ResultsTable._filter_empty_columns.
  fold headers rows. unfold ResultsTable.filter_empty_columns.
  destruct (bool_decide (headers = []) || bool_decide (rows = [])) eqn:Hguard.
  { exists ∅. split; [|apply elision_skipped].
    intros i. split; [set_solver|]. intros (Hi & _ & j & _ & Hnb). exfalso.
    apply orb_true_iff in Hguard as [H|H]; apply bool_decide_eq_true in H.
    - rewrite H in Hi. simpl in Hi. lia.
    - apply Hnb. rewrite H. intros row v Hin. by apply elem_of_nil in Hin. }
  set (E := ResultsTable.empty_col_indices headers rows).
  destruct (bool_decide (E ≠ ∅) && bool_decide (size E < length headers)%nat)
    eqn:Hdrop.
  - apply andb_true_iff in Hdrop as [_ Hlt%bool_decide_eq_true].
    destruct (missing_index E _ Hlt) as (j & Hj & Hjout).
    exists E. simpl. split; [|split; [|split; [|split]]].
    + intros i. subst E. rewrite elem_of_empty_col_indices. split.
      * intros [Hi Hb]. split; [done|]. split; [done|].
        exists j. split; [done|]. intros Hbj. apply Hjout.
        by apply elem_of_empty_col_indices.
      * by intros (Hi & Hb & _).
    + apply without_picks.
    + apply Forall2_fmap_r, Forall_Forall2_diag, Forall_forall.
      intros row _. apply without_picks.
    + intros Hrect. apply Forall_fmap. eapply Forall_impl; [exact Hrect|].
      intros row Hlen. simpl. by rewrite !without_length, Hlen.
    + intros _ Hnil.
      assert (length (kept E (length headers)) = 0%nat) as Hlen
        by (by rewrite <- without_length, Hnil).
      assert (j ∈ kept E (length headers)) as Hin.
      { apply list_elem_of_filter. split; [done|]. apply elem_of_seq. lia. }
      destruct (kept E (length headers)); [by apply elem_of_nil in Hin|done].
  - exists ∅. split; [|apply elision_skipped].
    intros i. split; [set_solver|]. intros (Hi & Hb & j & Hj & Hnb). exfalso.
    apply andb_false_iff in Hdrop as [H|H]; apply bool_decide_eq_false in H.
    + apply dec_stable in H.
      assert (i ∈ E) as Hin by (by apply elem_of_empty_col_indices).
      rewrite H in Hin. by apply not_elem_of_empty in Hin.
    + apply Hnb. apply (elem_of_empty_col_indices headers rows j).
      subst E.
      apply full_index_set with (n := length headers); [|lia|done].
      by intros k [Hk _]%elem_of_empty_col_indices.
Qed.

(** The example of the elision: of columns [a], [b], [c] the blank [b] goes;
    when all three are blank none goes. *)
Example elision_drops_blank_column :
  ResultsTable.filter_empty_columns ["a"; "b"; "c"]
    [["1"; " "; "x"]; ["2"; ""; "y"]]
  = (["a"; "c"], [["1"; "x"]; ["2"; "y"]])
  ∧ ResultsTable.filter_empty_columns ["a"; "b"; "c"]
      [[""; " "; ""]; [""; ""; "  "]]
    = (["a"; "b"; "c"], [[""; " "; ""]; [""; ""; "  "]]).
Proof. split; vm_compute; reflexivity. Qed.

(** ** The horizontal viewport *)

Section Viewport.
Implicit Types (t : ResultsTable.t) (key : string).

Lemma update_info_text_frame t :
  ResultsTable.headers (ResultsTable._update_info_text t) = ResultsTable.headers t
  ∧ ResultsTable._rows (ResultsTable._update_info_text t) = ResultsTable._rows t
  ∧ ResultsTable._hscroll_pos (ResultsTable._update_info_text t)
    = ResultsTable._hscroll_pos t.
Proof.
  unfold ResultsTable._update_info_text.
  destruct (Py.contains "Showing" _); [|done].
  by destruct (Py.contains "of" _ && Py.contains "results" _).
Qed.

(** The scroll keys, spelled out. *)
Lemma keypress_right t key :
  key = "right" ∨ key = "l" →
  ResultsTable.keypress t key
  = (if ResultsTable._hscroll_pos t <? max_scroll t
     then ResultsTable._update_info_text
            (ResultsTable._update_display
               (ResultsTable.set_hscroll_pos t
                  (ResultsTable._hscroll_pos t + 1)))
     else t, ResultsTable.Handled).
Proof.
  intros [-> | ->]; unfold ResultsTable.keypress, max_scroll; simpl;
    by destruct (_ <? _).
Qed.

Lemma keypress_left t key :
  key = "left" ∨ key = "h" →
  ResultsTable.keypress t key
  = (if 0 <? ResultsTable._hscroll_pos t
     then ResultsTable._update_info_text
            (ResultsTable._update_display
               (ResultsTable.set_hscroll_pos t
                  (ResultsTable._hscroll_pos t - 1)))
     else t, ResultsTable.Handled).
Proof.
  intros [-> | ->]; unfold ResultsTable.keypress; simpl;
    by destruct (_ <? _).
Qed.

Lemma scrolled_frame t pos :
  let t' := ResultsTable._update_info_text
              (ResultsTable._update_display
                 (ResultsTable.set_hscroll_pos t pos)) in
  ResultsTable.headers t' = ResultsTable.headers t
  ∧ ResultsTable._rows t' = ResultsTable._rows t
  ∧ ResultsTable._hscroll_pos t' = pos.
Proof.
  intros t'. subst t'.
  by destruct (update_info_text_frame
    (ResultsTable._update_display (ResultsTable.set_hscroll_pos t pos)))
    as (-> & -> & ->).
Qed.

(** A key leaves the table data alone and moves the offset by at most
    one, within the bounds. *)
Lemma keypress_offset t key :
  let t' := (ResultsTable.keypress t key).1 in
  ResultsTable.headers t' = ResultsTable.headers t
  ∧ ResultsTable._rows t' = ResultsTable._rows t
  ∧ (ResultsTable._hscroll_pos t' = ResultsTable._hscroll_pos t
     ∨ (ResultsTable._hscroll_pos t' = ResultsTable._hscroll_pos t + 1
        ∧ ResultsTable._hscroll_pos t < max_scroll t)
     ∨ (ResultsTable._hscroll_pos t' = ResultsTable._hscroll_pos t - 1
        ∧ 0 < ResultsTable._hscroll_pos t)).
Proof.
  assert (∀ t0, t0 = t →
    ResultsTable.headers t0 = ResultsTable.headers t
    ∧ ResultsTable._rows t0 = ResultsTable._rows t
    ∧ (ResultsTable._hscroll_pos t0 = ResultsTable._hscroll_pos t
       ∨ (ResultsTable._hscroll_pos t0 = ResultsTable._hscroll_pos t + 1
          ∧ ResultsTable._hscroll_pos t < max_scroll t)
       ∨ (ResultsTable._hscroll_pos t0 = ResultsTable._hscroll_pos t - 1
          ∧ 0 < ResultsTable._hscroll_pos t))) as Hsame
    by (intros t0 ->; split; [done|]; split; [done|]; by left).
  unfold ResultsTable.keypress.
  destruct (String.eqb key "q"); [by apply Hsame|].
  destruct (String.eqb key "n"); [by apply Hsame|].
  destruct (String.eqb key "p"); [by apply Hsame|].
  destruct (String.eqb key "right" || String.eqb key "l").
  { change (Z.max 0 (Py.llen (ResultsTable.headers t)
                     - ResultsTable.max_cols_per_screen))
      with (max_scroll t).
    destruct (Z.ltb_spec (ResultsTable._hscroll_pos t) (max_scroll t));
      [|by apply Hsame].
    simpl.
    destruct (scrolled_frame t (ResultsTable._hscroll_pos t + 1))
      as (-> & -> & ->).
    split; [done|]. split; [done|]. right. left. by split. }
  destruct (String.eqb key "left" || String.eqb key "h"); [|by apply Hsame].
  destruct (Z.ltb_spec 0 (ResultsTable._hscroll_pos t)); [|by apply Hsame].
  simpl.
  destruct (scrolled_frame t (ResultsTable._hscroll_pos t - 1))
    as (-> & -> & ->).
  split; [done|]. split; [done|]. right. right. by split.
Qed.

(** Displaying a response: a response with a result resets the offset;
    any other leaves headers, rows and offset as they were. *)
Lemma display_offset t resp :
  let t' := ResultsTable.display_results t resp in
  if has_result resp then ResultsTable._hscroll_pos t' = 0
  else ResultsTable.headers t' = ResultsTable.headers t
       ∧ ResultsTable._rows t' = ResultsTable._rows t
       ∧ ResultsTable._hscroll_pos t' = ResultsTable._hscroll_pos t.
Proof.
  destruct resp as [[[[[[|h hits]|] total]|]]|[[[|c cols]|] [[|v vals]|]]];
    simpl; try done;
    unfold ResultsTable._display_kql_results; simpl;
    by destruct total as [[v|]|].
Qed.

Lemma reachable_offset_bounds t :
  reachable t → 0 <= ResultsTable._hscroll_pos t <= max_scroll t.
Proof.
  induction 1 as [|t resp _ IH|t key _ IH].
  - done.
  - pose proof (display_offset t resp) as H. simpl in H.
    destruct (has_result resp).
    + rewrite H. unfold max_scroll. lia.
    + destruct H as (Hh & _ & Hp). unfold max_scroll in *.
      rewrite Hh, Hp. done.
  - destruct (keypress_offset t key) as (Hh & _ & Hp).
    unfold max_scroll in *. rewrite Hh. lia.
Qed.

End Viewport.

(** C8. A response without hits or values does not reset the offset.  At
    a table of eight columns the offset is 0; after two presses of [right]
    it is 2; and after an empty response is displayed, on the KQL path as on
    the ESQL path, it is still 2, in front of the headers of the earlier
    result.  Within what a session can show the offset keeps its bounds,
    and the keys move it by one. *)
Theorem C8_empty_response_does_not_reset_offset :
  let t0 := ResultsTable.display_results ResultsTable.init wide_response in
  let t2 :=
    (ResultsTable.keypress (ResultsTable.keypress t0 "right").1 "right").1 in
  let t3 := ResultsTable.display_results t2 empty_kql_response in
  let t4 := ResultsTable.display_results t2 empty_esql_response in
  ResultsTable._hscroll_pos t0 = 0
  ∧ ResultsTable._hscroll_pos t2 = 2
  ∧ ResultsTable._hscroll_pos t3 = 2
  ∧ ResultsTable.headers t3 = ResultsTable.headers t0
  ∧ ResultsTable._hscroll_pos t4 = 2
  ∧ ResultsTable.headers t4 = ResultsTable.headers t0.
Proof.
  intros t0 t2 t3 t4.
  assert (ResultsTable._hscroll_pos t0 = 0) as H0
    by apply (display_offset ResultsTable.init wide_response).
  assert (Py.llen (ResultsTable.headers t0) = 8) as Hcols
    by (vm_compute; reflexivity).
  clearbody t0.
  assert (max_scroll t0 = 2) as Hmax
    by (unfold max_scroll; rewrite Hcols; reflexivity).
  set (t1 := (ResultsTable.keypress t0 "right").1) in *.
  assert (ResultsTable.headers t1 = ResultsTable.headers t0
          ∧ ResultsTable._hscroll_pos t1 = 1) as [Hh1 H1].
  { subst t1. rewrite (keypress_right t0 "right") by (by left).
    rewrite H0, Hmax.
    change (0 <? 2) with true. cbv iota. cbn [fst].
    by destruct (scrolled_frame t0 (0 + 1)) as (-> & _ & ->). }
  clearbody t1.
  assert (ResultsTable.headers t2 = ResultsTable.headers t0
          ∧ ResultsTable._hscroll_pos t2 = 2) as [Hh2 H2].
  { subst t2. rewrite (keypress_right t1 "right") by (by left).
    unfold max_scroll. rewrite Hh1. fold (max_scroll t0). rewrite H1, Hmax.
    change (1 <? 2) with true. cbv iota. cbn [fst].
    destruct (scrolled_frame t1 (1 + 1)) as (-> & _ & ->).
    by split. }
  clearbody t2.
  pose proof (display_offset t2 empty_kql_response) as (Hk & _ & Hkp).
  pose proof (display_offset t2 empty_esql_response) as (He & _ & Hep).
  fold t3 in Hk, Hkp. fold t4 in He, Hep. clearbody t3 t4.
  repeat split; congruence.
Qed.

(** X24. In every table that a session can show, the horizontal offset lies
    between 0 and [max(0, columns - 6)]; displaying a response that has
    hits (KQL) or columns and values (ESQL) sets it to 0; [right]/[l] adds
    exactly one below the maximum and changes nothing at the maximum,
    [left]/[h] subtracts exactly one above 0 and changes nothing at 0; the
    keys are handled in either case and never touch headers or rows. *)
Theorem viewport_offset_rule :
  (∀ t, reachable t →
        0 <= ResultsTable._hscroll_pos t
          <= Z.max 0 (Py.llen (ResultsTable.headers t) - 6))
  ∧ (∀ t resp, has_result resp = true →
        ResultsTable._hscroll_pos (ResultsTable.display_results t resp) = 0)
  ∧ (∀ t key, key = "right" ∨ key = "l" →
        let t' := (ResultsTable.keypress t key).1 in
        (ResultsTable.keypress t key).2 = ResultsTable.Handled
        ∧ ResultsTable.headers t' = ResultsTable.headers t
        ∧ ResultsTable._rows t' = ResultsTable._rows t
        ∧ (ResultsTable._hscroll_pos t
             < Z.max 0 (Py.llen (ResultsTable.headers t) - 6) →
           ResultsTable._hscroll_pos t' = ResultsTable._hscroll_pos t + 1)
        ∧ (Z.max 0 (Py.llen (ResultsTable.headers t) - 6)
             <= ResultsTable._hscroll_pos t →
           t' = t))
  ∧ (∀ t key, key = "left" ∨ key = "h" →
        let t' := (ResultsTable.keypress t key).1 in
        (ResultsTable.keypress t key).2 = ResultsTable.Handled
        ∧ ResultsTable.headers t' = ResultsTable.headers t
        ∧ ResultsTable._rows t' = ResultsTable._rows t
        ∧ (0 < ResultsTable._hscroll_pos t →
           ResultsTable._hscroll_pos t' = ResultsTable._hscroll_pos t - 1)
        ∧ (ResultsTable._hscroll_pos t <= 0 → t' = t)).
Proof.
  split; [|split; [|split]].
  - apply reachable_offset_bounds.
  - intros t resp Hres. pose proof (display_offset t resp) as H.
    simpl in H. by rewrite Hres in H.
  - intros t key Hkey t'. subst t'. rewrite (keypress_right t key Hkey).
    fold (max_scroll t). simpl.
    destruct (Z.ltb_spec (ResultsTable._hscroll_pos t) (max_scroll t)).
    + destruct (scrolled_frame t (ResultsTable._hscroll_pos t + 1))
        as (-> & -> & ->).
      repeat split; try done; lia.
    + repeat split; try done; lia.
  - intros t key Hkey t'. subst t'. rewrite (keypress_left t key Hkey). simpl.
    destruct (Z.ltb_spec 0 (ResultsTable._hscroll_pos t)).
    + destruct (scrolled_frame t (ResultsTable._hscroll_pos t - 1))
        as (-> & -> & ->).
      repeat split; try done; lia.
    + repeat split; try done; lia.
Qed.

(** The bounds at a table of eight columns after two presses of [right]. *)
Lemma viewport_offset_rule_witness :
  let t :=
    (ResultsTable.keypress
       (ResultsTable.keypress
          (ResultsTable.display_results ResultsTable.init wide_response)
          "right").1 "l").1 in
  0 <= ResultsTable._hscroll_pos t
    <= Z.max 0 (Py.llen (ResultsTable.headers t) - 6).
Proof.
  intros t. apply (proj1 viewport_offset_rule t).
  apply reachable_keypress, reachable_keypress, reachable_display,
    reachable_init.
Defined.

Example viewport_ten_columns :
  let t := ResultsTable.mk (replicate 10 "c") [replicate 10 "x"] 1 0 100 4 "" [] in
  (ResultsTable.keypress t "right").1 = t
  ∧ ResultsTable._hscroll_pos (ResultsTable.keypress t "left").1 = 3
  ∧ (ResultsTable.keypress (ResultsTable.set_hscroll_pos t 0) "left").1
    = ResultsTable.set_hscroll_pos t 0.
Proof. repeat split; vm_compute; reflexivity. Qed.

(** ** Rows of the KQL path *)

Section KqlRows.
Implicit Types (self : ResultsTable.t) (h : ResultsTable.hit).
Implicit Types (hits : list ResultsTable.hit) (headers : list string).

Lemma mem_elem_of x (l : list string) : Py.mem x l = true ↔ x ∈ l.
Proof.
  unfold Py.mem. induction l as [|y l IH]; simpl.
  - split; [done|]. intros H. by apply elem_of_nil in H.
  - rewrite orb_true_iff, IH, elem_of_cons, String.eqb_eq. done.
Qed.

Lemma get_missing {A} (d : list (string * A)) k (dflt : A) :
  k ∉ Py.keys d → Py.get d k dflt = dflt.
Proof.
  unfold Py.keys. induction d as [|[k' v] d IH]; simpl; [done|].
  intros Hk. apply not_elem_of_cons in Hk as [Hne Hk].
  destruct (String.eqb_spec k' k) as [->|_]; [done|]. by apply IH.
Qed.

(** The loop appends one row per hit, computed from the headers that
    were installed before it. *)
Lemma kql_build_rows_eq self hits :
  ResultsTable.kql_build_rows self hits
  = ResultsTable.set_table self (ResultsTable.headers self)
      (map (ResultsTable.kql_row (ResultsTable.headers self)) hits).
Proof.
  unfold ResultsTable.kql_build_rows.
  assert (∀ rows0,
    foldl (λ self0 h,
             ResultsTable.set_table self0 (ResultsTable.headers self0)
               (ResultsTable._rows self0
                  ++ [ResultsTable.kql_row (ResultsTable.headers self0) h]))
          (ResultsTable.set_table self (ResultsTable.headers self) rows0) hits
    = ResultsTable.set_table self (ResultsTable.headers self)
        (rows0 ++ map (ResultsTable.kql_row (ResultsTable.headers self)) hits))
    as Hloop.
  { induction hits as [|h hits IH]; intros rows0; simpl.
    - by rewrite app_nil_r.
    - unfold ResultsTable.set_table at 2. simpl.
      change (ResultsTable.mk (ResultsTable.headers self) ?r
                (ResultsTable.total_hits self) (ResultsTable.from_ self)
                (ResultsTable.size self) (ResultsTable._hscroll_pos self)
                (ResultsTable.info_text self) (ResultsTable.list_walker self))
        with (ResultsTable.set_table self (ResultsTable.headers self) r).
      by rewrite IH, <- app_assoc. }
  apply (Hloop []).
Qed.

(** The header list has the two leading columns. *)
Lemma kql_headers_length (src : list (string * Py.value)) :
  (2 <= length (ResultsTable.kql_headers src))%nat.
Proof.
  unfold ResultsTable.kql_headers, Py.list_insert_at.
  destruct (Py.mem "_id" (Py.keys src)) eqn:Hid; cbn [negb firstn skipn app].
  - apply mem_elem_of in Hid.
    destruct (Py.mem "_index" (Py.keys src)) eqn:Hindex; cbn [negb].
    + apply mem_elem_of in Hindex.
      destruct (Py.keys src) as [|a [|b l]]; simpl; [|exfalso|lia].
      * by apply elem_of_nil in Hid.
      * apply list_elem_of_singleton in Hid, Hindex. congruence.
    + destruct (Py.keys src) as [|a l]; [by apply elem_of_nil in Hid|].
      simpl. lia.
  - assert (∀ l : list string, take 0 l ++ "_id" :: drop 0 l = "_id" :: l)
      as Hins by done.
    rewrite !Hins.
    destruct (Py.mem "_index" ("_id" :: Py.keys src)) eqn:Hindex; cbn [negb].
    + apply mem_elem_of, elem_of_cons in Hindex as [?|Hindex]; [done|].
      destruct (Py.keys src) as [|a l]; [by apply elem_of_nil in Hindex|].
      simpl. lia.
    + simpl. lia.
Qed.

Lemma kql_row_length headers h :
  (2 <= length headers)%nat →
  length (ResultsTable.kql_row headers h) = length headers.
Proof.
  intros Hlen. unfold ResultsTable.kql_row. simpl.
  rewrite length_fmap, length_skipn. lia.
Qed.

Lemma kql_row_cell headers h (j : nat) field :
  (2 <= j)%nat → headers !! j = Some field →
  ResultsTable.kql_row headers h !! j
  = Some (Py.str (Py.get (source_of h) field (Py.VStr ""))).
Proof.
  intros Hj Hfield. unfold ResultsTable.kql_row. simpl.
  destruct j as [|[|j]]; [lia|lia|]. simpl.
  rewrite list_lookup_fmap, lookup_drop. simpl. by rewrite Hfield.
Qed.

End KqlRows.

(** C10. The rows line up with the headers only as long as [_id] and
    [_index] lead the header list.  When the first hit's source has the
    fields [a], [_index] and [b], the headers are [_id], [a], [_index],
    [b], while every row starts with the hit's [_id] and [_index]: the cell
    under [a] holds the index name and the value of [a] is in no cell.  So
    C10 as it is stated fails: a later hit without the field [a] has the
    index name, not the empty string, under [a]. *)
Theorem C10_source_field_named_index_shifts_cells :
  (∀ self id index va vi vb rest,
     let hit0 :=
       ResultsTable.mk_hit id index
         (Some [("a", va); ("_index", vi); ("b", vb)]) in
     let built := kql_built self hit0 rest in
     ResultsTable.headers built = ["_id"; "a"; "_index"; "b"]
     ∧ ResultsTable._rows built
       = map (λ h,
                [Py.str (default (Py.VStr "") (ResultsTable.hit_id h));
                 Py.str (default (Py.VStr "") (ResultsTable.hit_index h));
                 Py.str (Py.get (source_of h) "_index" (Py.VStr ""));
                 Py.str (Py.get (source_of h) "b" (Py.VStr ""))])
           (hit0 :: rest))
  ∧ ¬ missing_field_cell_empty.
Proof.
  split.
  - intros self id index va vi vb rest hit0 built. subst built.
    unfold kql_built. rewrite kql_build_rows_eq. split; reflexivity.
  - intros H.
    specialize (H ResultsTable.init
      (ResultsTable.mk_hit (Some (Py.VStr "1")) (Some (Py.VStr "logs"))
         (Some [("a", Py.VStr "x"); ("_index", Py.VStr "i"); ("b", Py.VStr "y")]))
      [ResultsTable.mk_hit (Some (Py.VStr "2")) (Some (Py.VStr "logs"))
         (Some [("b", Py.VStr "z")])]
      1%nat 1%nat
      (ResultsTable.mk_hit (Some (Py.VStr "2")) (Some (Py.VStr "logs"))
         (Some [("b", Py.VStr "z")]))
      ["2"; "logs"; ""; "z"] "a").
    assert (["2"; "logs"; ""; "z"] !! 1%nat = Some "") as Hcell; [|done].
    apply H.
    + lia.
    + reflexivity.
    + vm_compute. reflexivity.
    + vm_compute. by left.
    + vm_compute. intros Hin. apply list_elem_of_singleton in Hin. done.
    + vm_compute. reflexivity.
Qed.

(** X25. After the row-building loop of the KQL path the headers are those
    of the first hit, there is one row per hit, every row has one cell per
    header, its first two cells are the hit's [_id] and [_index] (or the
    empty string when the hit has none), and under every column from the
    third on, a hit whose source lacks the column's field has the empty
    string.  When the first hit's source has no field named [_id] or
    [_index], the columns are [_id], [_index] and its fields, in order. *)
Theorem kql_rows_align (self : ResultsTable.t) (hit0 : ResultsTable.hit)
    (rest : list ResultsTable.hit) :
  let built := kql_built self hit0 rest in
  let headers := ResultsTable.headers built in
  headers = ResultsTable.kql_headers (source_of hit0)
  ∧ length (ResultsTable._rows built) = length (hit0 :: rest)
  ∧ (∀ (k : nat) h row,
       (hit0 :: rest) !! k = Some h →
       ResultsTable._rows built !! k = Some row →
       length row = length headers
       ∧ row !! 0%nat
         = Some (Py.str (default (Py.VStr "") (ResultsTable.hit_id h)))
       ∧ row !! 1%nat
         = Some (Py.str (default (Py.VStr "") (ResultsTable.hit_index h)))
       ∧ ∀ (j : nat) field,
           (2 <= j)%nat → headers !! j = Some field →
           field ∉ Py.keys (source_of h) → row !! j = Some "")
  ∧ ("_id" ∉ Py.keys (source_of hit0) →
     "_index" ∉ Py.keys (source_of hit0) →
     headers = "_id" :: "_index" :: Py.keys (source_of hit0)).
Proof.
  intros built headers. subst headers built. unfold kql_built.
  rewrite kql_build_rows_eq. simpl.
  split; [done|]. split; [by rewrite List.length_map|]. split.
  - intros k h row Hh Hrow.
    change (ResultsTable.kql_row ?hs hit0 :: map (ResultsTable.kql_row ?hs) rest)
      with (ResultsTable.kql_row hs <$> (hit0 :: rest)) in Hrow.
    rewrite list_lookup_fmap, Hh in Hrow. simpl in Hrow.
    injection Hrow as <-.
    split; [apply kql_row_length, kql_headers_length|].
    split; [done|]. split; [done|].
    intros j field Hj Hfield Hmissing.
    rewrite (kql_row_cell _ _ _ _ Hj Hfield).
    by rewrite (get_missing _ _ _ Hmissing).
  - intros Hid Hindex. unfold ResultsTable.kql_headers.
    destruct (Py.mem "_id" (Py.keys (source_of hit0))) eqn:E1.
    { by apply mem_elem_of in E1. }
    cbn [negb]. unfold Py.list_insert_at.
    change (take 0 ?l ++ "_id" :: drop 0 ?l) with ("_id" :: l).
    destruct (Py.mem "_index" ("_id" :: Py.keys (source_of hit0))) eqn:E2;
      [|done].
    apply mem_elem_of, elem_of_cons in E2 as [E2|E2]; done.
Qed.

(** The rows of two hits, the second of which lacks the field [b]. *)
Lemma kql_rows_align_witness :
  let hit0 := ResultsTable.mk_hit (Some (Py.VStr "1")) (Some (Py.VStr "logs"))
                (Some [("a", Py.VStr "x"); ("b", Py.VStr "y")]) in
  let hit1 := ResultsTable.mk_hit (Some (Py.VStr "2")) (Some (Py.VStr "logs"))
                (Some [("a", Py.VStr "z")]) in
  ResultsTable._rows (kql_built ResultsTable.init hit0 [hit1]) !! 1%nat
    = Some ["2"; "logs"; "z"; ""]
  ∧ ["2"; "logs"; "z"; ""] !! 3%nat = Some "".
Proof.
  intros hit0 hit1. split; [vm_compute; reflexivity|].
  destruct (kql_rows_align ResultsTable.init hit0 [hit1])
    as (_ & _ & Hrows & _).
  destruct (Hrows 1%nat hit1 ["2"; "logs"; "z"; ""]) as (_ & _ & _ & Hcell).
  - reflexivity.
  - vm_compute. reflexivity.
  - apply (Hcell 3%nat "b").
    + lia.
    + vm_compute. reflexivity.
    + vm_compute. intros Hin. apply list_elem_of_singleton in Hin. done.
Defined.

(** ** Installing a result *)

(** A response with a result overwrites headers, rows, total, offset,
    caption and rendering: what is shown afterwards does not depend on the
    table shown before. *)
Lemma display_result_overwrites (t t' : ResultsTable.t)
    (resp : ResultsTable.response) :
  has_result resp = true →
  ResultsTable.from_ t = ResultsTable.from_ t' →
  ResultsTable.size t = ResultsTable.size t' →
  ResultsTable.display_results t resp = ResultsTable.display_results t' resp.
Proof.
  intros Hres Hfrom Hsize.
  destruct t as [hs rs th fr sz pos info lw], t' as [hs' rs' th' fr' sz' pos' info' lw'].
  simpl in Hfrom, Hsize. subst fr' sz'.
  destruct resp as [[[[[[|h hits]|] total]|]]|[[[|c cols]|] [[|v vals]|]]];
    try discriminate Hres; simpl.
  - unfold ResultsTable._display_kql_results. simpl.
    rewrite !kql_build_rows_eq.
    destruct total as [[v|]|]; unfold ResultsTable._filter_empty_columns;
      simpl; by destruct (ResultsTable.filter_empty_columns _ _).
  - unfold ResultsTable._display_esql_results,
      ResultsTable._filter_empty_columns. simpl.
    by destruct (ResultsTable.filter_empty_columns _ _).
Qed.

(** A response without a result leaves headers and rows (and, on the ESQL
    path, the total) of the table shown before, and only empties the
    rendering. *)
Lemma display_no_result_keeps (t : ResultsTable.t)
    (resp : ResultsTable.response) :
  has_result resp = false →
  let t' := ResultsTable.display_results t resp in
  ResultsTable.headers t' = ResultsTable.headers t
  ∧ ResultsTable._rows t' = ResultsTable._rows t
  ∧ ResultsTable.list_walker t' = []
  ∧ ResultsTable.info_text t' = "No results found"
  ∧ (∀ r, resp = ResultsTable.EsqlResponse r →
          ResultsTable.total_hits t' = ResultsTable.total_hits t).
Proof.
  intros Hres.
  destruct resp as [[[[[[|h hits]|] total]|]]|[[[|c cols]|] [[|v vals]|]]];
    try discriminate Hres; simpl;
    unfold ResultsTable._display_kql_results; simpl;
    try (by destruct total as [[v|]|]); done.
Qed.

(** C3 at a table of eight columns followed by a response without hits:
    headers and rows of the earlier result stay in the table, only the
    rendering is emptied, and the next [right] key renders the earlier rows
    again; on the ESQL path the earlier total stays as well. *)
Theorem C3_empty_response_keeps_earlier_table :
  let t1 := ResultsTable.display_results ResultsTable.init wide_response in
  let t2 := ResultsTable.display_results t1 empty_kql_response in
  let t3 := ResultsTable.display_results t1 empty_esql_response in
  ResultsTable.headers t1
    = ["_id"; "_index"; "f1"; "f2"; "f3"; "f4"; "f5"; "f6"]
  ∧ ResultsTable._rows t1 = [["1"; "logs"; "a"; "b"; "c"; "d"; "e"; "f"]]
  ∧ ResultsTable.headers t2 = ResultsTable.headers t1
  ∧ ResultsTable._rows t2 = ResultsTable._rows t1
  ∧ ResultsTable.total_hits t2 = 0
  ∧ ResultsTable.list_walker t2 = []
  ∧ length (ResultsTable.list_walker (ResultsTable.keypress t2 "right").1)
    = 2%nat
  ∧ ResultsTable.headers t3 = ResultsTable.headers t1
  ∧ ResultsTable._rows t3 = ResultsTable._rows t1
  ∧ ResultsTable.total_hits t3 = 250.
Proof. repeat split; vm_compute; reflexivity. Qed.

(** ** The session *)

Section Session.
Import MainWindow.
Implicit Types (env : Env) (self w : MainWindow.t).

Lemma report_current_from {R} self (r : ESClient.result R) (on_ok : R → t) :
  (∀ response, current_from (on_ok response) = current_from self) →
  current_from (report self r on_ok) = current_from self.
Proof. intros Hok. destruct r; simpl; [apply Hok|done|done]. Qed.

(** Every submission, whoever triggers it, leaves the page offset at 0. *)
Lemma on_query_submit_current_from env self query query_type :
  current_from (_on_query_submit env self query query_type).1 = 0.
Proof.
  unfold _on_query_submit.
  destruct (TimeRangeSelector.get_time_range _ _) as [start_time end_time].
  destruct (String.eqb query_type "ESQL").
  - destruct (ESClient.query_esql _ _ _ _ _ _) as [r calls]. simpl.
    by rewrite report_current_from.
  - destruct (ESClient.search_kql _ _ _ _ _ _ _ _) as [r calls]. simpl.
    by rewrite report_current_from.
Qed.

(** The backend call of a submission that is not ESQL: a search from
    offset 0. *)
Lemma on_query_submit_kql_call env self query query_type :
  String.eqb query_type "ESQL" = false →
  (_on_query_submit env self query query_type).2
  = [SearchCall
       (ESClient.kql_call query (current_index self) (current_size self) 0
          None
          (Some (TimeRangeSelector.get_time_range (clock env)
                   (time_range_selector self)))
          "@timestamp")].
Proof.
  intros Hkql. unfold _on_query_submit. rewrite Hkql.
  unfold ESClient.search_kql, ESClient.invoke. simpl.
  by destruct (TimeRangeSelector.get_time_range _ _) as [start_time end_time].
Qed.

(** [n] does nothing on the last page. *)
Lemma next_page_noop env w :
  ResultsTable.total_hits (results_table w)
    <= current_from w + current_size w →
  Main.handle_unhandled_input env w "n" = Some (w, []).
Proof.
  intros Hlast. unfold Main.handle_unhandled_input. simpl.
  by destruct (Z.ltb_spec (current_from w + current_size w)
                 (ResultsTable.total_hits (results_table w))); [lia|].
Qed.

(** [enter] on a blank query input does nothing at all. *)
Lemma enter_blank_ignored env w :
  Py.strip (QueryInput.query_edit (query_input w)) = "" →
  query_input_keypress env w "enter" = (w, []).
Proof.
  intros Hblank. unfold query_input_keypress, QueryInput.keypress. simpl.
  rewrite Hblank. simpl. by destruct w.
Qed.

(** [n] and [p] on an empty query input make no call and leave the status
    bar alone. *)
Lemma page_keys_empty_text env w key r :
  QueryInput.query_edit (query_input w) = "" →
  Main.handle_unhandled_input env w key = Some r →
  r.2 = [] ∧ status_bar_text r.1 = status_bar_text w.
Proof.
  intros Hempty.
  unfold Main.handle_unhandled_input, QueryInput.get_query, set_current_from.
  cbn [query_input]. rewrite Hempty. cbn [Py.truthy].
  repeat match goal with
         | |- context [if ?b then _ else _] => destruct b
         end; intros [= <-]; done.
Qed.

End Session.

(** C1 at a window on page offset 0 of 250 hits, page size 100: the [n] key
    advances the offset and resubmits, but the submission resets the offset,
    so the search goes out with offset 0 and the window is back at 0. *)
Theorem C1_next_page_searches_from_zero (env : MainWindow.Env) :
  let w := paging_window "status:200" in
  let time_range :=
    TimeRangeSelector.get_time_range (MainWindow.clock env)
      (MainWindow.time_range_selector w) in
  let call :=
    ESClient.kql_call "status:200" "logs-*" 100 0 None (Some time_range)
      "@timestamp" in
  MainWindow.current_from w + MainWindow.current_size w
    < ResultsTable.total_hits (MainWindow.results_table w)
  ∧ ESClient.sb_from (ESClient.sc_body call) = 0
  ∧ ∃ w',
      Main.handle_unhandled_input env w "n"
        = Some (w', [MainWindow.SearchCall call])
      ∧ MainWindow.current_from w' = 0.
Proof.
  intros w time_range call. split; [done|]. split; [done|].
  unfold Main.handle_unhandled_input. simpl.
  eexists. split.
  - rewrite (surjective_pairing (MainWindow._on_query_submit _ _ _ _)).
    rewrite on_query_submit_kql_call by done. reflexivity.
  - apply on_query_submit_current_from.
Qed.

(** C4 at a window whose query input holds three spaces: [enter] ignores
    it, but the [n] key, which tests the text without trimming it, sends a
    search for it; when that search fails the status bar shows the error. *)
Theorem C4_blank_query_next_page_calls_backend (env : MainWindow.Env) :
  let w := paging_window "   " in
  let time_range :=
    TimeRangeSelector.get_time_range (MainWindow.clock env)
      (MainWindow.time_range_selector w) in
  Py.strip (QueryInput.query_edit (MainWindow.query_input w)) = ""
  ∧ MainWindow.query_input_keypress env w "enter" = (w, [])
  ∧ (∃ w',
       Main.handle_unhandled_input env w "n"
       = Some (w', [MainWindow.SearchCall
                      (ESClient.kql_call "   " "logs-*" 100 0 None
                         (Some time_range) "@timestamp")]))
  ∧ (∃ w',
       Main.handle_unhandled_input failing_env w "n"
       = Some (w', [MainWindow.SearchCall
                      (ESClient.kql_call "   " "logs-*" 100 0 None
                         (Some example_range) "@timestamp")])
       ∧ MainWindow.status_bar_text w'
         = "✗ Error: Search failed: connection refused"
       ∧ MainWindow.status_bar_text w'
         ≠ MainWindow.status_bar_text w).
Proof.
  intros w time_range. split; [done|]. split; [by apply enter_blank_ignored|].
  split.
  - unfold Main.handle_unhandled_input. simpl. eexists.
    rewrite (surjective_pairing (MainWindow._on_query_submit _ _ _ _)).
    rewrite on_query_submit_kql_call by done. reflexivity.
  - eexists. split; [vm_compute; reflexivity|]. split; [vm_compute; reflexivity|].
    vm_compute. discriminate.
Qed.

(** * Further properties *)

(** ** The ESQL rewriting, continued *)

Section EsqlMore.
Implicit Types s t u sub : string.

Lemma prefix_app sub t : String.prefix sub (sub +:+ t) = true.
Proof.
  induction sub as [|c sub IH]; simpl; [by destruct t|].
  by destruct (ascii_dec c c).
Qed.

Lemma index_of_unfold sub s :
  Py.index_of sub s
  = if String.prefix sub s then Some 0%nat
    else match s with
         | EmptyString => None
         | String _ s' => S <$> Py.index_of sub s'
         end.
Proof. by destruct s. Qed.

(** A text occurs in whatever surrounds it. *)
Lemma contains_app s sub t : Py.contains sub (s +:+ sub +:+ t) = true.
Proof.
  unfold Py.contains.
  assert (is_Some (Py.index_of sub (s +:+ sub +:+ t))) as [i ->]; [|done].
  induction s as [|c s [i IH]].
  - change ("" +:+ sub +:+ t) with (sub +:+ t).
    rewrite index_of_unfold, prefix_app. by eexists.
  - change (String c s +:+ sub +:+ t) with (String c (s +:+ sub +:+ t)).
    rewrite index_of_unfold, IH.
    destruct (String.prefix sub _); by eexists.
Qed.

Lemma time_condition_in_text s tf start_str end_str t :
  Py.contains (ESClient.time_condition tf start_str end_str)
    (s +:+ ESClient.time_condition tf start_str end_str +:+ t) = true.
Proof. apply contains_app. Qed.

End EsqlMore.

(** X1. In a query of ASCII characters, when the first occurrence of the
    letters [WHERE], in any letter case and whether a keyword or part of a
    longer word, is the five characters [w] that follow [a], the query
    sent keeps [a] and [w], then carries the time condition and [AND],
    then the rest of the query, trimmed: the original condition is kept
    behind the time condition. *)
Theorem esql_where_branch_inserts_after_keyword
    (a w b time_field : string) (start_time end_time : TimeRange.datetime) :
  Py.isascii (a +:+ w +:+ b) = true →
  String.length w = 5%nat →
  Py.find (Py.upper (a +:+ w +:+ b)) "WHERE" = Py.len a →
  ESClient.esql_query_text (a +:+ w +:+ b) (Some (start_time, end_time))
    time_field
  = a +:+ w +:+ " " +:+
    ESClient.time_condition time_field (TimeRange.es_timestamp start_time)
      (TimeRange.es_timestamp end_time)
    +:+ " AND " +:+ Py.strip b.
Proof.
  intros _ Hw Hfind. unfold ESClient.esql_query_text.
  destruct (Py.contains "WHERE" (Py.upper (a +:+ w +:+ b))) eqn:Hin.
  - rewrite Hfind.
    replace (Py.len a + 5) with (Py.len (a +:+ w))
      by (rewrite len_app; unfold Py.len; lia).
    rewrite <- (string_app_assoc a w b), slice_to_app, slice_from_app.
    by rewrite !string_app_assoc.
  - apply find_minus_one in Hin. pose proof (len_nonneg a). lia.
Qed.

Lemma esql_where_branch_inserts_after_keyword_witness :
  ESClient.esql_query_text ("from logs | " +:+ "where" +:+ " status > 200")
    (Some example_range) "@timestamp"
  = "from logs | " +:+ "where" +:+ " " +:+
    ESClient.time_condition "@timestamp"
      (TimeRange.es_timestamp example_range.1)
      (TimeRange.es_timestamp example_range.2)
    +:+ " AND " +:+ Py.strip " status > 200".
Proof.
  apply (esql_where_branch_inserts_after_keyword "from logs | " "where"
           " status > 200" "@timestamp" example_range.1 example_range.2).
  - reflexivity.
  - reflexivity.
  - vm_compute. reflexivity.
Defined.

(** X23. In a query of ASCII characters in which the letters [WHERE] occur
    nowhere (in any letter case) and the letters [FROM] occur: when [a] is
    the text up to the first pipe after the first [FROM] and [b] the text
    after that pipe, the query sent is [a], trimmed, the new [WHERE] stage
    between pipes, and [b], trimmed; when no pipe follows that [FROM],
    the stage is appended to the trimmed query. *)
Theorem esql_where_stage_rule :
  (∀ a b start_time end_time time_field,
     let query := a +:+ "|" +:+ b in
     Py.isascii query = true →
     Py.contains "WHERE" (Py.upper query) = false →
     0 <= Py.find (Py.upper query) "FROM" <= Py.len a →
     Py.contains "|"
       (Py.drop (Z.to_nat (Py.find (Py.upper query) "FROM")) a) = false →
     ESClient.esql_query_text query (Some (start_time, end_time)) time_field
     = Py.strip a +:+ " | WHERE " +:+
       ESClient.time_condition time_field
         (TimeRange.es_timestamp start_time) (TimeRange.es_timestamp end_time)
       +:+ " | " +:+ Py.strip b)
  ∧ (∀ query start_time end_time time_field,
       Py.isascii query = true →
       Py.contains "WHERE" (Py.upper query) = false →
       Py.find (Py.upper query) "FROM" ≠ -1 →
       Py.find_from query "|" (Py.find (Py.upper query) "FROM") = -1 →
       ESClient.esql_query_text query (Some (start_time, end_time)) time_field
       = Py.strip query +:+ " | WHERE " +:+
         ESClient.time_condition time_field
           (TimeRange.es_timestamp start_time)
           (TimeRange.es_timestamp end_time)).
Proof.
  split.
  - intros a b start_time end_time time_field query _ Hwhere Hfrom Hpipe.
    unfold ESClient.esql_query_text. rewrite Hwhere.
    set (from_pos := Py.find (Py.upper query) "FROM") in *.
    destruct (Z.eqb_spec from_pos (-1)) as [|_]; [lia|]. simpl negb. cbv iota.
    assert (Hfind : Py.find_from query "|" from_pos = Py.len a)
      by (by apply find_from_char).
    rewrite Hfind. pose proof (len_nonneg a).
    destruct (Z.eqb_spec (Py.len a) (-1)) as [|_]; [lia|]. simpl negb. cbv iota.
    subst query. rewrite slice_to_app.
    replace (Py.len a + 1) with (Py.len (a +:+ "|")) by (by rewrite len_app).
    by rewrite <- (string_app_assoc a "|" b), slice_from_app.
  - intros query start_time end_time time_field _ Hwhere Hfrom Hpipe.
    unfold ESClient.esql_query_text. rewrite Hwhere.
    destruct (Z.eqb_spec (Py.find (Py.upper query) "FROM") (-1)); [done|].
    simpl negb. cbv iota. by rewrite Hpipe.
Qed.

(** The rule at the query [FROM logs | LIMIT 10]: [a] is [FROM logs ] and
    [b] is [ LIMIT 10]. *)
Lemma esql_where_stage_rule_witness :
  ESClient.esql_query_text ("FROM logs " +:+ "|" +:+ " LIMIT 10")
    (Some example_range) "@timestamp"
  = Py.strip "FROM logs " +:+ " | WHERE " +:+
    ESClient.time_condition "@timestamp"
      (TimeRange.es_timestamp example_range.1) (TimeRange.es_timestamp example_range.2)
    +:+ " | " +:+ Py.strip " LIMIT 10".
Proof.
  destruct esql_where_stage_rule as [Hpipe _].
  apply (Hpipe "FROM logs " " LIMIT 10" example_range.1 example_range.2 "@timestamp").
  - reflexivity.
  - vm_compute. reflexivity.
  - vm_compute. split; discriminate.
  - vm_compute. reflexivity.
Defined.

(** X2. Whenever [WHERE] or [FROM] occurs in a query (in any letter case),
    the text sent for a time range contains the time condition on the
    given field between the two formatted instants. *)
Theorem esql_time_condition_present
    (query time_field : string) (start_time end_time : TimeRange.datetime) :
  Py.contains "WHERE" (Py.upper query) = true
  ∨ Py.contains "FROM" (Py.upper query) = true →
  Py.contains
    (ESClient.time_condition time_field (TimeRange.es_timestamp start_time)
       (TimeRange.es_timestamp end_time))
    (ESClient.esql_query_text query (Some (start_time, end_time)) time_field)
  = true.
Proof.
  intros Hkey. unfold ESClient.esql_query_text.
  set (cond := ESClient.time_condition _ _ _).
  destruct (Py.contains "WHERE" (Py.upper query)) eqn:Hwhere.
  - rewrite <- (string_app_assoc _ " " _), (string_app_assoc cond).
    apply contains_app.
  - destruct Hkey as [?|Hfrom]; [done|].
    destruct (Z.eqb_spec (Py.find (Py.upper query) "FROM") (-1)) as [Hno|_].
    { apply find_minus_one in Hno. congruence. }
    simpl negb. cbv iota.
    destruct (negb (Py.find_from query "|" _ =? -1)).
    + rewrite <- (string_app_assoc _ " | WHERE " _). apply contains_app.
    + rewrite <- (string_app_assoc _ " | WHERE " _).
      replace cond with (cond +:+ "") at 2
        by (clear; induction cond as [|c s IH]; simpl; [done|by rewrite IH]).
      apply contains_app.
Qed.

Lemma esql_time_condition_present_witness :
  Py.contains
    (ESClient.time_condition "@timestamp"
       (TimeRange.es_timestamp example_range.1)
       (TimeRange.es_timestamp example_range.2))
    (ESClient.esql_query_text "from logs | stats count()"
       (Some (example_range.1, example_range.2)) "@timestamp")
  = true.
Proof.
  apply esql_time_condition_present. right. vm_compute. reflexivity.
Defined.

(** ** The session, continued *)

Section SessionMore.
Import MainWindow.
Implicit Types (env : Env) (self w : MainWindow.t).

Lemma length_take n s :
  String.length (Py.take n s) = Nat.min n (String.length s).
Proof.
  revert s. induction n as [|n IH]; intros [|c s]; simpl; try done.
  by rewrite IH.
Qed.

Lemma len_slice_to s k : 0 <= k <= Py.len s → Py.len (Py.slice_to s k) = k.
Proof.
  intros Hk. unfold Py.slice_to. rewrite bound_inside by done.
  unfold Py.len in *. rewrite length_take. lia.
Qed.

(** The message shown for an error has at most 120 characters: a longer
    one is cut to its first 117 and three dots. *)
Lemma truncate_error_bound e : Py.len (truncate_error e) <= 120.
Proof.
  unfold truncate_error.
  destruct (Z.ltb_spec 120 (Py.len e)); [|lia].
  rewrite len_app, len_slice_to by lia. done.
Qed.

Lemma string_app_assoc4 (a b c d r : string) :
  (a +:+ b +:+ c +:+ d) +:+ r = a +:+ b +:+ c +:+ d +:+ r.
Proof. by rewrite !string_app_assoc. Qed.

(** The window after a submission. *)
Lemma on_query_submit_window env self query query_type :
  let w' := (_on_query_submit env self query query_type).1 in
  current_index w' = current_index self
  ∧ current_size w' = current_size self
  ∧ query_input w' = query_input self
  ∧ time_range_selector w' = time_range_selector self
  ∧ match backend_answer env self query query_type with
    | Some resp =>
        results_table w'
        = ResultsTable.display_results (results_table self) resp
        ∧ status_bar_attr w' = "status"
        ∧ ∃ lead,
            status_bar_text w'
            = lead +:+ " | Results: " +:+
              Py.str_int (ResultsTable.total_hits (results_table w'))
    | None =>
        results_table w' = results_table self
        ∧ status_bar_attr w' = "error"
        ∧ ∃ lead msg,
            status_bar_text w' = lead +:+ msg
            ∧ (lead = "✗ Query error: " ∨ lead = "✗ Error: ")
            ∧ Py.len msg <= 120
    end.
Proof.
  unfold _on_query_submit, backend_answer.
  destruct (TimeRangeSelector.get_time_range _ _) as [start_time end_time].
  destruct (String.eqb query_type "ESQL").
  - unfold ESClient.query_esql, ESClient.invoke.
    destruct (ESClientConfig._get_base_url _) as [base_url|e];
      [destruct (http_post env _) as [r| |m| |m]|];
      cbn [fst report set_status set_results_table set_current_from
           current_index current_size query_input time_range_selector
           results_table status_bar_text status_bar_attr];
      repeat (split; [reflexivity|]).
    + eexists (_ +:+ _). symmetry. apply string_app_assoc.
    + eexists _, _. split; [reflexivity|]. split; [by right|].
      apply truncate_error_bound.
    + eexists _, _. split; [reflexivity|]. split; [by left|].
      apply truncate_error_bound.
    + eexists _, _. split; [reflexivity|]. split; [by right|].
      apply truncate_error_bound.
    + eexists _, _. split; [reflexivity|]. split; [by right|].
      apply truncate_error_bound.
    + eexists _, _. split; [reflexivity|]. split; [by right|].
      apply truncate_error_bound.
  - unfold ESClient.search_kql, ESClient.invoke.
    destruct (client_search env _) as [r|m|m];
      cbn [fst report set_status set_results_table set_current_from
           current_index current_size query_input time_range_selector
           results_table status_bar_text status_bar_attr];
      repeat (split; [reflexivity|]).
    + eexists (_ +:+ _ +:+ _ +:+ _). symmetry. apply string_app_assoc4.
    + eexists _, _. split; [reflexivity|]. split; [by left|].
      apply truncate_error_bound.
    + eexists _, _. split; [reflexivity|]. split; [by right|].
      apply truncate_error_bound.
Qed.

(** The calls of a submission: those of the client method for the query
    type. *)
Lemma on_query_submit_calls env self query query_type :
  (_on_query_submit env self query query_type).2
  = if String.eqb query_type "ESQL"
    then map EsqlCall
           (ESClient.query_esql (_original_config env) (http_post env) query
              "json"
              (Some (TimeRangeSelector.get_time_range (clock env)
                       (time_range_selector self)))
              "@timestamp").2
    else map SearchCall
           (ESClient.search_kql (client_search env) query
              (current_index self) (current_size self) 0 None
              (Some (TimeRangeSelector.get_time_range (clock env)
                       (time_range_selector self)))
              "@timestamp").2.
Proof.
  unfold _on_query_submit.
  destruct (TimeRangeSelector.get_time_range _ _) as [start_time end_time].
  destruct (String.eqb query_type "ESQL").
  - by destruct (ESClient.query_esql _ _ _ _ _ _) as [r calls].
  - cbn [set_status set_current_from current_index current_size current_from].
    by destruct (ESClient.search_kql _ _ _ _ _ _ _ _) as [r calls].
Qed.

(** The log of the client methods: [search_kql] always reaches the SDK,
    once; [query_esql] sends one request, unless the base URL cannot be
    read. *)
Lemma search_kql_calls {R} (client_search : _ → ESClient.sdk_outcome R)
    query index size from_ sort time_range time_field :
  (ESClient.search_kql client_search query index size from_ sort time_range
     time_field).2
  = [ESClient.kql_call query index size from_ sort time_range time_field].
Proof. done. Qed.

Lemma query_esql_calls {R} original_config
    (post : _ → ESClient.http_outcome R) query format time_range time_field :
  (ESClient.query_esql original_config post query format time_range
     time_field).2
  = match ESClientConfig._get_base_url original_config with
    | PyObj.Return _ =>
        [ESClient.esql_call_of query format time_range time_field]
    | PyObj.Raise _ => []
    end.
Proof.
  unfold ESClient.query_esql.
  by destruct (ESClientConfig._get_base_url original_config).
Qed.

(** A submission whose ESQL request cannot be sent. *)
Lemma on_query_submit_no_base_url env self query e :
  ESClientConfig._get_base_url (_original_config env) = PyObj.Raise e →
  let w' := (_on_query_submit env self query "ESQL").1 in
  results_table w' = results_table self
  ∧ status_bar_attr w' = "error"
  ∧ status_bar_text w'
    = "✗ Error: " +:+
      truncate_error
        ("ESQL query failed: " +:+
         ESClientConfig._get_base_url_error (_original_config env)).
Proof.
  intros Hurl. unfold _on_query_submit.
  destruct (TimeRangeSelector.get_time_range _ _) as [start_time end_time].
  change (String.eqb "ESQL" "ESQL") with true. cbv iota.
  unfold ESClient.query_esql. rewrite Hurl. done.
Qed.

(** What the key handler outside the widgets does to the window, in all
    the ways it can end. *)
Lemma handle_unhandled_input_cases env w key r :
  Main.handle_unhandled_input env w key = Some r →
  r = (w, [])
  ∨ (∃ from',
       r = (set_current_from w from', [])
       ∧ (from' = current_from w + current_size w
          ∨ from' = Z.max 0 (current_from w - current_size w)))
  ∨ (∃ from' query query_type,
       r = _on_query_submit env (set_current_from w from') query query_type).
Proof.
  unfold Main.handle_unhandled_input.
  destruct (String.eqb key "q"); [done|].
  destruct (String.eqb key "n").
  { destruct (_ <? _); [|intros [= <-]; by left].
    destruct (QueryInput.get_query _) as [query query_type] eqn:Hq.
    destruct (Py.truthy query); intros [= <-]; right.
    - right. by eexists _, _, _.
    - left. eexists. split; [done|]. by left. }
  destruct (String.eqb key "p"); [|intros [= <-]; by left].
  destruct (_ <? _); [|intros [= <-]; by left].
  destruct (QueryInput.get_query _) as [query query_type] eqn:Hq.
  destruct (Py.truthy query); intros [= <-]; right.
  - right. by eexists _, _, _.
  - left. eexists. split; [done|]. by right.
Qed.

End SessionMore.


(** X4. No key event makes more than one call to the backend: a key in the
    query input and a key that no widget handles make none or one.  A
    submission of a type other than ESQL makes exactly one search call, for
    the window's index and page size, from offset 0 and over the
    selector's time range.  A submission of type ESQL makes exactly one
    HTTP call, with the compiled query, when the base URL can be read from
    the configuration; when it cannot, no call goes out, the table is
    untouched and the status bar shows that error in the error style. *)
Theorem key_events_call_backend_at_most_once (env : MainWindow.Env)
    (w : MainWindow.t) (key : string) :
  (length (MainWindow.query_input_keypress env w key).2 <= 1)%nat
  ∧ (∀ r, Main.handle_unhandled_input env w key = Some r →
          (length r.2 <= 1)%nat)
  ∧ (∀ query query_type,
       let r := MainWindow._on_query_submit env w query query_type in
       let time_range :=
         Some (TimeRangeSelector.get_time_range (MainWindow.clock env)
                 (MainWindow.time_range_selector w)) in
       if String.eqb query_type "ESQL" then
         match ESClientConfig._get_base_url
                 (MainWindow._original_config env) with
         | PyObj.Return _ =>
             r.2 = [MainWindow.EsqlCall
                      (ESClient.esql_call_of query "json" time_range
                         "@timestamp")]
         | PyObj.Raise _ =>
             r.2 = []
             ∧ MainWindow.results_table r.1 = MainWindow.results_table w
             ∧ MainWindow.status_bar_attr r.1 = "error"
             ∧ MainWindow.status_bar_text r.1
               = "✗ Error: " +:+
                 MainWindow.truncate_error
                   ("ESQL query failed: " +:+
                    ESClientConfig._get_base_url_error
                      (MainWindow._original_config env))
         end
       else
         r.2 = [MainWindow.SearchCall
                  (ESClient.kql_call query (MainWindow.current_index w)
                     (MainWindow.current_size w) 0 None time_range
                     "@timestamp")]).
Proof.
  assert (∀ self query query_type,
            (length (MainWindow._on_query_submit env self query query_type).2
             <= 1)%nat) as Hone.
  { intros self query query_type. rewrite on_query_submit_calls.
    destruct (String.eqb query_type "ESQL"); rewrite List.length_map.
    - rewrite query_esql_calls.
      destruct (ESClientConfig._get_base_url _); simpl; lia.
    - rewrite search_kql_calls. simpl. lia. }
  split; [|split].
  - unfold MainWindow.query_input_keypress.
    destruct (QueryInput.keypress _ _) as [qi [query query_type| |]];
      simpl; try lia. apply Hone.
  - intros r Hr.
    destruct (handle_unhandled_input_cases env w key r Hr)
      as [->|[(from' & -> & _)|(from' & query & query_type & ->)]];
      simpl; try lia. apply Hone.
  - intros query query_type r time_range. subst r.
    rewrite on_query_submit_calls.
    destruct (String.eqb_spec query_type "ESQL") as [->|Hne].
    + rewrite query_esql_calls.
      destruct (ESClientConfig._get_base_url _) as [base_url|e] eqn:Hurl;
        [done|].
      split; [done|]. by apply (on_query_submit_no_base_url env w query e).
    + by rewrite search_kql_calls.
Qed.

Lemma key_events_call_backend_at_most_once_witness :
  match Main.handle_unhandled_input failing_env (paging_window "status:200")
          "n" with
  | Some r => (length r.2 <= 1)%nat
  | None => True
  end
  ∧ (MainWindow._on_query_submit unreadable_url_env
       (paging_window "FROM logs") "FROM logs" "ESQL").2 = [].
Proof.
  split.
  - destruct (Main.handle_unhandled_input failing_env
                (paging_window "status:200") "n") as [r|] eqn:E; [|done].
    exact (proj1 (proj2 (key_events_call_backend_at_most_once failing_env
                           (paging_window "status:200") "n")) r E).
  - exact (proj1 (proj2 (proj2 (key_events_call_backend_at_most_once
                                  unreadable_url_env
                                  (paging_window "FROM logs") "n"))
                    "FROM logs" "ESQL")).
Defined.

(** The status bar after that submission. *)
Example unreadable_url_status :
  MainWindow.status_bar_text
    (MainWindow._on_query_submit unreadable_url_env
       (paging_window "FROM logs") "FROM logs" "ESQL").1
  = "✗ Error: ESQL query failed: 'int' object has no attribute 'rstrip'".
Proof. vm_compute. reflexivity. Qed.

(** ** Invariants of the session *)

Section SessionInvariant.
Import MainWindow.
Implicit Types (env : Env) (self w : MainWindow.t).

Lemma on_query_submit_ok default_index default_size env self query query_type :
  current_index self = default_index →
  current_size self = default_size →
  reachable (results_table self) →
  Py.mem (TimeRangeSelector.current_preset (time_range_selector self))
    (Py.keys TimeRange.PRESETS) = true →
  window_ok default_index default_size
    (_on_query_submit env self query query_type).1.
Proof.
  intros Hi Hs Ht Hp.
  destruct (on_query_submit_window env self query query_type)
    as (Hi' & Hs' & _ & Hp' & Hans).
  unfold window_ok. rewrite on_query_submit_current_from, Hi', Hs', Hp'.
  split; [done|]. split; [apply Z.divide_0_r|].
  split; [done|]. split; [done|]. split; [|done].
  destruct (backend_answer env self query query_type) as [resp|].
  - destruct Hans as (-> & _). by apply reachable_display.
  - by destruct Hans as (-> & _).
Qed.

Lemma reachable_window_ok default_index default_size w :
  0 <= default_size →
  reachable_window default_index default_size w →
  window_ok default_index default_size w.
Proof.
  intros Hsize. induction 1 as [|w qi _ IH|env w key _ IH|w key _ IH
                                |w preset _ IH|env w key r _ IH Hr].
  - unfold window_ok. simpl. split; [done|]. split; [apply Z.divide_0_r|].
    split; [done|]. split; [done|]. split; [apply reachable_init|done].
  - exact IH.
  - destruct IH as (Hf & Hd & Hi & Hs & Ht & Hp).
    unfold query_input_keypress.
    destruct (QueryInput.keypress (query_input w) key)
      as [qi [query query_type| |]]; [|done|done].
    by apply on_query_submit_ok.
  - destruct IH as (Hf & Hd & Hi & Hs & Ht & Hp).
    unfold window_ok. simpl. repeat split; try done.
    by apply reachable_keypress.
  - destruct IH as (Hf & Hd & Hi & Hs & Ht & Hp).
    unfold window_ok. simpl. repeat split; try done.
    unfold TimeRangeSelector.set_preset.
    by destruct (Py.mem preset (Py.keys TimeRange.PRESETS)) eqn:E.
  - destruct IH as (Hf & Hd & Hi & Hs & Ht & Hp).
    destruct (handle_unhandled_input_cases env w key r Hr)
      as [->|[(from' & -> & Hfrom)|(from' & query & query_type & ->)]].
    + done.
    + unfold window_ok. simpl. rewrite Hs in Hfrom.
      repeat split; try done.
      * destruct Hfrom as [->| ->]; lia.
      * destruct Hfrom as [->| ->].
        -- apply Z.divide_add_r; [done|apply Z.divide_refl].
        -- destruct (Z.max_spec 0 (current_from w - default_size))
             as [[_ ->]|[_ ->]]; [|apply Z.divide_0_r].
           apply Z.divide_sub_r; [done|apply Z.divide_refl].
    + by apply on_query_submit_ok.
Qed.

End SessionInvariant.

(** X5. In every window of a session started with a page size that is not
    negative, the page offset is not negative and is a multiple of the page
    size, index and page size are the ones the session started with, the
    result table is one that a session can show (so its horizontal offset
    is within bounds), and the selected preset is one of the listed
    presets. *)
Theorem window_invariant (default_index : string) (default_size : Z)
    (w : MainWindow.t) :
  0 <= default_size →
  reachable_window default_index default_size w →
  0 <= MainWindow.current_from w
  ∧ (default_size | MainWindow.current_from w)
  ∧ MainWindow.current_index w = default_index
  ∧ MainWindow.current_size w = default_size
  ∧ reachable (MainWindow.results_table w)
  ∧ Py.mem (TimeRangeSelector.current_preset (MainWindow.time_range_selector w))
      (Py.keys TimeRange.PRESETS) = true.
Proof. apply reachable_window_ok. Qed.

Lemma window_invariant_witness :
  let w := (MainWindow.query_input_keypress failing_env
              (MainWindow.set_query_input (MainWindow.init "logs-*" 100)
                 (QueryInput.mk "status:200" false)) "enter").1 in
  0 <= MainWindow.current_from w
  ∧ (100 | MainWindow.current_from w)
  ∧ MainWindow.current_index w = "logs-*"
  ∧ MainWindow.current_size w = 100
  ∧ reachable (MainWindow.results_table w)
  ∧ Py.mem (TimeRangeSelector.current_preset (MainWindow.time_range_selector w))
      (Py.keys TimeRange.PRESETS) = true.
Proof.
  intros w. apply (window_invariant "logs-*" 100 w); [lia|].
  apply window_query_key, window_edit, window_init.
Defined.

(** X6. The [n] key on the last page (offset plus page size reaches the
    total) and the [p] key on the first page (offset 0) make no call and
    leave the window exactly as it is. *)
Theorem page_keys_do_nothing_at_the_ends (env : MainWindow.Env)
    (w : MainWindow.t) (key : string) :
  (key = "n"
   ∧ ResultsTable.total_hits (MainWindow.results_table w)
       <= MainWindow.current_from w + MainWindow.current_size w)
  ∨ (key = "p" ∧ MainWindow.current_from w <= 0) →
  Main.handle_unhandled_input env w key = Some (w, []).
Proof.
  intros [[-> Hlast]|[-> Hfirst]].
  - by apply next_page_noop.
  - unfold Main.handle_unhandled_input. simpl.
    by destruct (Z.ltb_spec 0 (MainWindow.current_from w)); [lia|].
Qed.

Lemma page_keys_do_nothing_at_the_ends_witness :
  Main.handle_unhandled_input failing_env (paging_window "status:200") "p"
  = Some (paging_window "status:200", []).
Proof.
  apply page_keys_do_nothing_at_the_ends. right. split; [done|]. simpl. lia.
Defined.

(** ** Rendering *)

Section Rendering.
Implicit Types (headers : list string) (rows : list (list string)).

Lemma fold_max_ge rows col_idx (m0 : Z) :
  m0 <= foldl (λ m row,
                 match row !! col_idx with
                 | Some c => Z.max m (Py.len c)
                 | None => m
                 end) m0 rows
  ∧ ∀ row c, row ∈ rows → row !! col_idx = Some c →
      Py.len c <= foldl (λ m row,
                           match row !! col_idx with
                           | Some c => Z.max m (Py.len c)
                           | None => m
                           end) m0 rows.
Proof.
  revert m0. induction rows as [|r rows IH]; intros m0; cbn [foldl].
  - split; [lia|]. intros row c Hin. by apply elem_of_nil in Hin.
  - set (m1 := match r !! col_idx with
               | Some c => Z.max m0 (Py.len c)
               | None => m0
               end).
    destruct (IH m1) as [Hge Hall].
    assert (m0 <= m1) as H01 by (subst m1; destruct (r !! col_idx); lia).
    split; [lia|].
    intros row c [->|Hin]%elem_of_cons Hc; [|by eapply Hall].
    assert (Py.len c <= m1) by (subst m1; rewrite Hc; lia). lia.
Qed.

(** The widths, one per visible column that exists. *)
Lemma widths_lookup headers rows (a n i : nat) h :
  (i < n)%nat → headers !! (a + i)%nat = Some h →
  flat_map
    (λ col_idx,
       match headers !! col_idx with
       | None => []
       | Some h => [column_width rows col_idx h]
       end) (seq a n) !! i
  = Some (column_width rows (a + i) h).
Proof.
  revert a n. induction i as [|i IH]; intros a n Hi Hh.
  - destruct n as [|n]; [lia|]. simpl.
    replace (a + 0)%nat with a in * by lia. by rewrite Hh.
  - destruct n as [|n]; [lia|]. simpl.
    destruct (headers !! a) as [h0|] eqn:Ha.
    + simpl. replace (a + S i)%nat with (S a + i)%nat in * by lia.
      apply IH; [lia|done].
    + apply lookup_ge_None in Ha. apply lookup_lt_Some in Hh. lia.
Qed.

Lemma calculate_column_widths_eq headers rows (vs ve : Z) :
  ResultsTable._calculate_column_widths headers rows vs ve
  = flat_map
      (λ col_idx,
         match headers !! col_idx with
         | None => []
         | Some h => [column_width rows col_idx h]
         end) (Py.range vs ve).
Proof. reflexivity. Qed.





End Rendering.

(** X7. Every column width is between 15 and 100.  The width at position
    [i] of the result is the one of the column [i] places after the first
    visible one; unless it is capped at 100, it leaves room for the header
    and for every cell of that column plus three characters. *)
Theorem column_widths_clamped (headers : list string)
    (rows : list (list string)) (visible_start visible_end : Z) :
  let widths :=
    ResultsTable._calculate_column_widths headers rows visible_start
      visible_end in
  Forall (λ w, 15 <= w <= 100) widths
  ∧ ∀ (i : nat) h,
      0 <= visible_start → visible_start + Z.of_nat i < visible_end →
      headers !! (Z.to_nat visible_start + i)%nat = Some h →
      ∃ w, widths !! i = Some w
           ∧ (w < 100 →
              Py.len h + 3 <= w
              ∧ ∀ row c, row ∈ rows →
                         row !! (Z.to_nat visible_start + i)%nat = Some c →
                         Py.len c + 3 <= w).
Proof.
  intros widths. subst widths. rewrite calculate_column_widths_eq. split.
  - apply Forall_flat_map, Forall_forall. intros col_idx _.
    destruct (headers !! col_idx); [|constructor].
    constructor; [|constructor]. unfold column_width. lia.
  - intros i h Hvs Hi Hh. eexists. split.
    + unfold Py.range. apply widths_lookup; [lia|done].
    + unfold column_width.
      destruct (fold_max_ge rows (Z.to_nat visible_start + i) (Py.len h))
        as [Hge Hall].
      intros Hcap. split; [lia|].
      intros row c Hin Hc. specialize (Hall row c Hin Hc). lia.
Qed.

Lemma column_widths_clamped_witness :
  ∃ w, ResultsTable._calculate_column_widths ["id"; "message"]
         [["1"; "a rather long message text"]] 1 2 !! 0%nat = Some w
       ∧ (w < 100 → Py.len "message" + 3 <= w).
Proof.
  destruct (column_widths_clamped ["id"; "message"]
              [["1"; "a rather long message text"]] 1 2) as [_ H].
  destruct (H 0%nat "message") as (w & Hw & Hroom); [lia|lia|done|].
  exists w. split; [exact Hw|]. intros Hcap. by destruct (Hroom Hcap).
Defined.



(** ** The elision, continued *)

Section ElisionMore.
Implicit Types (headers : list string) (rows : list (list string)).
Implicit Types (E : gset nat).

(** The three ways [filter_empty_columns] can end. *)
Lemma filter_empty_columns_cases headers rows :
  ResultsTable.filter_empty_columns headers rows = (headers, rows)
  ∨ (headers ≠ [] ∧ rows ≠ []
     ∧ (size (ResultsTable.empty_col_indices headers rows)
          < length headers)%nat
     ∧ ResultsTable.filter_empty_columns headers rows
       = (ResultsTable.without (ResultsTable.empty_col_indices headers rows)
            headers,
          map (ResultsTable.without
                 (ResultsTable.empty_col_indices headers rows)) rows)).
Proof.
  unfold ResultsTable.filter_empty_columns.
  destruct (bool_decide (headers = [])) eqn:Hh; [by left|].
  destruct (bool_decide (rows = [])) eqn:Hr; [by left|]. simpl.
  destruct (bool_decide (_ ≠ ∅)); [|by left]. simpl.
  destruct (bool_decide (_ < _)%nat) eqn:Hlt; [|by left].
  right. apply bool_decide_eq_false in Hh, Hr.
  by apply bool_decide_eq_true in Hlt.
Qed.

Lemma without_subset {A} E (l : list A) x :
  x ∈ ResultsTable.without E l → x ∈ l.
Proof.
  intros [k Hk]%list_elem_of_lookup_1.
  destruct (Forall2_lookup_r _ _ _ _ _ (without_picks E l) Hk)
    as (i & _ & Hi).
  by eapply list_elem_of_lookup_2.
Qed.

Lemma without_nonempty {A} E (l : list A) :
  (size E < length l)%nat → (∀ i, i ∈ E → (i < length l)%nat) →
  ResultsTable.without E l ≠ [].
Proof.
  intros Hsize Hbelow Hnil.
  destruct (missing_index E _ Hsize) as (j & Hj & Hout).
  assert (j ∈ kept E (length l)) as Hin.
  { apply list_elem_of_filter. split; [done|]. apply elem_of_seq. lia. }
  assert (length (kept E (length l)) = 0%nat) as Hlen
    by (by rewrite <- without_length, Hnil).
  destruct (kept E (length l)); [by apply elem_of_nil in Hin|done].
Qed.

(** The elision keeps the number of rows, keeps a table rectangular, keeps
    at least one column, and shows no header that was not there. *)
Lemma filter_empty_columns_shape headers rows :
  let r := ResultsTable.filter_empty_columns headers rows in
  length r.2 = length rows
  ∧ (Forall (λ row, length row = length headers) rows →
     Forall (λ row, length row = length r.1) r.2)
  ∧ (headers ≠ [] → r.1 ≠ [])
  ∧ (∀ h, h ∈ r.1 → h ∈ headers).
Proof.
  destruct (filter_empty_columns_cases headers rows)
    as [->|(Hh & Hr & Hlt & ->)]; simpl; [done|].
  split; [by rewrite List.length_map|]. split; [|split].
  - intros Hrect. apply Forall_fmap. eapply Forall_impl; [exact Hrect|].
    intros row Hlen. simpl. by rewrite !without_length, Hlen.
  - intros _. apply without_nonempty; [done|].
    by intros i [Hi _]%elem_of_empty_col_indices.
  - intros h. apply without_subset.
Qed.

End ElisionMore.

(** X9. On a table whose rows are as long as the header list, the elision
    is idempotent: applied to its own result it changes nothing. *)
Theorem elision_idempotent (headers : list string)
    (rows : list (list string)) :
  Forall (λ row, length row = length headers) rows →
  let r := ResultsTable.filter_empty_columns headers rows in
  ResultsTable.filter_empty_columns r.1 r.2 = r.
Proof.
  intros Hrect.
  destruct (filter_empty_columns_cases headers rows)
    as [Hsame|(Hh & Hr & Hlt & Hdrop)]; simpl.
  { rewrite !Hsame. simpl. exact Hsame. }
  rewrite Hdrop. simpl.
  set (E := ResultsTable.empty_col_indices headers rows) in *.
  set (headers' := ResultsTable.without E headers).
  set (rows' := map (ResultsTable.without E) rows).
  destruct (filter_empty_columns_cases headers' rows')
    as [Hsame|(_ & _ & _ & Hdrop')]; [done|].
  assert (ResultsTable.empty_col_indices headers' rows' = ∅) as Hnone.
  { apply elem_of_equiv_empty_L. intros k [Hk Hblank]%elem_of_empty_col_indices.
    subst headers'. rewrite without_length in Hk.
    destruct (lookup_lt_is_Some_2 _ _ Hk) as [i Hi].
    assert ((i ∉ E) ∧ (i < length headers)%nat) as [Hout Hlt2].
    { apply list_elem_of_lookup_2, list_elem_of_filter in Hi as [? Hs].
      apply elem_of_seq in Hs. split; [done|lia]. }
    apply Hout. subst E. apply elem_of_empty_col_indices. split; [done|].
    intros row v Hrow Hv.
    apply (Hblank (ResultsTable.without
                     (ResultsTable.empty_col_indices headers rows) row) v).
    - subst rows'. by apply (list_elem_of_fmap_2 _ rows row).
    - rewrite Forall_forall in Hrect. specialize (Hrect row Hrow).
      pose proof (without_picks (ResultsTable.empty_col_indices headers rows)
                    row) as Hp.
      unfold picks in Hp. rewrite Hrect in Hp.
      destruct (Forall2_lookup_l _ _ _ _ _ Hp Hi) as (x & Hx & Hrowi).
      rewrite Hv in Hrowi. by injection Hrowi as ->. }
  unfold ResultsTable.filter_empty_columns. rewrite Hnone.
  destruct (bool_decide (headers' = []) || bool_decide (rows' = []));
    [done|].
  rewrite bool_decide_eq_false_2; [done|]. intros Hne. by apply Hne.
Qed.

Lemma elision_idempotent_witness :
  ResultsTable.filter_empty_columns ["a"; "c"] [["1"; "x"]; ["2"; "y"]]
  = (["a"; "c"], [["1"; "x"]; ["2"; "y"]]).
Proof.
  apply (elision_idempotent ["a"; "b"; "c"] [["1"; " "; "x"]; ["2"; ""; "y"]]).
  repeat constructor.
Defined.

(** ** Displaying a response, continued *)

Section DisplayMore.
Implicit Types (t : ResultsTable.t).

(** The header list is the key list with [_id] and [_index] put in when
    they are missing. *)
Lemma kql_headers_perm (src : list (string * Py.value)) :
  ResultsTable.kql_headers src
  ≡ₚ (if Py.mem "_id" (Py.keys src) then [] else ["_id"])
     ++ (if Py.mem "_index" (Py.keys src) then [] else ["_index"])
     ++ Py.keys src.
Proof.
  unfold ResultsTable.kql_headers, Py.list_insert_at.
  destruct (Py.mem "_id" (Py.keys src)) eqn:Hid; cbn [negb].
  - destruct (Py.mem "_index" (Py.keys src)) eqn:Hindex; cbn [negb]; [done|].
    simpl. rewrite <- Permutation_middle. by rewrite take_drop.
  - assert (∀ l : list string, take 0 l ++ "_id" :: drop 0 l = "_id" :: l)
      as Hins by done.
    rewrite !Hins.
    assert (Py.mem "_index" ("_id" :: Py.keys src)
            = Py.mem "_index" (Py.keys src)) as -> by done.
    by destruct (Py.mem "_index" (Py.keys src)) eqn:Hindex; cbn [negb].
Qed.

Lemma display_kql_with_hits t hit0 rest total :
  let headers0 := ResultsTable.kql_headers (source_of hit0) in
  let r := ResultsTable.filter_empty_columns headers0
             (map (ResultsTable.kql_row headers0) (hit0 :: rest)) in
  let t' :=
    ResultsTable._display_kql_results t
      (ResultsTable.mk_kql_response
         (Some (ResultsTable.mk_hits_object (Some (hit0 :: rest)) total))) in
  ResultsTable.headers t' = r.1
  ∧ ResultsTable._rows t' = r.2
  ∧ ResultsTable._hscroll_pos t' = 0
  ∧ ResultsTable.list_walker t' = ResultsTable.render r.1 r.2 0
  ∧ ResultsTable.total_hits t'
    = match total with
      | Some (ResultsTable.TotalScalar n) => n
      | Some (ResultsTable.TotalDict (Some v)) => v
      | _ => 0
      end.
Proof.
  intros headers0 r t'. subst t'.
  unfold ResultsTable._display_kql_results.
  cbn [ResultsTable.resp_hits ResultsTable.hits_hits ResultsTable.hits_total
       default from_option id].
  rewrite kql_build_rows_eq.
  unfold ResultsTable._filter_empty_columns.
  cbn [ResultsTable.headers ResultsTable._rows ResultsTable.set_table].
  fold (source_of hit0). fold headers0.
  change (ResultsTable.filter_empty_columns headers0 _) with r.
  destruct r as [hs rs].
  by destruct total as [[[v|]|n]|].
Qed.

Lemma display_esql_with_values t c cols v vals :
  let headers0 := map (default "") (c :: cols) in
  let rows0 := map (map ResultsTable.esql_cell) (v :: vals) in
  let r := ResultsTable.filter_empty_columns headers0 rows0 in
  let t' :=
    ResultsTable._display_esql_results t
      (ResultsTable.mk_esql_response (Some (c :: cols)) (Some (v :: vals))) in
  ResultsTable.headers t' = r.1
  ∧ ResultsTable._rows t' = r.2
  ∧ ResultsTable._hscroll_pos t' = 0
  ∧ ResultsTable.list_walker t' = ResultsTable.render r.1 r.2 0
  ∧ ResultsTable.total_hits t' = Py.llen (v :: vals).
Proof.
  intros headers0 rows0 r t'. subst t'.
  unfold ResultsTable._display_esql_results,
    ResultsTable._filter_empty_columns.
  cbn [ResultsTable.resp_columns ResultsTable.resp_values default from_option
       id orb ResultsTable.headers ResultsTable._rows
       ResultsTable.set_table ResultsTable.set_total_hits].
  rewrite !bool_decide_eq_false_2 by done. cbn [orb].
  cbn [ResultsTable.headers ResultsTable._rows
       ResultsTable.set_table ResultsTable.set_total_hits].
  change (ResultsTable.filter_empty_columns _ _) with r.
  destruct r as [hs rs]. repeat split.
  unfold Py.llen, rows0. cbn [ResultsTable.total_hits
    ResultsTable.set_info_text ResultsTable._update_display
    ResultsTable.set_hscroll_pos ResultsTable.set_table
    ResultsTable.set_total_hits].
  by rewrite !List.length_map.
Qed.

(** What the walker holds is the rendering of the table, or nothing. *)
Lemma reachable_walker t :
  reachable t →
  ResultsTable.list_walker t = []
  ∨ ResultsTable.list_walker t
    = ResultsTable.render (ResultsTable.headers t) (ResultsTable._rows t)
        (ResultsTable._hscroll_pos t).
Proof.
  induction 1 as [|t resp _ IH|t key _ IH].
  - by left.
  - destruct (has_result resp) eqn:Hres.
    + right.
      destruct resp as [[[[[[|h hits]|] total]|]]|[[[|c cols]|] [[|v vals]|]]];
        try discriminate Hres.
      * destruct (display_kql_with_hits t h hits total)
          as (Hh & Hr & Hp & Hw & _).
        cbn [ResultsTable.display_results]. by rewrite Hh, Hr, Hp, Hw.
      * destruct (display_esql_with_values t c cols v vals)
          as (Hh & Hr & Hp & Hw & _).
        cbn [ResultsTable.display_results]. by rewrite Hh, Hr, Hp, Hw.
    + left. by destruct (display_no_result_keeps t resp Hres) as (_ & _ & ? & _).
  - unfold ResultsTable.keypress.
    destruct (String.eqb key "q"); [done|].
    destruct (String.eqb key "n"); [done|].
    destruct (String.eqb key "p"); [done|].
    assert (∀ pos,
      ResultsTable.list_walker
        (ResultsTable._update_info_text
           (ResultsTable._update_display (ResultsTable.set_hscroll_pos t pos)))
      = ResultsTable.render
          (ResultsTable.headers
             (ResultsTable._update_info_text
                (ResultsTable._update_display
                   (ResultsTable.set_hscroll_pos t pos))))
          (ResultsTable._rows
             (ResultsTable._update_info_text
                (ResultsTable._update_display
                   (ResultsTable.set_hscroll_pos t pos))))
          (ResultsTable._hscroll_pos
             (ResultsTable._update_info_text
                (ResultsTable._update_display
                   (ResultsTable.set_hscroll_pos t pos))))) as Hscroll.
    { intros pos. destruct (scrolled_frame t pos) as (-> & -> & ->).
      unfold ResultsTable._update_info_text.
      destruct (Py.contains "Showing" _); [|done].
      by destruct (Py.contains "of" _ && Py.contains "results" _). }
    destruct (String.eqb key "right" || String.eqb key "l").
    { destruct (_ <? _); [|done]. right. apply Hscroll. }
    destruct (String.eqb key "left" || String.eqb key "h"); [|done].
    destruct (_ <? _); [|done]. right. apply Hscroll.
Qed.

End DisplayMore.

(** X10. When the fields of the first hit's source are distinct, so are
    the header names of the KQL path; they are [_id], [_index] and those
    fields, and nothing else. *)
Theorem kql_headers_unique (src : list (string * Py.value)) :
  NoDup (Py.keys src) →
  NoDup (ResultsTable.kql_headers src)
  ∧ ∀ x, x ∈ ResultsTable.kql_headers src
         ↔ x = "_id" ∨ x = "_index" ∨ x ∈ Py.keys src.
Proof.
  intros Hnd. pose proof (kql_headers_perm src) as Hperm.
  destruct (Py.mem "_id" (Py.keys src)) eqn:Hid;
    destruct (Py.mem "_index" (Py.keys src)) eqn:Hindex;
    simpl in Hperm;
    try (apply mem_elem_of in Hid); try (apply mem_elem_of in Hindex);
    (split; [rewrite Hperm|intros x; rewrite Hperm]).
  - done.
  - split; [by auto|]. by intros [->|[->|?]].
  - apply NoDup_cons. split; [|done].
    intros Hin. apply mem_elem_of in Hin. congruence.
  - rewrite elem_of_cons. split; [intros [->|?]; auto|].
    intros [->|[->|?]]; auto.
  - apply NoDup_cons. split; [|done].
    intros Hin. apply mem_elem_of in Hin. congruence.
  - rewrite elem_of_cons. split; [intros [->|?]; auto|].
    intros [->|[->|?]]; auto.
  - apply NoDup_cons. split.
    + intros [?|Hin]%elem_of_cons; [done|].
      apply mem_elem_of in Hin. congruence.
    + apply NoDup_cons. split; [|done].
      intros Hin. apply mem_elem_of in Hin. congruence.
  - rewrite !elem_of_cons. split; [intros [->|[->|?]]; auto|].
    intros [->|[->|?]]; auto.
Qed.

Lemma kql_headers_unique_witness :
  NoDup (ResultsTable.kql_headers [("a", Py.VNone); ("_index", Py.VNone)]).
Proof.
  apply (kql_headers_unique [("a", Py.VNone); ("_index", Py.VNone)]).
  apply NoDup_cons. split.
  - intros Hin. apply list_elem_of_singleton in Hin. discriminate Hin.
  - apply NoDup_singleton.
Defined.

(** X11. After a KQL response with hits is displayed, the table has one
    row per hit, every row has exactly one cell per header, there is at
    least one header, every header is [_id], [_index] or a field of the
    first hit's source (fields that only later hits have are never shown),
    the total is the one the response reports in either shape (0 when it
    reports none), the horizontal offset is 0 and the walker holds the
    rendering of the table. *)
Theorem kql_display_table (t : ResultsTable.t) (hit0 : ResultsTable.hit)
    (rest : list ResultsTable.hit) (total : option ResultsTable.total) :
  let t' :=
    ResultsTable._display_kql_results t
      (ResultsTable.mk_kql_response
         (Some (ResultsTable.mk_hits_object (Some (hit0 :: rest)) total))) in
  length (ResultsTable._rows t') = length (hit0 :: rest)
  ∧ Forall (λ row, length row = length (ResultsTable.headers t'))
      (ResultsTable._rows t')
  ∧ ResultsTable.headers t' ≠ []
  ∧ (∀ h, h ∈ ResultsTable.headers t' →
          h = "_id" ∨ h = "_index" ∨ h ∈ Py.keys (source_of hit0))
  ∧ ResultsTable.total_hits t'
    = match total with
      | Some (ResultsTable.TotalScalar n) => n
      | Some (ResultsTable.TotalDict (Some v)) => v
      | _ => 0
      end
  ∧ ResultsTable._hscroll_pos t' = 0
  ∧ ResultsTable.list_walker t'
    = ResultsTable.render (ResultsTable.headers t') (ResultsTable._rows t') 0.
Proof.
  intros t'. subst t'.
  destruct (display_kql_with_hits t hit0 rest total)
    as (-> & -> & -> & -> & ->).
  set (headers0 := ResultsTable.kql_headers (source_of hit0)).
  destruct (filter_empty_columns_shape headers0
              (map (ResultsTable.kql_row headers0) (hit0 :: rest)))
    as (Hlen & Hrect & Hne & Hsub).
  split; [by rewrite Hlen, List.length_map|]. split.
  { apply Hrect, Forall_fmap, Forall_forall. intros h _. simpl.
    apply kql_row_length, kql_headers_length. }
  split.
  { apply Hne. intros Hnil.
    pose proof (kql_headers_length (source_of hit0)) as Hl.
    fold headers0 in Hl. rewrite Hnil in Hl. simpl in Hl. lia. }
  split; [|done].
  intros h Hh%Hsub. subst headers0.
  rewrite (kql_headers_perm (source_of hit0)) in Hh.
  apply elem_of_app in Hh as [Hh|Hh].
  { destruct (Py.mem "_id" _); [by apply elem_of_nil in Hh|].
    apply list_elem_of_singleton in Hh. by left. }
  apply elem_of_app in Hh as [Hh|Hh]; [|by auto].
  destruct (Py.mem "_index" _); [by apply elem_of_nil in Hh|].
  apply list_elem_of_singleton in Hh. by auto.
Qed.

(** X12. After an ESQL response with columns and values is displayed, the
    table has one row per value row and the total is that number, every
    header is the name of a column of the response, the horizontal offset
    is 0 and the walker holds the rendering; when every value row has one
    value per column, every row of the table has one cell per header. *)
Theorem esql_display_table (t : ResultsTable.t) (c : option string)
    (cols : list (option string)) (v : list Py.value)
    (vals : list (list Py.value)) :
  let t' :=
    ResultsTable._display_esql_results t
      (ResultsTable.mk_esql_response (Some (c :: cols)) (Some (v :: vals))) in
  length (ResultsTable._rows t') = length (v :: vals)
  ∧ ResultsTable.total_hits t' = Py.llen (ResultsTable._rows t')
  ∧ ResultsTable.headers t' ≠ []
  ∧ (∀ h, h ∈ ResultsTable.headers t' →
          h ∈ map (default "") (c :: cols))
  ∧ (Forall (λ row, length row = length (c :: cols)) (v :: vals) →
     Forall (λ row, length row = length (ResultsTable.headers t'))
       (ResultsTable._rows t'))
  ∧ ResultsTable._hscroll_pos t' = 0
  ∧ ResultsTable.list_walker t'
    = ResultsTable.render (ResultsTable.headers t') (ResultsTable._rows t') 0.
Proof.
  intros t'. subst t'.
  destruct (display_esql_with_values t c cols v vals)
    as (-> & -> & -> & -> & ->).
  destruct (filter_empty_columns_shape (map (default "") (c :: cols))
              (map (map ResultsTable.esql_cell) (v :: vals)))
    as (Hlen & Hrect & Hne & Hsub).
  split; [by rewrite Hlen, List.length_map|].
  split; [unfold Py.llen; by rewrite Hlen, List.length_map|].
  split; [by apply Hne|]. split; [exact Hsub|]. split; [|done].
  intros Hvals. apply Hrect, Forall_fmap.
  eapply Forall_impl; [exact Hvals|]. intros row Hrow. simpl.
  by rewrite !List.length_map.
Qed.

Lemma esql_display_table_witness :
  let t' :=
    ResultsTable._display_esql_results ResultsTable.init
      (ResultsTable.mk_esql_response (Some [Some "host"; Some "n"])
         (Some [[Py.VStr "a"; Py.VInt 1]; [Py.VStr "b"; Py.VNone]])) in
  Forall (λ row, length row = length (ResultsTable.headers t'))
    (ResultsTable._rows t').
Proof.
  intros t'.
  apply (esql_display_table ResultsTable.init (Some "host") [Some "n"]
           [Py.VStr "a"; Py.VInt 1] [[Py.VStr "b"; Py.VNone]]).
  repeat constructor.
Defined.

(** X13. In every table that a session can show, the walker is empty or
    holds exactly the rendering of the current headers and rows at the
    current horizontal offset. *)
Theorem walker_shows_current_table (t : ResultsTable.t) :
  reachable t →
  ResultsTable.list_walker t = []
  ∨ ResultsTable.list_walker t
    = ResultsTable.render (ResultsTable.headers t) (ResultsTable._rows t)
        (ResultsTable._hscroll_pos t).
Proof. apply reachable_walker. Qed.

Lemma walker_shows_current_table_witness :
  let t := (ResultsTable.keypress
              (ResultsTable.display_results ResultsTable.init wide_response)
              "right").1 in
  ResultsTable.list_walker t = []
  ∨ ResultsTable.list_walker t
    = ResultsTable.render (ResultsTable.headers t) (ResultsTable._rows t)
        (ResultsTable._hscroll_pos t).
Proof.
  intros t. apply walker_shows_current_table.
  apply reachable_keypress, reachable_display, reachable_init.
Defined.

(** ** The rendered grid *)

Section Grid.
Implicit Types (headers : list string) (rows : list (list string)).

Lemma length_flat_map_cells {A B} (f : A → list B) (l : list A) :
  (∀ x, x ∈ l → length (f x) = 1%nat) →
  length (flat_map f l) = length l.
Proof.
  induction l as [|x l IH]; intros Hone; simpl; [done|].
  rewrite List.length_app, Hone by left. rewrite IH; [done|].
  intros y Hy. apply Hone. by right.
Qed.

Lemma length_lslice {A} (l : list A) (a b : Z) :
  0 <= a → b <= Py.llen l →
  length (Py.lslice l a b) = (Z.to_nat b - Z.to_nat a)%nat.
Proof.
  intros Ha Hb. unfold Py.lslice, Py.llen in *.
  rewrite List.length_firstn, List.length_skipn. lia.
Qed.

End Grid.

(** X14. The rendering of a table with headers and rows, at an offset
    within the header list, is a header row followed by one row per data
    row.  The header row has a cell for each of the at most six columns
    from the offset on, preceded by the left indicator exactly when the
    offset is positive and followed by the right indicator exactly when
    columns remain beyond the window; the data rows of a table whose rows
    are as long as the header list have as many cells as the header row. *)
Theorem render_grid_shape (headers : list string) (rows : list (list string))
    (hscroll_pos : Z) :
  headers ≠ [] → rows ≠ [] → 0 <= hscroll_pos <= Py.llen headers →
  ∃ header_row data_rows,
    ResultsTable.render headers rows hscroll_pos = header_row :: data_rows
    ∧ length data_rows = length rows
    ∧ Z.of_nat (length header_row)
      = (if 0 <? hscroll_pos then 1 else 0)
        + Z.min 6 (Py.llen headers - hscroll_pos)
        + (if hscroll_pos + 6 <? Py.llen headers then 1 else 0)
    ∧ (Forall (λ row, length row = length headers) rows →
       Forall (λ cells, length cells = length header_row) data_rows).
Proof.
  intros Hh Hr Hpos. unfold ResultsTable.render.
  rewrite !bool_decide_eq_false_2 by done. cbn [orb]. cbv zeta.
  unfold ResultsTable.max_cols_per_screen.
  set (visible_end := Z.min (hscroll_pos + 6) (Py.llen headers)).
  eexists _, _. split; [reflexivity|].
  split; [by rewrite List.length_map|].
  assert (length (Py.lslice headers hscroll_pos visible_end)
          = (Z.to_nat visible_end - Z.to_nat hscroll_pos)%nat) as Hslice
    by (apply length_lslice; lia).
  split.
  - rewrite !List.length_app, length_imap, Hslice.
    destruct (Z.ltb_spec 0 hscroll_pos);
      destruct (Z.ltb_spec visible_end (Py.llen headers));
      destruct (Z.ltb_spec (hscroll_pos + 6) (Py.llen headers));
      simpl length; lia.
  - intros Hrect. apply Forall_fmap. eapply Forall_impl; [exact Hrect|].
    intros row Hrow. cbn [compose].
    rewrite !List.length_app, length_imap, Hslice.
    rewrite length_flat_map_cells.
    + unfold Py.range, Py.llen. rewrite Hrow, length_seq.
      fold (Py.llen headers).
      replace (Z.min visible_end (Py.llen headers)) with visible_end by lia.
      by destruct (0 <? hscroll_pos), (visible_end <? Py.llen headers).
    + intros j Hj. unfold Py.range in Hj. apply elem_of_seq in Hj.
      unfold Py.llen in Hj.
      destruct (row !! j) as [c|] eqn:Hc; [done|].
      apply lookup_ge_None in Hc. lia.
Qed.

Lemma render_grid_shape_witness :
  ∃ header_row data_rows,
    ResultsTable.render (replicate 10 "c") [replicate 10 "x"] 4
    = header_row :: data_rows
    ∧ Z.of_nat (length header_row) = 1 + Z.min 6 (10 - 4) + 0.
Proof.
  destruct (render_grid_shape (replicate 10 "c") [replicate 10 "x"] 4)
    as (header_row & data_rows & Heq & _ & Hlen & _);
    [done|done|by vm_compute|].
  by exists header_row, data_rows.
Defined.

(** ** Timestamps, continued *)

Section TimestampsMore.
Import TimeRange.

Lemma string_app_inj_length (a a' b b' : string) :
  String.length a = String.length a' →
  a +:+ b = a' +:+ b' → a = a' ∧ b = b'.
Proof.
  revert a'. induction a as [|c a IH]; intros [|c' a'] Hlen Heq;
    simpl in *; try done.
  injection Heq as -> Heq. destruct (IH a') as [-> ->]; [lia|done|done].
Qed.

Lemma digit_inj (n m : N) : digit n = digit m → (n mod 10 = m mod 10)%N.
Proof.
  unfold digit. intros H. apply (f_equal N_of_ascii) in H.
  pose proof (N.mod_upper_bound n 10). pose proof (N.mod_upper_bound m 10).
  rewrite !N_ascii_embedding in H by lia. lia.
Qed.

(** The padded rendering determines the number up to its width. *)
Lemma pad_dec_inj (w : nat) (n m : N) :
  pad_dec w n = pad_dec w m → (n mod 10 ^ N.of_nat w = m mod 10 ^ N.of_nat w)%N.
Proof.
  revert n m. induction w as [|w IH]; intros n m H.
  - simpl. by rewrite !N.mod_1_r.
  - simpl in H.
    apply string_app_inj_length in H as [Hhigh Hlow];
      [|by rewrite !pad_dec_length].
    injection Hlow as Hlow. apply digit_inj in Hlow. apply IH in Hhigh.
    rewrite Nat2N.inj_succ, N.pow_succ_r'.
    rewrite !N.Div0.mod_mul_r. lia.
Qed.

Lemma pad_dec_inj_small (w : nat) (n m : N) :
  (n < 10 ^ N.of_nat w)%N → (m < 10 ^ N.of_nat w)%N →
  pad_dec w n = pad_dec w m → n = m.
Proof.
  intros Hn Hm H%pad_dec_inj. by rewrite !N.mod_small in H.
Qed.

(** The timestamp: seconds text, dot, milliseconds, [Z]. *)
Lemma es_timestamp_parts dt :
  es_timestamp dt
  = pad_dec 4 (year dt) +:+ "-" +:+ pad_dec 2 (month dt) +:+ "-" +:+
    pad_dec 2 (day dt) +:+ "T" +:+ pad_dec 2 (hour dt) +:+ ":" +:+
    pad_dec 2 (minute dt) +:+ ":" +:+ pad_dec 2 (second dt) +:+ "." +:+
    pad_dec 3 (microsecond dt / 1000) +:+ "Z".
Proof.
  unfold es_timestamp, strftime.
  change 6%nat with (3 + 3)%nat. rewrite pad_dec_split.
  replace (-3) with (- Py.len (pad_dec 3 (microsecond dt)))
    by (unfold Py.len; by rewrite pad_dec_length).
  rewrite <- !string_app_assoc, slice_to_neg_app
    by (unfold Py.len; rewrite pad_dec_length; lia).
  unfold strftime_seconds. by rewrite !string_app_assoc.
Qed.

End TimestampsMore.

(** X15. The timestamp text determines the instant down to the
    millisecond: two instants (with fields in the ranges of the datetime
    type) that render to the same text agree on year, month, day, hour,
    minute, second and on the whole milliseconds. *)
Theorem es_timestamp_injective (dt1 dt2 : TimeRange.datetime) :
  TimeRange.valid_datetime dt1 → TimeRange.valid_datetime dt2 →
  TimeRange.es_timestamp dt1 = TimeRange.es_timestamp dt2 →
  TimeRange.year dt1 = TimeRange.year dt2
  ∧ TimeRange.month dt1 = TimeRange.month dt2
  ∧ TimeRange.day dt1 = TimeRange.day dt2
  ∧ TimeRange.hour dt1 = TimeRange.hour dt2
  ∧ TimeRange.minute dt1 = TimeRange.minute dt2
  ∧ TimeRange.second dt1 = TimeRange.second dt2
  ∧ (TimeRange.microsecond dt1 / 1000 = TimeRange.microsecond dt2 / 1000)%N.
Proof.
  intros (Hy1 & Hmo1 & Hd1 & Hh1 & Hmi1 & Hs1 & Hu1)
         (Hy2 & Hmo2 & Hd2 & Hh2 & Hmi2 & Hs2 & Hu2) H.
  rewrite !es_timestamp_parts in H.
  apply string_app_inj_length in H as [Hy H]; [|by rewrite !pad_dec_length].
  apply (string_app_inj_length "-" "-") in H as [_ H]; [|done].
  apply string_app_inj_length in H as [Hmo H]; [|by rewrite !pad_dec_length].
  apply (string_app_inj_length "-" "-") in H as [_ H]; [|done].
  apply string_app_inj_length in H as [Hd H]; [|by rewrite !pad_dec_length].
  apply (string_app_inj_length "T" "T") in H as [_ H]; [|done].
  apply string_app_inj_length in H as [Hh H]; [|by rewrite !pad_dec_length].
  apply (string_app_inj_length ":" ":") in H as [_ H]; [|done].
  apply string_app_inj_length in H as [Hmi H]; [|by rewrite !pad_dec_length].
  apply (string_app_inj_length ":" ":") in H as [_ H]; [|done].
  apply string_app_inj_length in H as [Hs H]; [|by rewrite !pad_dec_length].
  apply (string_app_inj_length "." ".") in H as [_ H]; [|done].
  apply string_app_inj_length in H as [Hms _]; [|by rewrite !pad_dec_length].
  assert (TimeRange.microsecond dt1 / 1000 < 1000)%N
    by (apply N.Div0.div_lt_upper_bound; lia).
  assert (TimeRange.microsecond dt2 / 1000 < 1000)%N
    by (apply N.Div0.div_lt_upper_bound; lia).
  repeat split;
    (eapply pad_dec_inj_small; [| |eassumption]; simpl; lia).
Qed.

Lemma es_timestamp_injective_witness :
  (TimeRange.microsecond (TimeRange.mk_datetime 2024 1 1 0 0 0 123999) / 1000
   = TimeRange.microsecond (TimeRange.mk_datetime 2024 1 1 0 0 0 123000) / 1000)%N.
Proof.
  apply (es_timestamp_injective
           (TimeRange.mk_datetime 2024 1 1 0 0 0 123999)
           (TimeRange.mk_datetime 2024 1 1 0 0 0 123000)).
  - unfold TimeRange.valid_datetime. simpl. lia.
  - unfold TimeRange.valid_datetime. simpl. lia.
  - vm_compute. reflexivity.
Defined.

(** X16. A preset name that is not listed is read as the default preset,
    15 minutes; a listed name is read with the duration listed for it. *)
Theorem preset_duration
    (clock : TimeRange.timedelta → TimeRange.datetime * TimeRange.datetime)
    (preset : string) :
  (Py.mem preset (Py.keys TimeRange.PRESETS) = false →
   TimeRange.get_time_range clock preset = clock (15 * 60)
   ∧ TimeRange.get_time_range clock preset
     = TimeRange.get_time_range clock TimeRange.DEFAULT_PRESET)
  ∧ (∀ delta, (preset, delta) ∈ TimeRange.PRESETS →
       TimeRange.get_time_range clock preset = clock delta).
Proof.
  split.
  - intros Hno. unfold TimeRange.get_time_range. by rewrite Hno.
  - intros delta Hin. unfold TimeRange.PRESETS in Hin.
    repeat (apply elem_of_cons in Hin as [[= -> ->]|Hin]; [reflexivity|]).
    by apply elem_of_nil in Hin.
Qed.

Lemma preset_duration_witness :
  TimeRange.get_time_range (λ _, example_range) "Last 2 fortnights"
  = example_range.
Proof.
  apply (preset_duration (λ _, example_range) "Last 2 fortnights").
  vm_compute. reflexivity.
Defined.

(** ** Dictionaries *)

Section Dictionaries.
Import PyObj.
Implicit Types (d : dict) (k : key) (v : obj).

Lemma key_eqb_eq k k' : key_eqb k k' = true ↔ k = k'.
Proof.
  destruct k as [s|r], k' as [s'|r']; simpl; try (split; congruence).
  - rewrite String.eqb_eq. split; congruence.
  - rewrite String.eqb_eq. split; congruence.
Qed.

Lemma key_eqb_refl k : key_eqb k k = true.
Proof. by apply key_eqb_eq. Qed.

Lemma key_eqb_ne k k' : k ≠ k' → key_eqb k k' = false.
Proof.
  intros Hne. destruct (key_eqb k k') eqn:E; [|done].
  by apply key_eqb_eq in E.
Qed.

(** Reading back what was stored. *)
Lemma get_set_eq d k v : get (set d k v) k = Some v.
Proof.
  induction d as [|[k0 v0] d IH]; simpl.
  - by rewrite key_eqb_refl.
  - destruct (key_eqb k0 k) eqn:E; simpl; rewrite E; [done|exact IH].
Qed.

(** Storing under one key leaves the others alone. *)
Lemma get_set_ne d k k' v : k ≠ k' → get (set d k v) k' = get d k'.
Proof.
  intros Hne. induction d as [|[k0 v0] d IH]; simpl.
  - by rewrite key_eqb_ne.
  - destruct (key_eqb k0 k) eqn:E; simpl.
    + apply key_eqb_eq in E as ->. by rewrite key_eqb_ne.
    + by rewrite IH.
Qed.

Lemma mem_set d k k' v :
  mem (set d k v) k' = (key_eqb k k' || mem d k').
Proof.
  unfold mem. destruct (key_eqb k k') eqn:E.
  - apply key_eqb_eq in E as ->. by rewrite get_set_eq.
  - rewrite get_set_ne; [done|]. intros ->. by rewrite key_eqb_refl in E.
Qed.

Lemma get_None_not_in d k : get d k = None ↔ k ∉ d.*1.
Proof.
  induction d as [|[k0 v0] d IH]; simpl.
  - split; [|done]. intros _ H. by apply elem_of_nil in H.
  - rewrite not_elem_of_cons. destruct (key_eqb k0 k) eqn:E.
    + apply key_eqb_eq in E as ->. split; [done|]. by intros [? _].
    + rewrite IH. split; [|by intros [_ ?]].
      intros H. split; [|done]. intros ->. by rewrite key_eqb_refl in E.
Qed.

(** An item of a dictionary with distinct keys is what [get] finds. *)
Lemma get_item d k v : NoDup d.*1 → (k, v) ∈ d → get d k = Some v.
Proof.
  induction d as [|[k0 v0] d IH]; simpl; intros Hnd Hin.
  - by apply elem_of_nil in Hin.
  - apply NoDup_cons in Hnd as [Hk0 Hnd].
    apply elem_of_cons in Hin as [[= -> ->]|Hin].
    + by rewrite key_eqb_refl.
    + destruct (key_eqb k0 k) eqn:E; [|by apply IH].
      apply key_eqb_eq in E as ->. exfalso. apply Hk0.
      by apply (list_elem_of_fmap_2 fst d (k, v)).
Qed.

Lemma get_Some_item d k v : get d k = Some v → (k, v) ∈ d.
Proof.
  induction d as [|[k0 v0] d IH]; simpl; [done|].
  destruct (key_eqb k0 k) eqn:E.
  - apply key_eqb_eq in E as ->. intros [= ->]. by left.
  - intros H. right. by apply IH.
Qed.

(** The items after a store: the new one, or old ones. *)
Lemma elem_of_set d k v kv : kv ∈ set d k v → kv = (k, v) ∨ kv ∈ d.
Proof.
  induction d as [|[k0 v0] d IH]; simpl.
  - intros ->%list_elem_of_singleton. by left.
  - destruct (key_eqb k0 k) eqn:E.
    + apply key_eqb_eq in E as ->.
      intros [->|Hin]%elem_of_cons; [by left|]. right. by right.
    + intros [->|Hin]%elem_of_cons; [right; by left|].
      destruct (IH Hin) as [->|?]; [by left|]. right. by right.
Qed.

(** [{**a, **b}]: a key that [b] lacks keeps the value of [a]; a key of
    [b] (whose keys are distinct) takes the value of [b]. *)
Lemma get_merge a b k :
  (get b k = None → get (merge a b) k = get a k)
  ∧ (NoDup b.*1 → ∀ v, get b k = Some v → get (merge a b) k = Some v).
Proof.
  unfold merge. revert a. induction b as [|[k0 v0] b IH]; intros a; simpl.
  - by split.
  - destruct (IH (set a k0 v0)) as [IHnone IHsome].
    destruct (key_eqb k0 k) eqn:E.
    + apply key_eqb_eq in E as ->. split; [done|].
      intros [Hk0 Hnd]%NoDup_cons v [= ->].
      rewrite IHnone; [apply get_set_eq|]. by apply get_None_not_in.
    + split.
      * intros Hnone. rewrite IHnone by done. apply get_set_ne.
        intros ->. by rewrite key_eqb_refl in E.
      * intros [_ Hnd]%NoDup_cons v Hv. by apply IHsome.
Qed.

End Dictionaries.

(** ** Properties of the configuration *)

(** X17. Loading fills in the defaults and lets the file win.  For a file
    that holds a mapping (or nothing): the default index is the file's
    [default_index] or [*]; when the file has no [query], the sizes are
    100 and 10000; when its [query] is a mapping (with distinct keys), each
    size is the file's value or else the default; when its [query] is
    anything else, reading a size raises [AttributeError].  A file that
    holds something else than a mapping is refused with [ValueError]. *)
Theorem config_defaults (loaded : PyObj.obj) :
  let file :=
    match loaded with PyObj.ODict d => Some d | PyObj.ONone => Some [] | _ => None end in
  match file with
  | None => Config._load_config loaded = PyObj.Raise "ValueError"
  | Some d =>
      ∃ config,
        Config._load_config loaded = PyObj.Return config
        ∧ Config.default_index (Config.mk config)
          = default (PyObj.OStr "*") (PyObj.get d (PyObj.KStr "default_index"))
        ∧ match PyObj.get d (PyObj.KStr "query") with
          | None =>
              Config.default_size (Config.mk config)
              = PyObj.Return (PyObj.OInt 100)
              ∧ Config.max_size (Config.mk config)
                = PyObj.Return (PyObj.OInt 10000)
          | Some (PyObj.ODict q) =>
              NoDup q.*1 →
              Config.default_size (Config.mk config)
              = PyObj.Return
                  (default (PyObj.OInt 100)
                     (PyObj.get q (PyObj.KStr "default_size")))
              ∧ Config.max_size (Config.mk config)
                = PyObj.Return
                    (default (PyObj.OInt 10000)
                       (PyObj.get q (PyObj.KStr "max_size")))
          | Some _ =>
              Config.default_size (Config.mk config)
              = PyObj.Raise "AttributeError"
              ∧ Config.max_size (Config.mk config)
                = PyObj.Raise "AttributeError"
          end
  end.
Proof.
  assert (∀ d,
    let config := Config.merge_defaults d in
    Config.default_index (Config.mk config)
    = default (PyObj.OStr "*") (PyObj.get d (PyObj.KStr "default_index"))
    ∧ match PyObj.get d (PyObj.KStr "query") with
      | None =>
          Config.default_size (Config.mk config)
          = PyObj.Return (PyObj.OInt 100)
          ∧ Config.max_size (Config.mk config)
            = PyObj.Return (PyObj.OInt 10000)
      | Some (PyObj.ODict q) =>
          NoDup q.*1 →
          Config.default_size (Config.mk config)
          = PyObj.Return
              (default (PyObj.OInt 100)
                 (PyObj.get q (PyObj.KStr "default_size")))
          ∧ Config.max_size (Config.mk config)
            = PyObj.Return
                (default (PyObj.OInt 10000)
                   (PyObj.get q (PyObj.KStr "max_size")))
      | Some _ =>
          Config.default_size (Config.mk config)
          = PyObj.Raise "AttributeError"
          ∧ Config.max_size (Config.mk config)
            = PyObj.Raise "AttributeError"
      end) as Hmerge.
  { intros d config. subst config. unfold Config.merge_defaults.
    set (d1 := if negb (PyObj.mem d (PyObj.KStr "default_index"))
               then PyObj.set d (PyObj.KStr "default_index") (PyObj.OStr "*")
               else d).
    assert (PyObj.get d1 (PyObj.KStr "query")
            = PyObj.get d (PyObj.KStr "query")) as Hq.
    { subst d1. destruct (negb _); [|done]. by apply get_set_ne. }
    assert (PyObj.get d1 (PyObj.KStr "default_index")
            = Some (default (PyObj.OStr "*")
                      (PyObj.get d (PyObj.KStr "default_index")))) as Hi.
    { subst d1. unfold PyObj.mem.
      destruct (PyObj.get d (PyObj.KStr "default_index")) eqn:E; simpl;
        [done|apply get_set_eq]. }
    assert (∀ x, PyObj.get (PyObj.set d1 (PyObj.KStr "query") x)
                   (PyObj.KStr "default_index")
                 = PyObj.get d1 (PyObj.KStr "default_index")) as Hframe
      by (intros x; by apply get_set_ne).
    unfold Config.default_index, Config.default_size, Config.max_size,
      Config.query_setting, PyObj.mem. cbn [Config._config].
    rewrite Hq.
    destruct (PyObj.get d (PyObj.KStr "query")) as [q|] eqn:Eq; cbn [negb].
    - destruct q as [| | | | | | |q];
        try (rewrite Hi, Hq; by cbn [default from_option id]).
      rewrite Hframe, Hi, get_set_eq. cbn [default from_option id].
      split; [done|]. intros Hnd.
      destruct (get_merge Config.default_query q (PyObj.KStr "default_size"))
        as [Hs1 Hs2].
      destruct (get_merge Config.default_query q (PyObj.KStr "max_size"))
        as [Hm1 Hm2].
      split.
      + destruct (PyObj.get q (PyObj.KStr "default_size")) eqn:E.
        * by rewrite (Hs2 Hnd _ eq_refl).
        * by rewrite (Hs1 eq_refl).
      + destruct (PyObj.get q (PyObj.KStr "max_size")) eqn:E.
        * by rewrite (Hm2 Hnd _ eq_refl).
        * by rewrite (Hm1 eq_refl).
    - rewrite Hframe, Hi, get_set_eq. by cbn [default from_option id]. }
  destruct loaded as [| | | | | | |d]; cbn zeta; try done.
  - eexists. split; [done|]. apply (Hmerge []).
  - eexists. split; [done|]. apply (Hmerge d).
Qed.

Lemma config_defaults_witness :
  ∃ config,
    Config._load_config
      (PyObj.ODict [(PyObj.KStr "query",
                     PyObj.ODict [(PyObj.KStr "max_size", PyObj.OInt 500)])])
    = PyObj.Return config
    ∧ Config.default_size (Config.mk config) = PyObj.Return (PyObj.OInt 100)
    ∧ Config.max_size (Config.mk config) = PyObj.Return (PyObj.OInt 500).
Proof.
  destruct (config_defaults
    (PyObj.ODict [(PyObj.KStr "query",
                   PyObj.ODict [(PyObj.KStr "max_size", PyObj.OInt 500)])]))
    as (config & Hload & _ & Hq).
  exists config. split; [exact Hload|]. apply Hq.
  apply NoDup_singleton.
Defined.

(** ** The connection settings *)

Section Connection.
Import PyObj ESClientConfig.
Implicit Types (config clean : dict) (k : key) (v : obj).

Lemma rstrip_char_no_trailing c s s' :
  rstrip_char c s ≠ s' +:+ String c "".
Proof.
  revert s'. induction s as [|a s IH]; intros s' H; simpl in H.
  - by destruct s'.
  - destruct (rstrip_char c s) as [|b r] eqn:E.
    + destruct (Ascii.eqb_spec a c) as [->|Hne].
      * by destruct s'.
      * destruct s' as [|x [|y s']]; simpl in H; [congruence|done|done].
    + destruct s' as [|x s']; simpl in H; [done|].
      injection H as -> H. by apply (IH s').
Qed.

Lemma rstrip_char_prefix c s : ∃ t, s = rstrip_char c s +:+ t.
Proof.
  induction s as [|a s IH]; [by exists ""|].
  destruct IH as [t IH]. simpl.
  destruct (rstrip_char c s) as [|b r] eqn:E.
  - destruct (Ascii.eqb a c).
    + by exists (String a s).
    + exists t. simpl. f_equal. exact IH.
  - exists t. simpl. f_equal. exact IH.
Qed.

Lemma prefix_app_r p s t :
  String.prefix p s = true → String.prefix p (s +:+ t) = true.
Proof.
  revert s. induction p as [|a p IH]; intros s; [by destruct (s +:+ t)|].
  destruct s as [|b s]; simpl; [done|].
  destruct (ascii_dec a b); [apply IH|done].
Qed.

(** Trimming slashes at the end does not make up a scheme. *)
Lemma has_scheme_rstrip s :
  has_scheme s = false → has_scheme (rstrip_char "/" s) = false.
Proof.
  unfold has_scheme. intros H.
  destruct (rstrip_char_prefix "/" s) as [t Ht].
  destruct (String.prefix "http://" (rstrip_char "/" s)) eqn:E1.
  { apply (prefix_app_r _ _ t) in E1. rewrite <- Ht in E1.
    by rewrite E1 in H. }
  destruct (String.prefix "https://" (rstrip_char "/" s)) eqn:E2; [|done].
  apply (prefix_app_r _ _ t) in E2. rewrite <- Ht in E2.
  rewrite E2 in H. by destruct (String.prefix "http://" s).
Qed.

Lemma has_scheme_https s : has_scheme ("https://" +:+ s) = true.
Proof.
  unfold has_scheme. rewrite (prefix_app "https://" s).
  by destruct (String.prefix "http://" _).
Qed.

(** The comprehension over the hosts, when it does not raise. *)
Lemma with_scheme_spec hosts hosts' :
  with_scheme hosts = Return hosts' →
  Forall2 (λ h h', ∃ s, h = OStr s
                        ∧ h' = OStr (if has_scheme s then s
                                     else "https://" +:+ s)) hosts hosts'
  ∧ Forall host_with_scheme hosts'.
Proof.
  revert hosts'. induction hosts as [|h hosts IH]; intros hosts'; simpl.
  - intros [= <-]. by split.
  - destruct h as [| | | |s| | |]; try done.
    destruct (with_scheme hosts) as [rest'|e]; [|done].
    intros [= <-]. destruct (IH rest' eq_refl) as [IH1 IH2]. split.
    + constructor; [by exists s|done].
    + constructor; [|done]. eexists. split; [done|].
      destruct (has_scheme s) eqn:E; [done|apply has_scheme_https].
Qed.

Lemma clean_loop_snoc config kv :
  clean_loop (config ++ [kv]) = clean_step (clean_loop config) kv.
Proof. unfold clean_loop. by rewrite foldl_app. Qed.

(** Every item of the cleaned dictionary passed the tests. *)
Lemma clean_loop_items config kv :
  kv ∈ clean_loop config →
  clean_item kv
  ∧ ∃ s v, kv = (KStr s, stored s v) ∧ (KStr s, v) ∈ config.
Proof.
  revert kv. induction config as [|[k v] config IH] using rev_ind;
    intros kv Hin.
  - by apply elem_of_nil in Hin.
  - rewrite clean_loop_snoc in Hin.
    assert (kv ∈ clean_loop config →
            clean_item kv
            ∧ ∃ s v0, kv = (KStr s, stored s v0)
                      ∧ (KStr s, v0) ∈ config ++ [(k, v)]) as Hold.
    { intros H. destruct (IH kv H) as (? & s & v0 & ? & ?).
      split; [done|]. exists s, v0. split; [done|].
      apply elem_of_app. by left. }
    destruct k as [s|r]; [|by apply Hold].
    assert (v ≠ ONone →
            kv ∈ (if accepted s
                  then set (clean_loop config) (KStr s) (stored s v)
                  else clean_loop config) →
            clean_item kv
            ∧ ∃ s0 v0, kv = (KStr s0, stored s0 v0)
                       ∧ (KStr s0, v0) ∈ config ++ [(KStr s, v)]) as Hnew.
    { intros Hv H. destruct (accepted s) eqn:Hacc; [|by apply Hold].
      apply elem_of_set in H as [->|H]; [|by apply Hold].
      split.
      - exists s. split; [done|]. split; [done|]. simpl.
        unfold stored. destruct v; try done. by destruct (String.eqb s _).
      - exists s, v. split; [done|]. apply elem_of_app. right. by left. }
    destruct v; simpl in Hin; try (by apply Hnew). by apply Hold.
Qed.

(** What the cleaning loop stores under a string key, for a dictionary
    with distinct keys. *)
Lemma clean_loop_get config s :
  NoDup config.*1 →
  get (clean_loop config) (KStr s)
  = match get config (KStr s) with
    | Some ONone | None => None
    | Some v => if accepted s then Some (stored s v) else None
    end.
Proof.
  induction config as [|[k v] config IH] using rev_ind; intros Hnd; [done|].
  rewrite fmap_app in Hnd. apply NoDup_app in Hnd as (Hnd & Hfresh & _).
  specialize (IH Hnd). rewrite clean_loop_snoc.
  assert (get (config ++ [(k, v)]) (KStr s)
          = match get config (KStr s) with
            | Some v0 => Some v0
            | None => if key_eqb k (KStr s) then Some v else None
            end) as Happ.
  { clear. induction config as [|[k0 v0] config IH]; simpl; [done|].
    by destruct (key_eqb k0 (KStr s)). }
  rewrite Happ.
  destruct (key_eqb k (KStr s)) eqn:E.
  - apply key_eqb_eq in E as ->.
    assert (get config (KStr s) = None) as Hnone.
    { apply get_None_not_in. intros Hin. apply (Hfresh _ Hin).
      simpl. by left. }
    rewrite Hnone in *. simpl.
    destruct v; try (destruct (accepted s); [apply get_set_eq|done]).
    done.
  - assert (k ≠ KStr s) as Hne by (intros ->; by rewrite key_eqb_refl in E).
    assert (get (clean_step (clean_loop config) (k, v)) (KStr s)
            = get (clean_loop config) (KStr s)) as ->.
    { unfold clean_step. destruct k as [s0|r]; [|done].
      destruct v; try done;
        (destruct (accepted s0); [by apply get_set_ne|done]). }
    rewrite IH. by destruct (get config (KStr s)).
Qed.

(** The two last steps of [__init__] leave every key but [hosts] alone. *)
Lemma clean_config_other_keys config clean s :
  clean_config config = Return clean → s ≠ "hosts" →
  get clean (KStr s) = get (clean_loop config) (KStr s).
Proof.
  unfold clean_config, apply_use_ssl, default_hosts. intros H Hs.
  assert (KStr "hosts" ≠ KStr s) as Hne by congruence.
  assert (∀ d x, get (if negb (mem d (KStr "hosts"))
                         && negb (mem d (KStr "host"))
                      then set d (KStr "hosts") x else d) (KStr s)
                 = get d (KStr s)) as Hdef.
  { clear H. intros d x. destruct (_ && _); [by apply get_set_ne|done]. }
  destruct (truthy _ && mem _ _).
  - destruct (get (clean_loop config) (KStr "hosts")) as [h|].
    + destruct h as [| | | |hs|hs| |]; try (injection H as <-; by rewrite Hdef).
      * destruct (negb (has_scheme hs)); injection H as <-; rewrite Hdef;
          [by apply get_set_ne|done].
      * destruct (with_scheme hs); [|done]. injection H as <-.
        rewrite Hdef. by apply get_set_ne.
    + injection H as <-. by rewrite Hdef.
  - injection H as <-. by rewrite Hdef.
Qed.

(** The [use_ssl] step either leaves the dictionary alone or stores new
    hosts, all with a scheme. *)
Lemma apply_use_ssl_cases config c0 c1 :
  apply_use_ssl config c0 = Return c1 →
  (c1 = c0
   ∧ (truthy (default (OBool false) (get config (KStr "use_ssl"))) = true →
      match get c0 (KStr "hosts") with
      | Some (OList _) => False
      | Some (OStr hosts) => has_scheme hosts = true
      | _ => True
      end))
  ∨ (∃ x, c1 = set c0 (KStr "hosts") x
          ∧ match x with
            | OList hosts => Forall host_with_scheme hosts
            | OStr hosts => has_scheme hosts = true
            | _ => False
            end).
Proof.
  unfold apply_use_ssl.
  destruct (truthy (default (OBool false) (get config (KStr "use_ssl"))));
    [|intros [= <-]; left; by split].
  unfold mem.
  destruct (get c0 (KStr "hosts")) as [h|] eqn:Hh; simpl;
    [|intros [= <-]; left; by split].
  destruct h as [| | | |hs|hs| |];
    try (intros [= <-]; left; by split).
  - destruct (has_scheme hs) eqn:Hs; simpl; intros [= <-].
    + left. by split.
    + right. eexists. split; [done|]. apply has_scheme_https.
  - destruct (with_scheme hs) as [hs'|] eqn:Hws; [|done].
    intros [= <-]. right. eexists. split; [done|].
    by apply with_scheme_spec in Hws as [_ ?].
Qed.

(** The default host step: [hosts] stays when it is there, and is set to
    the local host when neither [hosts] nor [host] is there. *)
Lemma default_hosts_cases d :
  (mem d (KStr "hosts") || mem d (KStr "host") = true
   ∧ default_hosts d = d)
  ∨ (get d (KStr "hosts") = None
     ∧ default_hosts d
       = set d (KStr "hosts") (OList [OStr "http://localhost:9200"])).
Proof.
  unfold default_hosts, mem.
  destruct (get d (KStr "hosts")); simpl; [by left|].
  destruct (get d (KStr "host")); simpl; [by left|by right].
Qed.

Lemma set_hosts_items d x :
  (∀ kv, kv ∈ d → clean_item kv) → x ≠ ONone →
  ∀ kv, kv ∈ set d (KStr "hosts") x → clean_item kv.
Proof.
  intros Hd Hx kv [->|Hin]%elem_of_set; [|by apply Hd].
  exists "hosts". by repeat split.
Qed.

End Connection.

(** X18. When [__init__] gets as far as the SDK client, the keyword
    arguments it passes hold only string keys that are known to the client
    (listed, or starting with [http_] or [request_]) and are not
    [use_ssl], [Optional] or [optional], never with the value [None]; they
    always name [hosts] or [host]; and when [use_ssl] is set, every entry
    of a [hosts] list, and a [hosts] string, starts with [http://] or
    [https://]. *)
Theorem sdk_arguments_are_clean (config clean : PyObj.dict) :
  ESClientConfig.clean_config config = PyObj.Return clean →
  (∀ kv, kv ∈ clean → clean_item kv)
  ∧ (PyObj.mem clean (PyObj.KStr "hosts")
     || PyObj.mem clean (PyObj.KStr "host") = true)
  ∧ (PyObj.truthy
       (default (PyObj.OBool false) (PyObj.get config (PyObj.KStr "use_ssl")))
     = true →
     match PyObj.get clean (PyObj.KStr "hosts") with
     | Some (PyObj.OList hosts) => Forall host_with_scheme hosts
     | Some (PyObj.OStr hosts) => ESClientConfig.has_scheme hosts = true
     | _ => True
     end).
Proof.
  unfold ESClientConfig.clean_config.
  destruct (ESClientConfig.apply_use_ssl config
              (ESClientConfig.clean_loop config)) as [c1|] eqn:Hssl; [|done].
  intros [= <-].
  assert (∀ kv, kv ∈ ESClientConfig.clean_loop config → clean_item kv) as H0
    by (intros kv Hin; by apply clean_loop_items in Hin as [? _]).
  assert ((∀ kv, kv ∈ c1 → clean_item kv)
          ∧ (PyObj.truthy
               (default (PyObj.OBool false)
                  (PyObj.get config (PyObj.KStr "use_ssl"))) = true →
             match PyObj.get c1 (PyObj.KStr "hosts") with
             | Some (PyObj.OList hosts) => Forall host_with_scheme hosts
             | Some (PyObj.OStr hosts) => ESClientConfig.has_scheme hosts = true
             | _ => True
             end)) as [H1 Hscheme].
  { destruct (apply_use_ssl_cases _ _ _ Hssl) as [[-> Hc]|(x & -> & Hx)].
    - split; [done|]. intros Ht. specialize (Hc Ht).
      destruct (PyObj.get _ _) as [[| | | |?|?| |]|]; done.
    - split.
      + apply set_hosts_items; [done|]. by destruct x.
      + intros _. rewrite get_set_eq. by destruct x. }
  destruct (default_hosts_cases c1) as [[Hmem ->]|[Hnone ->]].
  - done.
  - split; [by apply set_hosts_items|]. split; [by rewrite mem_set|].
    intros _. rewrite get_set_eq. constructor; [|done].
    by exists "http://localhost:9200".
Qed.

Lemma sdk_arguments_are_clean_witness :
  ∃ clean,
    ESClientConfig.clean_config example_es_config = PyObj.Return clean
    ∧ (∀ kv, kv ∈ clean → clean_item kv).
Proof.
  exists [(PyObj.KStr "hosts", PyObj.OList [PyObj.OStr "https://es1:9200"])].
  split; [reflexivity|].
  apply (sdk_arguments_are_clean example_es_config). reflexivity.
Defined.

Section MoreConnection.
Import PyObj ESClientConfig.

Lemma rstrip_char_removed c s :
  ∃ t, s = rstrip_char c s +:+ t ∧ only_char c t = true.
Proof.
  induction s as [|a s (t & IH & Ht)]; [by exists ""|].
  simpl. destruct (rstrip_char c s) as [|b r] eqn:E.
  - destruct (Ascii.eqb_spec a c) as [->|Hne].
    + exists (String c t). split.
      * simpl in IH. by rewrite IH.
      * simpl. by rewrite Ascii.eqb_refl.
    + exists t. split; [|done]. simpl in *. by rewrite <- IH.
  - exists t. split; [|done]. simpl. f_equal. exact IH.
Qed.

Lemma set_fresh (d : dict) k v : k ∉ d.*1 → set d k v = d ++ [(k, v)].
Proof.
  induction d as [|[k0 v0] d IH]; intros Hk; [done|].
  simpl. rewrite fmap_cons, not_elem_of_cons in Hk. destruct Hk as [Hne Hk].
  rewrite (key_eqb_ne k0 k) by done. by rewrite IH.
Qed.

Lemma fold_set_filter (P : key * obj → bool) (d : dict) :
  NoDup d.*1 →
  foldl (fun acc kv => if P kv then set acc kv.1 kv.2 else acc) [] d
  = List.filter P d.
Proof.
  induction d as [|[k v] d IH] using rev_ind; intros Hnd; [done|].
  rewrite fmap_app in Hnd. apply NoDup_app in Hnd as (Hnd & Hfresh & _).
  rewrite foldl_app, List.filter_app, IH by done. simpl.
  destruct (P (k, v)); [|by rewrite app_nil_r].
  apply set_fresh. intros Hin.
  apply list_elem_of_fmap in Hin as ([k' v'] & -> & Hin).
  apply list_elem_of_In, List.filter_In in Hin as [Hin _].
  apply list_elem_of_In in Hin.
  apply (Hfresh k'); [|simpl; by left].
  apply list_elem_of_fmap. by exists (k', v').
Qed.

End MoreConnection.

(** X19. The base URL of the direct HTTP requests never ends with a slash.
    It is the configured host (the [hosts] string, or the first entry of
    the [hosts] list) less the slashes at its end, and
    [http://localhost:9200] when there is no such host; a first entry that
    is not a string is the one way for the call to fail. *)
Theorem base_url_no_trailing_slash (config : PyObj.dict) :
  match configured_host config with
  | None =>
      ESClientConfig._get_base_url config = PyObj.Return "http://localhost:9200"
  | Some (PyObj.OStr host) =>
      ∃ url slashes,
        ESClientConfig._get_base_url config = PyObj.Return url
        ∧ host = url +:+ slashes
        ∧ only_char "/" slashes = true
        ∧ ∀ s, url ≠ s +:+ "/"
  | Some _ =>
      ESClientConfig._get_base_url config = PyObj.Raise "AttributeError"
  end.
Proof.
  unfold configured_host, ESClientConfig._get_base_url.
  assert (∀ host, ∃ url slashes,
            PyObj.Return (A:=string) (PyObj.rstrip_char "/" host)
            = PyObj.Return url
            ∧ host = url +:+ slashes ∧ only_char "/" slashes = true
            ∧ ∀ s, url ≠ s +:+ "/") as Hstr.
  { intros host. destruct (rstrip_char_removed "/" host) as (t & Ht & Hs).
    exists (PyObj.rstrip_char "/" host), t. repeat split; try done.
    intros s. apply rstrip_char_no_trailing. }
  destruct (PyObj.get config (PyObj.KStr "hosts")) as [h|];
    cbn [default from_option id]; [|done].
  destruct h as [| | | |s|[|first l]| |]; try done; try apply Hstr.
  destruct first; try done; apply Hstr.
Qed.

(** X20. With [use_ssl] set and [hosts] given as a string without scheme
    (in a configuration with distinct keys), the SDK client is given the
    host with [https://] put in front, while the base URL of the direct
    HTTP requests is the host as written, less the slashes at its end,
    and so without scheme. *)
Theorem use_ssl_scheme_reaches_sdk_only (config : PyObj.dict) (host : string) :
  NoDup config.*1 →
  PyObj.get config (PyObj.KStr "hosts") = Some (PyObj.OStr host) →
  ESClientConfig.has_scheme host = false →
  PyObj.truthy
    (default (PyObj.OBool false) (PyObj.get config (PyObj.KStr "use_ssl")))
  = true →
  (∃ clean,
     ESClientConfig.clean_config config = PyObj.Return clean
     ∧ PyObj.get clean (PyObj.KStr "hosts")
       = Some (PyObj.OStr ("https://" +:+ host)))
  ∧ ESClientConfig._get_base_url config
    = PyObj.Return (PyObj.rstrip_char "/" host)
  ∧ ESClientConfig.has_scheme (PyObj.rstrip_char "/" host) = false.
Proof.
  intros Hnd Hh Hs Hssl. split; [|split].
  - pose proof (clean_loop_get config "hosts" Hnd) as Hget.
    rewrite Hh in Hget.
    change (ESClientConfig.accepted "hosts") with true in Hget.
    cbn [ESClientConfig.stored] in Hget.
    unfold ESClientConfig.clean_config, ESClientConfig.apply_use_ssl.
    unfold PyObj.mem at 1. rewrite Hssl, Hget, Hs. cbn [andb negb].
    eexists. split; [done|].
    unfold ESClientConfig.default_hosts, PyObj.mem.
    rewrite !get_set_eq. cbn [negb andb]. apply get_set_eq.
  - unfold ESClientConfig._get_base_url. by rewrite Hh.
  - by apply has_scheme_rstrip.
Qed.

Lemma use_ssl_scheme_reaches_sdk_only_witness :
  ESClientConfig._get_base_url example_ssl_config = PyObj.Return "es1:9200"
  ∧ ∃ clean,
      ESClientConfig.clean_config example_ssl_config = PyObj.Return clean
      ∧ PyObj.get clean (PyObj.KStr "hosts")
        = Some (PyObj.OStr "https://es1:9200/").
Proof.
  destruct (use_ssl_scheme_reaches_sdk_only example_ssl_config "es1:9200/")
    as (Hsdk & Hurl & _).
  - simpl; distinct_keys.
  - reflexivity.
  - reflexivity.
  - reflexivity.
  - split; [exact Hurl|exact Hsdk].
Defined.

(** X21. HTTP basic authentication is the same on both ways to the
    server.  When [_get_auth] gives a user name and a password for the
    direct HTTP requests, both are truthy, and (the configuration having
    distinct keys) the SDK client is given the same pair as
    [basic_auth]. *)
Theorem basic_auth_agrees (config clean : PyObj.dict) (username password : PyObj.obj) :
  NoDup config.*1 →
  ESClientConfig._get_auth config = Some (username, password) →
  ESClientConfig.clean_config config = PyObj.Return clean →
  PyObj.truthy username = true ∧ PyObj.truthy password = true
  ∧ PyObj.get clean (PyObj.KStr "basic_auth")
    = Some (PyObj.OTuple username password).
Proof.
  intros Hnd Hauth Hclean.
  unfold ESClientConfig._get_auth in Hauth.
  destruct (PyObj.get config (PyObj.KStr "basic_auth")) as [b|] eqn:Hb;
    [|done].
  destruct b as [| | | | | | |d]; try done. cbn zeta in Hauth.
  destruct (PyObj.truthy (default _ (PyObj.get d (PyObj.KStr "username"))))
    eqn:Hu; [|done].
  destruct (PyObj.truthy (default _ (PyObj.get d (PyObj.KStr "password"))))
    eqn:Hp; [|done].
  injection Hauth as <- <-. split; [done|]. split; [done|].
  rewrite (clean_config_other_keys config clean "basic_auth" Hclean) by done.
  rewrite (clean_loop_get config "basic_auth" Hnd), Hb. reflexivity.
Qed.

Lemma basic_auth_agrees_witness :
  ∃ clean,
    ESClientConfig.clean_config example_ssl_config = PyObj.Return clean
    ∧ PyObj.get clean (PyObj.KStr "basic_auth")
      = Some (PyObj.OTuple (PyObj.OStr "elastic") (PyObj.OStr "secret")).
Proof.
  eexists. split; [reflexivity|].
  apply (basic_auth_agrees example_ssl_config _
           (PyObj.OStr "elastic") (PyObj.OStr "secret")).
  - simpl; distinct_keys.
  - reflexivity.
  - reflexivity.
Defined.

(** X22. The connection settings handed to the client are the items of
    the [elasticsearch] section, in their order and with their values,
    less those whose value is [None], whose key is not a string, is
    [Optional] or [optional], or starts with [#] after trimming; a missing
    section gives no settings, and a section that is not a mapping is
    refused with [ValueError]. *)
Theorem elasticsearch_config_filters (self : Config.t) :
  match default (PyObj.ODict [])
          (PyObj.get (Config._config self) (PyObj.KStr "elasticsearch")) with
  | PyObj.ODict es_config =>
      NoDup es_config.*1 →
      Config.elasticsearch_config self
      = PyObj.Return (List.filter Config.keeps es_config)
  | _ => Config.elasticsearch_config self = PyObj.Raise "ValueError"
  end.
Proof.
  unfold Config.elasticsearch_config.
  destruct (default _ _) as [| | | | | | |es_config]; try done.
  intros Hnd. f_equal. by apply fold_set_filter.
Qed.

Lemma elasticsearch_config_filters_witness :
  Config.elasticsearch_config example_config
  = PyObj.Return [(PyObj.KStr "hosts", PyObj.OStr "http://es1:9200");
                  (PyObj.KStr "timeout", PyObj.OInt 30)].
Proof.
  apply (elasticsearch_config_filters example_config).
  simpl; distinct_keys.
Defined.
